(** * seo-ai: webhook dashboard (App.tsx, types.ts, the four tool components)

    A shallow embedding of the state handling of the dashboard: the JSON
    values a webhook returns, the per-tool state records of [types.ts], the
    submit handlers of the four tools, the persistence of webhook addresses
    in [App.tsx], the form as an event system, and the markdown converter of
    the On-Page SEO tool. *)

From Stdlib Require Import ZArith Ascii String List Lia Bool.
From stdpp Require Import base gmap strings list fin_maps pretty.

Local Open Scope string_scope.
Local Open Scope Z_scope.

Set Warnings "-register-all".

(** ** JavaScript values produced by [JSON.parse] *)

(** Numbers are kept as integers: HTTP status codes and ranks are, and the
    only arithmetic test in the handlers is [=== 0]; where the code
    compares, subtracts, prints or stores numbers, the integers on which
    the model is the program are those of [isSafeInteger] below.  Objects
    are finite maps from property names to values ([JSON.parse] keeps one
    value per key). *)
Inductive json : Type :=
| JNull
| JBool (b : bool)
| JNum (n : Z)
| JStr (s : string)
| JArr (elems : list json)
| JObj (props : gmap string json).

(** [undefined] is the absence of a value: a property read is an [option]. *)
Abbreviation jsval := (option json).

(** [!!v]: the truthiness of a value. *)
Definition truthy (v : json) : bool :=
  match v with
  | JNull => false
  | JBool b => b
  | JNum n => negb (n =? 0)
  | JStr s => negb (String.eqb s EmptyString)
  | JArr _ | JObj _ => true
  end.

(** [v || '']. *)
Definition orEmpty (v : jsval) : json :=
  match v with
  | Some x => if truthy x then x else JStr EmptyString
  | None => JStr EmptyString
  end.

(** [v[0]]: the first element of an array, the first code unit of a string,
    the property ["0"] of an object; [undefined] on [null] (the read is
    always written [?.[0]]), on numbers and on booleans. *)
Definition at0 (v : json) : jsval :=
  match v with
  | JArr (x :: _) => Some x
  | JStr (String c _) => Some (JStr (String c EmptyString))
  | JObj m => m !! "0"
  | _ => None
  end.

(** [v.name] for a name that no prototype defines and that is not an index:
    only an object can hold it. *)
Definition prop (name : string) (v : json) : jsval :=
  match v with
  | JObj m => m !! name
  | _ => None
  end.

(** [v?.[0]] and [v?.name] on a possibly undefined value. *)
Definition optAt0 (v : jsval) : jsval := v ≫= at0.
Definition optProp (name : string) (v : jsval) : jsval := v ≫= prop name.

(** [v === 0]. *)
Definition isZero (v : json) : bool :=
  match v with
  | JNum 0 => true
  | _ => false
  end.

(** ** Exceptions and effects *)

(** What a [catch (e)] clause can receive: an [Error] object with its
    message, or any other thrown value. *)
Inductive Thrown : Type :=
| ErrorObject (message : string)
| OtherValue.

Inductive Completion (A : Type) : Type :=
| Normal (a : A)
| Throw (e : Thrown).
Arguments Normal {A} a.
Arguments Throw {A} e.

(** A computation over a store [W] that may throw. *)
Definition Eff (W A : Type) : Type := W → W * Completion A.

Definition ret {W A} (a : A) : Eff W A := fun w => (w, Normal a).
Definition throw {W A} (e : Thrown) : Eff W A := fun w => (w, Throw e).
Definition bind {W A B} (m : Eff W A) (k : A → Eff W B) : Eff W B :=
  fun w =>
    match m w with
    | (w', Normal a) => k a w'
    | (w', Throw e) => (w', Throw e)
    end.
Definition effect {W} (f : W → W) : Eff W unit := fun w => (f w, Normal tt).
Definition lift {W A} (c : Completion A) : Eff W A := fun w => (w, c).

Notation "'let!' x ':=' m 'in' k" := (bind m (fun x => k))
  (at level 10, x name, m at level 100, k at level 200).
Notation "'run' m 'then' k" := (bind m (fun _ => k))
  (at level 10, m at level 100, k at level 200).

(** [try { body } catch (e) { handler e } finally { finalizer }], where the
    handler and the finalizer do not throw. *)
Definition tryCatchFinally {W} (body : Eff W unit)
    (handler : Thrown → W → W) (finalizer : W → W) : W → W :=
  fun w =>
    match body w with
    | (w', Normal _) => finalizer w'
    | (w', Throw e) => finalizer (handler e w')
    end.

(** [e instanceof Error ? e.message : 'An unknown error occurred.'] *)
Definition errorMessage (e : Thrown) : string :=
  match e with
  | ErrorObject message => message
  | OtherValue => "An unknown error occurred."
  end.

(** Reading a property of [null] throws a [TypeError]; the text is the
    engine's (V8's here). *)
Definition nullRead (name : string) : Thrown :=
  ErrorObject ("Cannot read properties of null (reading '" ++ name ++ "')").

(** [v.name] where [v] is not guarded by [?.]. *)
Definition member (name : string) (v : json) : Completion jsval :=
  match v with
  | JNull => Throw (nullRead name)
  | _ => Normal (prop name v)
  end.

(** ** The network *)

(** [fetch(input, { method, headers, body })]; [body] is the object that
    [JSON.stringify] serialises. *)
Record Request : Type := {
  input : json;
  method : string;
  headers : gmap string string;
  body : json;
}.

Definition post (webhook : json) (payload : gmap string json) : Request :=
  {| input := webhook; method := "POST";
     headers := {[ "Content-Type" := "application/json" ]};
     body := JObj payload |}.

(** What [response.json()] settles to. *)
Inductive Body : Type :=
| JsonBody (data : json)
| BadBody (e : Thrown).

(** What [fetch] settles to. *)
Inductive FetchOutcome : Type :=
| Rejected (e : Thrown)
| Response (status : Z) (payload : Body).

(** [response.ok] *)
Definition ok (status : Z) : bool := (200 <=? status) && (status <=? 299).

Definition httpError (status : Z) : Thrown :=
  ErrorObject ("HTTP error! Status: " ++ pretty status).

(** The part of the four [try] blocks up to [updateState({ rawResponse: data })]:
    the awaited [fetch], the [response.ok] test and the awaited
    [response.json()]. *)
Definition receive {W} (o : FetchOutcome) : Eff W json :=
  match o with
  | Rejected e => throw e
  | Response status payload =>
      if negb (ok status) then throw (httpError status)
      else match payload with
           | JsonBody data => ret data
           | BadBody e => throw e
           end
  end.

(** ** Strings *)

(** The double quote, for the messages that contain it. *)
Definition dq : string := String "034" EmptyString.

(** [!s] on a string. *)
Definition blank (s : string) : bool := String.eqb s EmptyString.

(** Strings are sequences of code units below 256.  [String.prototype.trim]
    removes white space and line terminators at both ends; below 256 these
    are tab, line feed, vertical tab, form feed, carriage return, space and
    no-break space. *)
Definition isSpace (c : ascii) : bool :=
  let n := nat_of_ascii c in
  ((9 <=? n) && (n <=? 13) || (n =? 32) || (n =? 160))%nat.

Fixpoint trimStart (s : string) : string :=
  match s with
  | String c s' => if isSpace c then trimStart s' else s
  | EmptyString => EmptyString
  end.

Fixpoint trimEnd (s : string) : string :=
  match s with
  | String c s' =>
      match trimEnd s' with
      | EmptyString => if isSpace c then EmptyString else String c EmptyString
      | t => String c t
      end
  | EmptyString => EmptyString
  end.

Definition trim (s : string) : string := trimEnd (trimStart s).

(** ** types.ts *)

(** [export enum Tool] *)
Inductive Tool : Type :=
| OnPageSEO
| KeywordGenerator
| BlogPostWriter
| RankTracker.

Global Instance Tool_eq_dec : EqDecision Tool.
Proof. solve_decision. Defined.

(** The enum's string values, which are the keys of [AppState] and of the
    stored webhook mapping. *)
Definition toolKey (t : Tool) : string :=
  match t with
  | OnPageSEO => "On-Page SEO"
  | KeywordGenerator => "Keyword Generator"
  | BlogPostWriter => "Blog Post Writer"
  | RankTracker => "Rank Tracker"
  end.

(** A field of a state interface [T] holds a value; the same field of
    [Partial<T>] may be missing.  Each interface below is written once, over
    the wrapper [F], and used at [Present] and at [option]. *)
Definition Present (A : Type) : Type := A.

(** [{ ...prev, ...newState }], field by field. *)
Definition spread {A} (prev : A) (new : option A) : A :=
  match new with
  | Some a => a
  | None => prev
  end.

(** [interface RankTrackerResult] *)
Record RankTrackerResult : Type := {
  CurrentRank : json;
  PreviousRank : json;
}.

(** The [webhook] fields are declared [string]; the initial state takes
    them from [JSON.parse] unchecked, so they hold a JavaScript value.
    [rawResponse: any | null] is a JavaScript value as well, [JNull] being
    its [null].  The keyword list is stored as the array that was received. *)
Module OnPageSeo.
Record Fields (F : Type → Type) : Type := {
  webhook : F json;
  url : F string;
  result : F (option string);
  isLoading : F bool;
  error : F (option string);
  rawResponse : F json;
}.
Arguments webhook {F} _.
Arguments url {F} _.
Arguments result {F} _.
Arguments isLoading {F} _.
Arguments error {F} _.
Arguments rawResponse {F} _.

(** [interface OnPageSeoState] and [Partial<OnPageSeoState>] *)
Definition State : Type := Fields Present.
Definition Partial : Type := Fields option.

Definition merge (prev : State) (newState : Partial) : State :=
  {| webhook := spread (webhook prev) (webhook newState);
     url := spread (url prev) (url newState);
     result := spread (result prev) (result newState);
     isLoading := spread (isLoading prev) (isLoading newState);
     error := spread (error prev) (error newState);
     rawResponse := spread (rawResponse prev) (rawResponse newState) |}.
End OnPageSeo.

Module KeywordGen.
Record Fields (F : Type → Type) : Type := {
  webhook : F json;
  topic : F string;
  result : F (option (list json));
  isLoading : F bool;
  error : F (option string);
  rawResponse : F json;
}.
Arguments webhook {F} _.
Arguments topic {F} _.
Arguments result {F} _.
Arguments isLoading {F} _.
Arguments error {F} _.
Arguments rawResponse {F} _.

(** [interface KeywordGeneratorState] and its [Partial] *)
Definition State : Type := Fields Present.
Definition Partial : Type := Fields option.

Definition merge (prev : State) (newState : Partial) : State :=
  {| webhook := spread (webhook prev) (webhook newState);
     topic := spread (topic prev) (topic newState);
     result := spread (result prev) (result newState);
     isLoading := spread (isLoading prev) (isLoading newState);
     error := spread (error prev) (error newState);
     rawResponse := spread (rawResponse prev) (rawResponse newState) |}.
End KeywordGen.

Module BlogPost.
Record Fields (F : Type → Type) : Type := {
  webhook : F json;
  topic : F string;
  result : F (option string);
  isLoading : F bool;
  error : F (option string);
  rawResponse : F json;
}.
Arguments webhook {F} _.
Arguments topic {F} _.
Arguments result {F} _.
Arguments isLoading {F} _.
Arguments error {F} _.
Arguments rawResponse {F} _.

(** [interface BlogPostWriterState] and its [Partial] *)
Definition State : Type := Fields Present.
Definition Partial : Type := Fields option.

Definition merge (prev : State) (newState : Partial) : State :=
  {| webhook := spread (webhook prev) (webhook newState);
     topic := spread (topic prev) (topic newState);
     result := spread (result prev) (result newState);
     isLoading := spread (isLoading prev) (isLoading newState);
     error := spread (error prev) (error newState);
     rawResponse := spread (rawResponse prev) (rawResponse newState) |}.
End BlogPost.

Module RankTrack.
Record Fields (F : Type → Type) : Type := {
  webhook : F json;
  domain : F string;
  keyword : F string;
  result : F (option RankTrackerResult);
  isLoading : F bool;
  error : F (option string);
  rawResponse : F json;
}.
Arguments webhook {F} _.
Arguments domain {F} _.
Arguments keyword {F} _.
Arguments result {F} _.
Arguments isLoading {F} _.
Arguments error {F} _.
Arguments rawResponse {F} _.

(** [interface RankTrackerState] and its [Partial] *)
Definition State : Type := Fields Present.
Definition Partial : Type := Fields option.

Definition merge (prev : State) (newState : Partial) : State :=
  {| webhook := spread (webhook prev) (webhook newState);
     domain := spread (domain prev) (domain newState);
     keyword := spread (keyword prev) (keyword newState);
     result := spread (result prev) (result newState);
     isLoading := spread (isLoading prev) (isLoading newState);
     error := spread (error prev) (error newState);
     rawResponse := spread (rawResponse prev) (rawResponse newState) |}.
End RankTrack.

(** ** The tool components

    Each [handleSubmit] is an async function.  It runs without interruption
    up to [await fetch(...)], and again from the moment the fetch settles to
    its end (nothing is written between the two awaits of the [try] block),
    so it is given as two functions over the store [W] that the [updateState]
    prop acts on: [handleSubmit], which returns the request it issues if
    any, and [handleSubmit_settled], the [try] statement from the fetch's
    outcome on.  [state] is the prop of the render in which the handler was
    created. *)

Module KeywordGeneratorTool.
Import KeywordGen.

Definition invalidStructure : string :=
  "Invalid data structure in webhook response. Expected an array with one object like: [{ "
  ++ dq ++ "keywords" ++ dq ++ ": [...] }].".

Definition missingProperties : string :=
  "Keyword objects in the response are missing required properties like "
  ++ dq ++ "keyword" ++ dq ++ " or " ++ dq ++ "intent" ++ dq ++ ".".

(** Lines 36-48: [data?.[0]?.keywords] and its validation. *)
Definition keywordsOf (data : json) : Completion (list json) :=
  match optProp "keywords" (optAt0 (Some data)) with
  | Some (JArr keywordsData) =>
      match keywordsData with
      | first :: _ =>
          match member "keyword" first with
          | Throw e => Throw e
          | Normal None => Throw (ErrorObject missingProperties)
          | Normal (Some _) =>
              match member "intent" first with
              | Throw e => Throw e
              | Normal None => Throw (ErrorObject missingProperties)
              | Normal (Some _) => Normal keywordsData
              end
          end
      | [] => Normal keywordsData
      end
  | _ => Throw (ErrorObject invalidStructure)
  end.

Section Component.
Context {W : Type} (updateState : Partial → W → W).

Definition handleSubmit (state : State) (w : W) : W * option Request :=
  if negb (truthy (webhook state)) || blank (topic state) then
    (updateState {| webhook := None; topic := None; result := None; isLoading := None;
                    error := Some (Some "Webhook URL and topic are required.");
                    rawResponse := None |} w,
     None)
  else
    (updateState {| webhook := None; topic := None; result := Some None;
                    isLoading := Some true; error := Some None;
                    rawResponse := Some JNull |} w,
     Some (post (webhook state) {[ "topic" := JStr (topic state) ]})).

Definition tryBlock (o : FetchOutcome) : Eff W unit :=
  let! data := receive o in
  run effect (updateState {| webhook := None; topic := None; result := None;
                             isLoading := None; error := None;
                             rawResponse := Some data |}) then
  let! keywordsData := lift (keywordsOf data) in
  effect (updateState {| webhook := None; topic := None;
                         result := Some (Some keywordsData);
                         isLoading := None; error := None; rawResponse := None |}).

Definition handleSubmit_settled (o : FetchOutcome) : W → W :=
  tryCatchFinally (tryBlock o)
    (fun e =>
       updateState {| webhook := None; topic := None; result := None; isLoading := None;
                      error := Some (Some ("Failed to generate keywords: " ++ errorMessage e));
                      rawResponse := None |})
    (updateState {| webhook := None; topic := None; result := None;
                    isLoading := Some false; error := None; rawResponse := None |}).
End Component.

(** The [disabled] attributes of the form. *)
Definition inputsDisabled (state : State) : bool := isLoading state.
Definition submitDisabled (state : State) : bool :=
  isLoading state || negb (truthy (webhook state)) || blank (topic state).
End KeywordGeneratorTool.

Module BlogPostWriterTool.
Import BlogPost.

Definition invalidContent : string :=
  "Invalid or empty HTML content in webhook response. Expected [{ "
  ++ dq ++ "blog_post_html" ++ dq ++ ": " ++ dq ++ "<html_string>" ++ dq ++ " }].".

(** Lines 71-75: [data?.[0]?.blog_post_html] and its validation. *)
Definition htmlOf (data : json) : Completion string :=
  match optProp "blog_post_html" (optAt0 (Some data)) with
  | Some (JStr htmlResult) =>
      if blank (trim htmlResult) then Throw (ErrorObject invalidContent)
      else Normal htmlResult
  | _ => Throw (ErrorObject invalidContent)
  end.

Section Component.
Context {W : Type} (updateState : Partial → W → W).

Definition handleSubmit (state : State) (w : W) : W * option Request :=
  if negb (truthy (webhook state)) || blank (topic state) then
    (updateState {| webhook := None; topic := None; result := None; isLoading := None;
                    error := Some (Some "Webhook URL and topic are required.");
                    rawResponse := None |} w,
     None)
  else
    (updateState {| webhook := None; topic := None; result := Some None;
                    isLoading := Some true; error := Some None;
                    rawResponse := Some JNull |} w,
     Some (post (webhook state) {[ "topic" := JStr (topic state) ]})).

Definition tryBlock (o : FetchOutcome) : Eff W unit :=
  let! data := receive o in
  run effect (updateState {| webhook := None; topic := None; result := None;
                             isLoading := None; error := None;
                             rawResponse := Some data |}) then
  let! htmlResult := lift (htmlOf data) in
  effect (updateState {| webhook := None; topic := None;
                         result := Some (Some htmlResult);
                         isLoading := None; error := None; rawResponse := None |}).

Definition handleSubmit_settled (o : FetchOutcome) : W → W :=
  tryCatchFinally (tryBlock o)
    (fun e =>
       updateState {| webhook := None; topic := None; result := None; isLoading := None;
                      error := Some (Some ("Failed to write blog post: " ++ errorMessage e));
                      rawResponse := None |})
    (updateState {| webhook := None; topic := None; result := None;
                    isLoading := Some false; error := None; rawResponse := None |}).
End Component.

Definition inputsDisabled (state : State) : bool := isLoading state.
Definition submitDisabled (state : State) : bool :=
  isLoading state || negb (truthy (webhook state)) || blank (topic state).
End BlogPostWriterTool.

Module RankTrackerTool.
Import RankTrack.

Definition invalidStructure : string :=
  "Invalid data structure in webhook response. Expected an array with one object like: [{ "
  ++ dq ++ "current_rank" ++ dq ++ ": number, "
  ++ dq ++ "previous_rank" ++ dq ++ ": number }].".

(** Lines 269-284: [data?.[0]], its validation and the mapping to the
    state's result.  The two property reads come after [!responseData],
    so they never meet [null]. *)
Definition rankOf (data : json) : Completion RankTrackerResult :=
  match optAt0 (Some data) with
  | Some responseData =>
      if negb (truthy responseData) then Throw (ErrorObject invalidStructure)
      else
        match prop "current_rank" responseData, prop "previous_rank" responseData with
        | Some current_rank, Some previous_rank =>
            Normal {| CurrentRank :=
                        if isZero current_rank then JStr "Not Found" else current_rank;
                      PreviousRank :=
                        if isZero previous_rank then JStr "N/A" else previous_rank |}
        | _, _ => Throw (ErrorObject invalidStructure)
        end
  | None => Throw (ErrorObject invalidStructure)
  end.

Section Component.
Context {W : Type} (updateState : Partial → W → W).

Definition handleSubmit (state : State) (w : W) : W * option Request :=
  if negb (truthy (webhook state)) || blank (domain state) || blank (keyword state) then
    (updateState {| webhook := None; domain := None; keyword := None; result := None;
                    isLoading := None;
                    error := Some (Some "Webhook URL, domain, and keyword are required.");
                    rawResponse := None |} w,
     None)
  else
    (updateState {| webhook := None; domain := None; keyword := None;
                    result := Some None; isLoading := Some true; error := Some None;
                    rawResponse := Some JNull |} w,
     Some (post (webhook state)
             {[ "domain" := JStr (domain state); "keyword" := JStr (keyword state) ]})).

Definition tryBlock (o : FetchOutcome) : Eff W unit :=
  let! data := receive o in
  run effect (updateState {| webhook := None; domain := None; keyword := None;
                             result := None; isLoading := None; error := None;
                             rawResponse := Some data |}) then
  let! newResult := lift (rankOf data) in
  effect (updateState {| webhook := None; domain := None; keyword := None;
                         result := Some (Some newResult);
                         isLoading := None; error := None; rawResponse := None |}).

Definition handleSubmit_settled (o : FetchOutcome) : W → W :=
  tryCatchFinally (tryBlock o)
    (fun e =>
       updateState {| webhook := None; domain := None; keyword := None; result := None;
                      isLoading := None;
                      error := Some (Some ("Failed to check rank: " ++ errorMessage e));
                      rawResponse := None |})
    (updateState {| webhook := None; domain := None; keyword := None; result := None;
                    isLoading := Some false; error := None; rawResponse := None |}).
End Component.

Definition inputsDisabled (state : State) : bool := isLoading state.
Definition submitDisabled (state : State) : bool :=
  isLoading state || negb (truthy (webhook state)) || blank (domain state)
  || blank (keyword state).
End RankTrackerTool.

(** ** String methods used by the markdown converter *)

Definition lineFeed : ascii := "010"%char.
Definition backtick : string := String "096" EmptyString.

(** The characters that [.] does not match: the line terminators (below
    256, line feed and carriage return). *)
Definition isLineTerminator (c : ascii) : bool :=
  let n := nat_of_ascii c in ((n =? 10) || (n =? 13))%nat.

(** [s.startsWith(p)], returning what follows [p]. *)
Fixpoint stripPrefix (p s : string) : option string :=
  match p, s with
  | EmptyString, _ => Some s
  | String a p', String b s' => if Ascii.eqb a b then stripPrefix p' s' else None
  | String _ _, EmptyString => None
  end.

Definition startsWith (p s : string) : bool :=
  match stripPrefix p s with
  | Some _ => true
  | None => false
  end.

(** [s.substring(n)] *)
Fixpoint substringFrom (n : nat) (s : string) : string :=
  match n, s with
  | O, _ => s
  | S n', String _ s' => substringFrom n' s'
  | S _, EmptyString => EmptyString
  end.

(** [s.replace(/c/g, by)] for a single character [c]. *)
Fixpoint replaceChar (c : ascii) (by_ : string) (s : string) : string :=
  match s with
  | EmptyString => EmptyString
  | String a s' =>
      if Ascii.eqb a c then by_ ++ replaceChar c by_ s'
      else String a (replaceChar c by_ s')
  end.

(** Prepends a character to the first piece of a split. *)
Definition consToFirst (c : ascii) (pieces : list string) : list string :=
  match pieces with
  | piece :: rest => String c piece :: rest
  | [] => [String c EmptyString]
  end.

(** [s.split('\n')] *)
Fixpoint splitLines (s : string) : list string :=
  match s with
  | EmptyString => [EmptyString]
  | String c s' =>
      if Ascii.eqb c lineFeed then EmptyString :: splitLines s'
      else consToFirst c (splitLines s')
  end.

(** [s.split('\n\n')]: separators are found from the left and do not overlap. *)
Fixpoint splitBlocks (s : string) : list string :=
  match s with
  | EmptyString => [EmptyString]
  | String c s' =>
      match s' with
      | String c' s'' =>
          if Ascii.eqb c lineFeed && Ascii.eqb c' lineFeed
          then EmptyString :: splitBlocks s''
          else consToFirst c (splitBlocks s')
      | EmptyString => consToFirst c (splitBlocks s')
      end
  end.

(** [(.*?)delim] matched at the start of [s]: the shortest run of
    characters other than line terminators that [delim] follows, and what
    comes after that [delim]. *)
Fixpoint lazyUntil (delim : string) (s : string) : option (string * string) :=
  match stripPrefix delim s with
  | Some rest => Some (EmptyString, rest)
  | None =>
      match s with
      | EmptyString => None
      | String c s' =>
          if isLineTerminator c then None
          else match lazyUntil delim s' with
               | Some (content, rest) => Some (String c content, rest)
               | None => None
               end
      end
  end.

(** [s.replace(/delim(.*?)delim/g, (match, content) => wrap content)] for a
    literal, non-empty [delim]: matches are sought from the left, each
    search resuming after the previous match.  Every step consumes a
    character, so the length of [s] bounds the number of steps. *)
Fixpoint replaceSpansFrom (steps : nat) (delim : string) (wrap : string → string)
    (s : string) : string :=
  match steps with
  | O => s
  | S steps' =>
      match stripPrefix delim s ≫= lazyUntil delim with
      | Some (content, rest) => wrap content ++ replaceSpansFrom steps' delim wrap rest
      | None =>
          match s with
          | EmptyString => EmptyString
          | String c s' => String c (replaceSpansFrom steps' delim wrap s')
          end
      end
  end.

Definition replaceSpans (delim : string) (wrap : string → string) (s : string) : string :=
  replaceSpansFrom (String.length s) delim wrap s.

Module OnPageSeoTool.
Import OnPageSeo.

(** Lines 24-31. *)
Definition escapeHtml (unsafe : string) : string :=
  replaceChar "'" "&#039;"
    (replaceChar "034" "&quot;"
       (replaceChar ">" "&gt;"
          (replaceChar "<" "&lt;"
             (replaceChar "&" "&amp;" unsafe)))).

(** Lines 33-41. *)
Definition processLine (line : string) : string :=
  let processedLine :=
    replaceSpans backtick
      (fun codeContent => "<code>" ++ escapeHtml codeContent ++ "</code>") line in
  replaceSpans "**" (fun content => "<strong>" ++ content ++ "</strong>") processedLine.

(** [item.replace(/^\*   ?/, '')]: an asterisk, two spaces and, if
    present, a third one. *)
Definition stripBullet (item : string) : string :=
  match stripPrefix "*  " item with
  | Some rest =>
      match stripPrefix " " rest with
      | Some rest' => rest'
      | None => rest
      end
  | None => item
  end.

(** Lines 43-58, for one block. *)
Definition convertBlock (block : string) : string :=
  if startsWith "* " (trim block) then
    let items :=
      String.concat EmptyString
        (map (fun item => "<li>" ++ processLine (stripBullet item) ++ "</li>")
           (splitLines block)) in
    "<ul>" ++ items ++ "</ul>"
  else if startsWith "## " block then
    "<h2>" ++ processLine (substringFrom 3 block) ++ "</h2>"
  else
    "<p>" ++ processLine (replaceChar lineFeed "<br />" block) ++ "</p>".

Definition parseMarkdown (text : string) : string :=
  if blank text then EmptyString
  else String.concat EmptyString (map convertBlock (splitBlocks text)).


Definition invalidContent : string :=
  "Invalid or empty content in webhook response. Expected [{ "
  ++ dq ++ "blog_post_html" ++ dq ++ ": " ++ dq ++ "<string>" ++ dq ++ " }].".

(** Lines 85-89: [data?.[0]?.blog_post_html] and its validation. *)
Definition reportOf (data : json) : Completion string :=
  match optProp "blog_post_html" (optAt0 (Some data)) with
  | Some (JStr reportData) =>
      if blank (trim reportData) then Throw (ErrorObject invalidContent)
      else Normal reportData
  | _ => Throw (ErrorObject invalidContent)
  end.

Section Component.
Context {W : Type} (updateState : Partial → W → W).

Definition handleSubmit (state : State) (w : W) : W * option Request :=
  if negb (truthy (webhook state)) || blank (url state) then
    (updateState {| webhook := None; url := None; result := None; isLoading := None;
                    error := Some (Some "Webhook URL and page URL are required.");
                    rawResponse := None |} w,
     None)
  else
    (updateState {| webhook := None; url := None; result := Some None;
                    isLoading := Some true; error := Some None;
                    rawResponse := Some JNull |} w,
     Some (post (webhook state) {[ "url" := JStr (url state) ]})).

Definition tryBlock (o : FetchOutcome) : Eff W unit :=
  let! data := receive o in
  run effect (updateState {| webhook := None; url := None; result := None;
                             isLoading := None; error := None;
                             rawResponse := Some data |}) then
  let! reportData := lift (reportOf data) in
  effect (updateState {| webhook := None; url := None;
                         result := Some (Some reportData);
                         isLoading := None; error := None; rawResponse := None |}).

Definition handleSubmit_settled (o : FetchOutcome) : W → W :=
  tryCatchFinally (tryBlock o)
    (fun e =>
       updateState {| webhook := None; url := None; result := None; isLoading := None;
                      error := Some (Some ("Failed to fetch analysis: " ++ errorMessage e));
                      rawResponse := None |})
    (updateState {| webhook := None; url := None; result := None;
                    isLoading := Some false; error := None; rawResponse := None |}).
End Component.

Definition inputsDisabled (state : State) : bool := isLoading state.
Definition submitDisabled (state : State) : bool :=
  isLoading state || negb (truthy (webhook state)) || blank (url state).
End OnPageSeoTool.

(** ** Browser storage and [JSON] *)

(** A text kept in local storage, described by what the program can learn
    about it: whether it is the empty string (falsy, never parsed), and what
    [JSON.parse] makes of it.  All texts that [JSON.parse] rejects are
    alike to the program; a text that it accepts is identified with the
    value it yields, and [JSON.stringify] of a parsed value is such a
    text.  For a number this holds of the integers that a double holds
    exactly: a numeral too large for a double is read as [Infinity] and
    written back as [null], which the model does not follow. *)
Inductive Text : Type :=
| EmptyText
| Unparseable
| Serialized (j : json).

Definition syntaxError : Thrown := ErrorObject "Unexpected end of JSON input".

Definition JSON_parse (t : Text) : Completion json :=
  match t with
  | Serialized j => Normal j
  | EmptyText | Unparseable => Throw syntaxError
  end.

Definition JSON_stringify (j : json) : Text := Serialized j.

(** [localStorage]: its items, and the [setItem] calls made so far.  The
    storage is taken to be available and unbounded: [getItem] and [setItem]
    do not throw. *)
Record LocalStorage : Type := {
  items : gmap string Text;
  setItemCalls : list (string * Text);
}.

Definition getItem (key : string) (ls : LocalStorage) : option Text :=
  items ls !! key.

Definition setItem (key : string) (value : Text) (ls : LocalStorage) : LocalStorage :=
  {| items := <[key := value]> (items ls);
     setItemCalls := setItemCalls ls ++ [(key, value)] |}.

(** Sequencing of computations that only throw. *)
Definition andThen {A B} (c : Completion A) (k : A → Completion B) : Completion B :=
  match c with
  | Normal a => k a
  | Throw e => Throw e
  end.

(** [target[key] = value] in module (strict) code, for a key that is not an
    index, as [JSON.stringify] sees [target] afterwards: an object gains or
    changes the property, an array keeps its elements (the named property is
    not serialised), [null] and the primitives throw a [TypeError]. *)
Definition assign (key : string) (value : json) (target : json) : Completion json :=
  match target with
  | JObj m => Normal (JObj (<[key := value]> m))
  | JArr elems => Normal (JArr elems)
  | JNull => Throw (ErrorObject ("Cannot set properties of null (setting '" ++ key ++ "')"))
  | _ => Throw (ErrorObject ("Cannot create property '" ++ key ++ "'"))
  end.

(** ** App.tsx *)

Module App.

Definition LOCAL_STORAGE_KEY : string := "n8n-seo-tool-webhooks".

(** [interface AppState], keyed by the four tools. *)
Record AppState : Type := {
  onPageSEO : OnPageSeo.State;
  keywordGenerator : KeywordGen.State;
  blogPostWriter : BlogPost.State;
  rankTracker : RankTrack.State;
}.

(** [AppState[T]] and [Partial<AppState[T]>] *)
Definition StateOf (tool : Tool) : Type :=
  match tool with
  | OnPageSEO => OnPageSeo.State
  | KeywordGenerator => KeywordGen.State
  | BlogPostWriter => BlogPost.State
  | RankTracker => RankTrack.State
  end.

Definition PartialOf (tool : Tool) : Type :=
  match tool with
  | OnPageSEO => OnPageSeo.Partial
  | KeywordGenerator => KeywordGen.Partial
  | BlogPostWriter => BlogPost.Partial
  | RankTracker => RankTrack.Partial
  end.

(** [prevState[tool]] *)
Definition getTool (tool : Tool) (s : AppState) : StateOf tool :=
  match tool with
  | OnPageSEO => onPageSEO s
  | KeywordGenerator => keywordGenerator s
  | BlogPostWriter => blogPostWriter s
  | RankTracker => rankTracker s
  end.

(** [{ ...prevState, [tool]: v }] *)
Definition setTool (tool : Tool) : StateOf tool → AppState → AppState :=
  match tool with
  | OnPageSEO => fun v s =>
      {| onPageSEO := v; keywordGenerator := keywordGenerator s;
         blogPostWriter := blogPostWriter s; rankTracker := rankTracker s |}
  | KeywordGenerator => fun v s =>
      {| onPageSEO := onPageSEO s; keywordGenerator := v;
         blogPostWriter := blogPostWriter s; rankTracker := rankTracker s |}
  | BlogPostWriter => fun v s =>
      {| onPageSEO := onPageSEO s; keywordGenerator := keywordGenerator s;
         blogPostWriter := v; rankTracker := rankTracker s |}
  | RankTracker => fun v s =>
      {| onPageSEO := onPageSEO s; keywordGenerator := keywordGenerator s;
         blogPostWriter := blogPostWriter s; rankTracker := v |}
  end.

(** [{ ...prevState[tool], ...newState }] *)
Definition mergeOf (tool : Tool) : StateOf tool → PartialOf tool → StateOf tool :=
  match tool with
  | OnPageSEO => OnPageSeo.merge
  | KeywordGenerator => KeywordGen.merge
  | BlogPostWriter => BlogPost.merge
  | RankTracker => RankTrack.merge
  end.

(** [newState.webhook] *)
Definition webhookOf (tool : Tool) : PartialOf tool → option json :=
  match tool with
  | OnPageSEO => OnPageSeo.webhook
  | KeywordGenerator => KeywordGen.webhook
  | BlogPostWriter => BlogPost.webhook
  | RankTracker => RankTrack.webhook
  end.

(** [savedWebhooks ? JSON.parse(savedWebhooks) : {}] *)
Definition parseSaved (savedWebhooks : option Text) : Completion json :=
  match savedWebhooks with
  | None | Some EmptyText => Normal (JObj ∅)
  | Some text => JSON_parse text
  end.

(** Lines 301-306. *)
Definition cleanState : AppState :=
  {| onPageSEO :=
       {| OnPageSeo.webhook := JStr EmptyString; OnPageSeo.url := EmptyString;
          OnPageSeo.result := None; OnPageSeo.isLoading := false;
          OnPageSeo.error := None; OnPageSeo.rawResponse := JNull |};
     keywordGenerator :=
       {| KeywordGen.webhook := JStr EmptyString; KeywordGen.topic := EmptyString;
          KeywordGen.result := None; KeywordGen.isLoading := false;
          KeywordGen.error := None; KeywordGen.rawResponse := JNull |};
     blogPostWriter :=
       {| BlogPost.webhook := JStr EmptyString; BlogPost.topic := EmptyString;
          BlogPost.result := None; BlogPost.isLoading := false;
          BlogPost.error := None; BlogPost.rawResponse := JNull |};
     rankTracker :=
       {| RankTrack.webhook := JStr EmptyString; RankTrack.domain := EmptyString;
          RankTrack.keyword := EmptyString;
          RankTrack.result := None; RankTrack.isLoading := false;
          RankTrack.error := None; RankTrack.rawResponse := JNull |} |}.

(** Lines 289-297: the [try] block of the state initialiser. *)
Definition loadState (ls : LocalStorage) : Completion AppState :=
  andThen (parseSaved (getItem LOCAL_STORAGE_KEY ls)) (fun initialWebhooks =>
  andThen (member (toolKey OnPageSEO) initialWebhooks) (fun w1 =>
  andThen (member (toolKey KeywordGenerator) initialWebhooks) (fun w2 =>
  andThen (member (toolKey BlogPostWriter) initialWebhooks) (fun w3 =>
  andThen (member (toolKey RankTracker) initialWebhooks) (fun w4 =>
  Normal
    {| onPageSEO :=
         {| OnPageSeo.webhook := orEmpty w1; OnPageSeo.url := EmptyString;
            OnPageSeo.result := None; OnPageSeo.isLoading := false;
            OnPageSeo.error := None; OnPageSeo.rawResponse := JNull |};
       keywordGenerator :=
         {| KeywordGen.webhook := orEmpty w2; KeywordGen.topic := EmptyString;
            KeywordGen.result := None; KeywordGen.isLoading := false;
            KeywordGen.error := None; KeywordGen.rawResponse := JNull |};
       blogPostWriter :=
         {| BlogPost.webhook := orEmpty w3; BlogPost.topic := EmptyString;
            BlogPost.result := None; BlogPost.isLoading := false;
            BlogPost.error := None; BlogPost.rawResponse := JNull |};
       rankTracker :=
         {| RankTrack.webhook := orEmpty w4; RankTrack.domain := EmptyString;
            RankTrack.keyword := EmptyString;
            RankTrack.result := None; RankTrack.isLoading := false;
            RankTrack.error := None; RankTrack.rawResponse := JNull |} |}))))).

(** Lines 287-308: the initialiser of [useState<AppState>]. *)
Definition initialState (ls : LocalStorage) : AppState :=
  match loadState ls with
  | Normal s => s
  | Throw _ => cleanState
  end.

(** Lines 314-321: the [try] statement of [updateToolState]; the [catch]
    clause only logs. *)
Definition saveWebhook (tool : Tool) (webhook : json) (ls : LocalStorage) : LocalStorage :=
  match
    andThen (parseSaved (getItem LOCAL_STORAGE_KEY ls)) (fun webhooks =>
    andThen (assign (toolKey tool) webhook webhooks) (fun webhooks' =>
    Normal (setItem LOCAL_STORAGE_KEY (JSON_stringify webhooks') ls)))
  with
  | Normal ls' => ls'
  | Throw _ => ls
  end.

(** What [updateToolState] acts on: the storage and the React state. *)
Record Browser : Type := {
  localStorage : LocalStorage;
  appState : AppState;
}.

(** Lines 311-328. *)
Definition updateToolState (tool : Tool) (newState : PartialOf tool) (b : Browser) : Browser :=
  {| localStorage :=
       match webhookOf tool newState with
       | Some webhook => saveWebhook tool webhook (localStorage b)
       | None => localStorage b
       end;
     appState :=
       setTool tool (mergeOf tool (getTool tool (appState b)) newState) (appState b) |}.

(** Lines 330-343: each component receives its state and
    [updateState = (s) => updateToolState(tool, s)].  [handleSubmit] is
    the active component's handler in the current render. *)
Definition handleSubmit (tool : Tool) (b : Browser) : Browser * option Request :=
  match tool with
  | OnPageSEO =>
      OnPageSeoTool.handleSubmit (updateToolState OnPageSEO) (onPageSEO (appState b)) b
  | KeywordGenerator =>
      KeywordGeneratorTool.handleSubmit (updateToolState KeywordGenerator)
        (keywordGenerator (appState b)) b
  | BlogPostWriter =>
      BlogPostWriterTool.handleSubmit (updateToolState BlogPostWriter)
        (blogPostWriter (appState b)) b
  | RankTracker =>
      RankTrackerTool.handleSubmit (updateToolState RankTracker)
        (rankTracker (appState b)) b
  end.

Definition handleSubmit_settled (tool : Tool) (o : FetchOutcome) (b : Browser) : Browser :=
  match tool with
  | OnPageSEO => OnPageSeoTool.handleSubmit_settled (updateToolState OnPageSEO) o b
  | KeywordGenerator =>
      KeywordGeneratorTool.handleSubmit_settled (updateToolState KeywordGenerator) o b
  | BlogPostWriter =>
      BlogPostWriterTool.handleSubmit_settled (updateToolState BlogPostWriter) o b
  | RankTracker => RankTrackerTool.handleSubmit_settled (updateToolState RankTracker) o b
  end.

End App.

(** ** The fields that the four states share, read by tool *)

Definition ResultOf (tool : Tool) : Type :=
  match tool with
  | OnPageSEO => string
  | KeywordGenerator => list json
  | BlogPostWriter => string
  | RankTracker => RankTrackerResult
  end.

Definition webhookIn (tool : Tool) (s : App.AppState) : json :=
  match tool with
  | OnPageSEO => OnPageSeo.webhook (App.onPageSEO s)
  | KeywordGenerator => KeywordGen.webhook (App.keywordGenerator s)
  | BlogPostWriter => BlogPost.webhook (App.blogPostWriter s)
  | RankTracker => RankTrack.webhook (App.rankTracker s)
  end.

Definition resultIn (tool : Tool) (s : App.AppState) : option (ResultOf tool) :=
  match tool with
  | OnPageSEO => OnPageSeo.result (App.onPageSEO s)
  | KeywordGenerator => KeywordGen.result (App.keywordGenerator s)
  | BlogPostWriter => BlogPost.result (App.blogPostWriter s)
  | RankTracker => RankTrack.result (App.rankTracker s)
  end.

Definition isLoadingIn (tool : Tool) (s : App.AppState) : bool :=
  match tool with
  | OnPageSEO => OnPageSeo.isLoading (App.onPageSEO s)
  | KeywordGenerator => KeywordGen.isLoading (App.keywordGenerator s)
  | BlogPostWriter => BlogPost.isLoading (App.blogPostWriter s)
  | RankTracker => RankTrack.isLoading (App.rankTracker s)
  end.

Definition errorIn (tool : Tool) (s : App.AppState) : option string :=
  match tool with
  | OnPageSEO => OnPageSeo.error (App.onPageSEO s)
  | KeywordGenerator => KeywordGen.error (App.keywordGenerator s)
  | BlogPostWriter => BlogPost.error (App.blogPostWriter s)
  | RankTracker => RankTrack.error (App.rankTracker s)
  end.

Definition rawResponseIn (tool : Tool) (s : App.AppState) : json :=
  match tool with
  | OnPageSEO => OnPageSeo.rawResponse (App.onPageSEO s)
  | KeywordGenerator => KeywordGen.rawResponse (App.keywordGenerator s)
  | BlogPostWriter => BlogPost.rawResponse (App.blogPostWriter s)
  | RankTracker => RankTrack.rawResponse (App.rankTracker s)
  end.

(** The query fields of a tool, in the order of its form. *)
Definition queryIn (tool : Tool) (s : App.AppState) : list string :=
  match tool with
  | OnPageSEO => [OnPageSeo.url (App.onPageSEO s)]
  | KeywordGenerator => [KeywordGen.topic (App.keywordGenerator s)]
  | BlogPostWriter => [BlogPost.topic (App.blogPostWriter s)]
  | RankTracker => [RankTrack.domain (App.rankTracker s); RankTrack.keyword (App.rankTracker s)]
  end.

(** The validation that each handler applies to [data]. *)
Definition validate (tool : Tool) (data : json) : Completion (ResultOf tool) :=
  match tool with
  | OnPageSEO => OnPageSeoTool.reportOf data
  | KeywordGenerator => KeywordGeneratorTool.keywordsOf data
  | BlogPostWriter => BlogPostWriterTool.htmlOf data
  | RankTracker => RankTrackerTool.rankOf data
  end.

(** The text that starts a tool's failure message, and its message for
    missing input. *)
Definition failureText (tool : Tool) : string :=
  match tool with
  | OnPageSEO => "Failed to fetch analysis: "
  | KeywordGenerator => "Failed to generate keywords: "
  | BlogPostWriter => "Failed to write blog post: "
  | RankTracker => "Failed to check rank: "
  end.

Definition requiredText (tool : Tool) : string :=
  match tool with
  | OnPageSEO => "Webhook URL and page URL are required."
  | KeywordGenerator | BlogPostWriter => "Webhook URL and topic are required."
  | RankTracker => "Webhook URL, domain, and keyword are required."
  end.

(** The [disabled] attribute of a tool's inputs and of its submit button. *)
Definition inputsDisabled (tool : Tool) (s : App.AppState) : bool :=
  match tool with
  | OnPageSEO => OnPageSeoTool.inputsDisabled (App.onPageSEO s)
  | KeywordGenerator => KeywordGeneratorTool.inputsDisabled (App.keywordGenerator s)
  | BlogPostWriter => BlogPostWriterTool.inputsDisabled (App.blogPostWriter s)
  | RankTracker => RankTrackerTool.inputsDisabled (App.rankTracker s)
  end.

Definition submitDisabled (tool : Tool) (s : App.AppState) : bool :=
  match tool with
  | OnPageSEO => OnPageSeoTool.submitDisabled (App.onPageSEO s)
  | KeywordGenerator => KeywordGeneratorTool.submitDisabled (App.keywordGenerator s)
  | BlogPostWriter => BlogPostWriterTool.submitDisabled (App.blogPostWriter s)
  | RankTracker => RankTrackerTool.submitDisabled (App.rankTracker s)
  end.

(** ** A submit action, run to its end *)

(** The handler up to the fetch, then, if a request went out, the rest of
    the handler on the fetch's outcome; with the requests issued. *)
Definition submit (tool : Tool) (o : FetchOutcome) (b : App.Browser)
    : App.Browser * list Request :=
  match App.handleSubmit tool b with
  | (b1, Some request) => (App.handleSubmit_settled tool o b1, [request])
  | (b1, None) => (b1, [])
  end.

(** ** The response contract *)

(** The contract in the words of the specification: an array whose first
    element carries a keywords array (Keyword Generator), a non-empty string
    under [blog_post_html] (Blog Post Writer, On-Page SEO), or defined
    [current_rank] and [previous_rank] (Rank Tracker). *)
Definition carriesPayload (tool : Tool) (first : json) : Prop :=
  match tool with
  | KeywordGenerator => ∃ ks, prop "keywords" first = Some (JArr ks)
  | OnPageSEO | BlogPostWriter =>
      ∃ html, prop "blog_post_html" first = Some (JStr html) ∧ html ≠ EmptyString
  | RankTracker =>
      is_Some (prop "current_rank" first) ∧ is_Some (prop "previous_rank" first)
  end.

Definition conformsAsArray (tool : Tool) (data : json) : Prop :=
  ∃ first rest, data = JArr (first :: rest) ∧ carriesPayload tool first.

(** The same with "first element" read as the handlers read it, [data?.[0]]. *)
Definition conformsAtIndex0 (tool : Tool) (data : json) : Prop :=
  ∃ first, at0 data = Some first ∧ carriesPayload tool first.


(** A keyword array that passes the inner check of the Keyword Generator:
    empty, or with [keyword] and [intent] defined on its first element. *)
Definition validKeywords (ks : list json) : Prop :=
  match ks with
  | [] => True
  | first :: _ => is_Some (prop "keyword" first) ∧ is_Some (prop "intent" first)
  end.

(** ** The page as an event system *)

(** React runs an event handler to its end, or to its next [await], before
    the next event is handled, and the page shown to the user is rendered
    from the current state; so an event is one step, enabled or not by the
    [disabled] attributes computed from the state at that moment. *)
Module Ui.
Import App.

(** The text inputs of the four forms. *)
Inductive Input : Type :=
| WebhookUrl
| PageUrl
| Topic
| Domain
| Keyword.

(** The page: what [updateToolState] acts on, the tool shown, and the
    tools whose fetch has not settled yet (one entry per fetch). *)
Record Page : Type := {
  browser : Browser;
  activeTool : Tool;
  pending : list Tool;
}.

Inductive Event : Type :=
| Navigate (tool : Tool)
| Change (field : Input) (value : string)
| ClickSubmit
| Settle (tool : Tool) (o : FetchOutcome).

(** The [onChange] handler of an input of [tool]'s form: the partial state
    it passes to [updateState], if the form has that input. *)
Definition onChange (tool : Tool) (field : Input) (value : string)
    : option (PartialOf tool) :=
  match tool return option (PartialOf tool) with
  | OnPageSEO =>
      match field with
      | WebhookUrl =>
          Some {| OnPageSeo.webhook := Some (JStr value); OnPageSeo.url := None;
                  OnPageSeo.result := None; OnPageSeo.isLoading := None;
                  OnPageSeo.error := None; OnPageSeo.rawResponse := None |}
      | PageUrl =>
          Some {| OnPageSeo.webhook := None; OnPageSeo.url := Some value;
                  OnPageSeo.result := None; OnPageSeo.isLoading := None;
                  OnPageSeo.error := None; OnPageSeo.rawResponse := None |}
      | _ => None
      end
  | KeywordGenerator =>
      match field with
      | WebhookUrl =>
          Some {| KeywordGen.webhook := Some (JStr value); KeywordGen.topic := None;
                  KeywordGen.result := None; KeywordGen.isLoading := None;
                  KeywordGen.error := None; KeywordGen.rawResponse := None |}
      | Topic =>
          Some {| KeywordGen.webhook := None; KeywordGen.topic := Some value;
                  KeywordGen.result := None; KeywordGen.isLoading := None;
                  KeywordGen.error := None; KeywordGen.rawResponse := None |}
      | _ => None
      end
  | BlogPostWriter =>
      match field with
      | WebhookUrl =>
          Some {| BlogPost.webhook := Some (JStr value); BlogPost.topic := None;
                  BlogPost.result := None; BlogPost.isLoading := None;
                  BlogPost.error := None; BlogPost.rawResponse := None |}
      | Topic =>
          Some {| BlogPost.webhook := None; BlogPost.topic := Some value;
                  BlogPost.result := None; BlogPost.isLoading := None;
                  BlogPost.error := None; BlogPost.rawResponse := None |}
      | _ => None
      end
  | RankTracker =>
      match field with
      | WebhookUrl =>
          Some {| RankTrack.webhook := Some (JStr value); RankTrack.domain := None;
                  RankTrack.keyword := None;
                  RankTrack.result := None; RankTrack.isLoading := None;
                  RankTrack.error := None; RankTrack.rawResponse := None |}
      | Domain =>
          Some {| RankTrack.webhook := None; RankTrack.domain := Some value;
                  RankTrack.keyword := None;
                  RankTrack.result := None; RankTrack.isLoading := None;
                  RankTrack.error := None; RankTrack.rawResponse := None |}
      | Keyword =>
          Some {| RankTrack.webhook := None; RankTrack.domain := None;
                  RankTrack.keyword := Some value;
                  RankTrack.result := None; RankTrack.isLoading := None;
                  RankTrack.error := None; RankTrack.rawResponse := None |}
      | _ => None
      end
  end.

(** One fetch of [tool] leaves the pending list. *)
Fixpoint settleOne (tool : Tool) (pending : list Tool) : list Tool :=
  match pending with
  | [] => []
  | t :: rest => if decide (t = tool) then rest else t :: settleOne tool rest
  end.

(** An event and its effect; [None] when the page cannot produce the
    event: a disabled element fires no handler, a form has only its own
    inputs, only a pending fetch settles. *)
Definition step (p : Page) (ev : Event) : option Page :=
  match ev with
  | Navigate tool =>
      Some {| browser := browser p; activeTool := tool; pending := pending p |}
  | Change field value =>
      if inputsDisabled (activeTool p) (appState (browser p)) then None
      else
        match onChange (activeTool p) field value with
        | Some newState =>
            Some {| browser := updateToolState (activeTool p) newState (browser p);
                    activeTool := activeTool p; pending := pending p |}
        | None => None
        end
  | ClickSubmit =>
      if submitDisabled (activeTool p) (appState (browser p)) then None
      else
        match handleSubmit (activeTool p) (browser p) with
        | (b, Some _) =>
            Some {| browser := b; activeTool := activeTool p;
                    pending := activeTool p :: pending p |}
        | (b, None) =>
            Some {| browser := b; activeTool := activeTool p; pending := pending p |}
        end
  | Settle tool o =>
      if decide (tool ∈ pending p) then
        Some {| browser := handleSubmit_settled tool o (browser p);
                activeTool := activeTool p; pending := settleOne tool (pending p) |}
      else None
  end.

(** The page after the first render: the state initialiser has run, the
    On-Page SEO tool is shown, nothing is in flight. *)
Definition start (ls : LocalStorage) : Page :=
  {| browser := {| localStorage := ls; appState := initialState ls |};
     activeTool := OnPageSEO; pending := [] |}.

(** The pages that a sequence of events leads to. *)
Inductive reachable (ls : LocalStorage) : Page → Prop :=
| reach_start : reachable ls (start ls)
| reach_step p ev p' : reachable ls p → step p ev = Some p' → reachable ls p'.

End Ui.

Import App.

(** ** Notions used in the statements *)

(** What the [try] block of a handler computes from the fetch's outcome:
    the result to store, or the exception it raises. *)
Definition verdict (tool : Tool) (o : FetchOutcome) : Completion (ResultOf tool) :=
  match o with
  | Rejected e => Throw e
  | Response status payload =>
      if ok status then
        match payload with
        | JsonBody data => validate tool data
        | BadBody e => Throw e
        end
      else Throw (httpError status)
  end.

(** A stored value that [updateToolState] can extend: none, the empty
    string, or the text of a JSON object; [savedMapping] is the mapping it
    stands for. *)
Definition savedMapping (saved : option Text) : option (gmap string json) :=
  match saved with
  | None | Some EmptyText => Some ∅
  | Some (Serialized (JObj m)) => Some m
  | Some _ => None
  end.

(** The HTML entity of a character, for the five characters that have one
    in [escapeHtml]; any other character stands for itself. *)
Definition entity (c : ascii) : string :=
  if Ascii.eqb c "&" then "&amp;"
  else if Ascii.eqb c "<" then "&lt;"
  else if Ascii.eqb c ">" then "&gt;"
  else if Ascii.eqb c "034" then "&quot;"
  else if Ascii.eqb c "'" then "&#039;"
  else String c EmptyString.

(** Character by character. *)
Fixpoint eachChar (f : ascii → string) (s : string) : string :=
  match s with
  | EmptyString => EmptyString
  | String c s' => f c ++ eachChar f s'
  end.

(** No character of [s] satisfies [p]. *)
Fixpoint noneOf (p : ascii → bool) (s : string) : bool :=
  match s with
  | EmptyString => true
  | String c s' => negb (p c) && noneOf p s'
  end.

Definition isBacktick (c : ascii) : bool := Ascii.eqb c "096".

(** How [processLine] wraps the content of a code span. *)
Definition codeElement (codeContent : string) : string :=
  "<code>" ++ OnPageSeoTool.escapeHtml codeContent ++ "</code>".

(** A field is empty. *)
Definition anyEmpty (fields : list string) : bool := existsb blank fields.

(** Every tool whose [isLoading] flag is set has exactly one fetch pending,
    and no other tool has any. *)
Definition oneInFlight (p : Ui.Page) : Prop :=
  NoDup (Ui.pending p)
  ∧ ∀ tool, isLoadingIn tool (appState (Ui.browser p)) = true ↔ tool ∈ Ui.pending p.

(** The page after a sequence of events, if the page can produce them. *)
Fixpoint play (p : Ui.Page) (events : list Ui.Event) : option Ui.Page :=
  match events with
  | [] => Some p
  | ev :: rest =>
      match Ui.step p ev with
      | Some p' => play p' rest
      | None => None
      end
  end.

(** An empty local storage, and one whose item is not JSON. *)
Definition freshStorage : LocalStorage := {| items := ∅; setItemCalls := [] |}.
Definition corruptStorage : LocalStorage :=
  {| items := {[ LOCAL_STORAGE_KEY := Unparseable ]}; setItemCalls := [] |}.

(** A session in which the user opens a tool and fills its form, and one
    in which the form is then submitted. *)
Definition fillForm (tool : Tool) : list Ui.Event :=
  Ui.Navigate tool
  :: Ui.Change Ui.WebhookUrl "https://n8n.example/webhook/seo"
  :: match tool with
     | OnPageSEO => [Ui.Change Ui.PageUrl "https://www.example.com/page"]
     | KeywordGenerator | BlogPostWriter => [Ui.Change Ui.Topic "AI automation"]
     | RankTracker =>
         [Ui.Change Ui.Domain "example.com"; Ui.Change Ui.Keyword "AI automation"]
     end.

Definition fillAndSubmit (tool : Tool) : list Ui.Event :=
  fillForm tool ++ [Ui.ClickSubmit].

(** The same session, started on [ls], with the webhook's answer. *)
Definition session (ls : LocalStorage) (tool : Tool) (o : FetchOutcome) : option Ui.Page :=
  play (Ui.start ls) (fillAndSubmit tool ++ [Ui.Settle tool o]).

(** The browser before any session. *)
Definition freshBrowser : Browser :=
  {| localStorage := freshStorage; appState := initialState freshStorage |}.

(** The browser once the form of [tool] is filled in. *)
Definition filledBrowser (tool : Tool) : Browser :=
  match play (Ui.start freshStorage) (fillForm tool) with
  | Some p => Ui.browser p
  | None => freshBrowser
  end.

(** The page while the Keyword Generator's fetch is pending. *)
Definition waitingPage : Ui.Page :=
  match play (Ui.start freshStorage) (fillAndSubmit KeywordGenerator) with
  | Some p => p
  | None => Ui.start freshStorage
  end.

(** The partial state [{ webhook: w }] of the Keyword Generator. *)
Definition keywordWebhook (w : string) : PartialOf KeywordGenerator :=
  {| KeywordGen.webhook := Some (JStr w); KeywordGen.topic := None;
     KeywordGen.result := None; KeywordGen.isLoading := None;
     KeywordGen.error := None; KeywordGen.rawResponse := None |}.

(** Responses used as examples: an object with a property ["0"], and an
    array with ranks. *)
Definition keyedObject : json :=
  JObj {[ "0" := JObj {[ "keywords" := JArr [] ]} ]}.

Definition ranks (current previous : json) : json :=
  JArr [JObj {[ "current_rank" := current; "previous_rank" := previous ]}].


(** ** The rest of the components, and notions for their properties *)

(** While a fetch is pending nothing of an earlier run is left, and an
    error is never kept next to a result. *)
Definition nothingStale (p : Ui.Page) : Prop :=
  ∀ tool,
    let s := appState (Ui.browser p) in
    (isLoadingIn tool s = true →
       errorIn tool s = None ∧ resultIn tool s = None ∧ rawResponseIn tool s = JNull)
    ∧ (errorIn tool s ≠ None → resultIn tool s = None).

Global Instance Input_eq_dec : EqDecision Ui.Input.
Proof. solve_decision. Defined.

(** A stored value that [updateToolState] cannot extend: a text that is
    not JSON, or the text of [null] or of a primitive value. *)
Definition unwritable (saved : option Text) : Prop :=
  match saved with
  | Some Unparseable => True
  | Some (Serialized (JNull | JBool _ | JNum _ | JStr _)) => True
  | _ => False
  end.

(** The webhook fields on screen are the ones a reload would restore. *)
Definition reloadsAsShown (p : Ui.Page) : Prop :=
  ∃ m,
    savedMapping (getItem LOCAL_STORAGE_KEY (localStorage (Ui.browser p))) = Some m
    ∧ ∀ tool, webhookIn tool (appState (Ui.browser p)) = orEmpty (m !! toolKey tool).

(** ** The numbers of the model *)

(** A number of the model is an integer; a number of the program is a
    double.  The two agree on the integers that a double holds exactly,
    from [-(2^53 - 1)] to [2^53 - 1]: there [JSON.parse] reads a numeral as
    the integer it denotes and [JSON.stringify] writes it back, [String]
    prints the integer in decimal, [<] and [>] compare the integers, and
    [-] gives the difference whenever the difference is such an integer
    too.  Beyond them the program rounds, prints in exponent notation and
    reads an overflowing numeral as [Infinity], which [JSON.stringify]
    writes as [null]; the properties that depend on numbers are stated
    for these integers only. *)
Definition MAX_SAFE_INTEGER : Z := 2 ^ 53 - 1.

(** [Number.isSafeInteger], on an integer. *)
Definition isSafeInteger (n : Z) : bool :=
  (- MAX_SAFE_INTEGER <=? n) && (n <=? MAX_SAFE_INTEGER).

(** A value all of whose numbers are such integers: the text that stands
    for it is read and written back by [JSON] as the value itself. *)
Inductive safeNumbers : json → Prop :=
| safe_null : safeNumbers JNull
| safe_bool b : safeNumbers (JBool b)
| safe_num n : isSafeInteger n = true → safeNumbers (JNum n)
| safe_str s : safeNumbers (JStr s)
| safe_arr elems : Forall safeNumbers elems → safeNumbers (JArr elems)
| safe_obj props : map_Forall (fun _ v => safeNumbers v) props → safeNumbers (JObj props).

(** A store left by an earlier session, with an entry that is not a
    string. *)
Definition usedStorage : LocalStorage :=
  {| items :=
       {[ LOCAL_STORAGE_KEY :=
            Serialized (JObj {[ "Keyword Generator" := JStr "https://n8n.example/webhook/old";
                                "Rank Tracker" := JNum 7 ]}) ]};
     setItemCalls := [] |}.

(** ** Conversion to string *)

Definition notPrimitive : Thrown :=
  ErrorObject "Cannot convert object to primitive value".

(** [String(v)], which is also the conversion that a template literal
    applies.  A number prints in decimal, which is what JavaScript prints
    for the integers of [isSafeInteger]; the model says nothing of the
    others.
    An array prints its elements separated by commas, [null] printing as
    nothing.  An object from [JSON.parse] prints as [[object Object]] unless
    it has a property [toString] of its own: that one is not callable, and
    the inherited [valueOf] returns the object, so the conversion throws. *)
Fixpoint toStringJS (v : json) : Completion string :=
  match v with
  | JNull => Normal "null"
  | JBool b => Normal (if b then "true" else "false")
  | JNum n => Normal (pretty n)
  | JStr s => Normal s
  | JArr elems =>
      (fix join (elems : list json) : Completion string :=
         match elems with
         | [] => Normal EmptyString
         | x :: rest =>
             andThen (match x with JNull => Normal EmptyString | _ => toStringJS x end)
               (fun first =>
                  match rest with
                  | [] => Normal first
                  | _ => andThen (join rest) (fun others => Normal (first ++ "," ++ others))
                  end)
         end) elems
  | JObj m =>
      match m !! "toString" with
      | Some _ => Throw notPrimitive
      | None => Normal "[object Object]"
      end
  end.

(** The same on a value that may be [undefined]. *)
Definition toStringOpt (v : jsval) : Completion string :=
  match v with
  | Some x => toStringJS x
  | None => Normal "undefined"
  end.

(** [typeof v === 'number'] *)
Definition asNumber (v : json) : option Z :=
  match v with
  | JNum n => Some n
  | _ => None
  end.

(** ** RankTrackerTool.tsx, [renderResult] *)

Module RankTrackerView.

(** The icons of [lucide-react] that show the trend. *)
Inductive Icon : Type :=
| Minus
| ArrowUp
| ArrowDown.

(** The three local variables that lines 301-315 compute. *)
Record Trend : Type := {
  TrendIcon : Icon;
  trendColor : string;
  trendText : string;
}.

(** Lines 298-315.  The comparisons are those of the program on every
    pair of integers that doubles hold; the difference and its printing
    are the program's when the ranks and their difference pass
    [isSafeInteger]. *)
Definition trendOf (result : RankTrackerResult) : Trend :=
  let current := CurrentRank result in
  let previous := PreviousRank result in
  match asNumber current, asNumber previous with
  | Some current, Some previous =>
      if current <? previous then
        {| TrendIcon := ArrowUp; trendColor := "text-green-400";
           trendText := "Up by " ++ pretty (previous - current) |}
      else if current >? previous then
        {| TrendIcon := ArrowDown; trendColor := "text-red-400";
           trendText := "Down by " ++ pretty (current - previous) |}
      else
        {| TrendIcon := Minus; trendColor := "text-gray-400"; trendText := "No change" |}
  | _, _ =>
      {| TrendIcon := Minus; trendColor := "text-gray-400"; trendText := "No change" |}
  end.

(** What the card shows: [String(current)], [String(previous)] and the
    trend. *)
Record Card : Type := {
  currentText : string;
  previousText : string;
  trend : Trend;
}.

(** Lines 295-340; [None] is the [null] of [if (!result) return null]. *)
Definition renderResult (result : option RankTrackerResult) : Completion (option Card) :=
  match result with
  | None => Normal None
  | Some result =>
      andThen (toStringJS (CurrentRank result)) (fun current =>
      andThen (toStringJS (PreviousRank result)) (fun previous =>
      Normal (Some {| currentText := current; previousText := previous;
                      trend := trendOf result |})))
  end.

End RankTrackerView.

(** ** KeywordGeneratorTool.tsx, [copyAsCsv] *)

Module KeywordGeneratorCsv.

Definition headers : string := "Keyword,Intent,Volume,Type".

(** Line 62, the template literal of one row: each field is read from [k]
    and converted to a string, in order. *)
Definition row (k : json) : Completion string :=
  andThen (andThen (member "keyword" k) toStringOpt) (fun keyword =>
  andThen (andThen (member "intent" k) toStringOpt) (fun intent =>
  andThen (andThen (member "volumeCategory" k) toStringOpt) (fun volumeCategory =>
  andThen (andThen (member "type" k) toStringOpt) (fun type =>
  Normal (dq ++ keyword ++ dq ++ "," ++ dq ++ intent ++ dq ++ ","
          ++ dq ++ volumeCategory ++ dq ++ "," ++ dq ++ type ++ dq))))).

(** [result.map(k => ...)]: the rows in order, up to the first that throws. *)
Fixpoint rows (result : list json) : Completion (list string) :=
  match result with
  | [] => Normal []
  | k :: rest =>
      andThen (row k) (fun r => andThen (rows rest) (fun rs => Normal (r :: rs)))
  end.

(** The file that the click downloads. *)
Record Download : Type := {
  fileName : string;
  mimeType : string;
  content : string;
}.

(** Lines 59-72: nothing without a result; otherwise the header and the
    rows joined by line feeds, offered as [keywords.csv]. *)
Definition copyAsCsv (result : option (list json)) : Completion (option Download) :=
  match result with
  | None => Normal None
  | Some result =>
      andThen (rows result) (fun rows =>
      Normal (Some {| fileName := "keywords.csv";
                      mimeType := "text/csv;charset=utf-8;";
                      content := String.concat (String lineFeed EmptyString)
                                   (headers :: rows) |}))
  end.

End KeywordGeneratorCsv.

(** ** Notions for the statements on rendering and export *)

(** A keyword as [interface Keyword] declares it: an object whose four
    fields are strings; here without line feeds in them. *)
Definition isLineFeed (c : ascii) : bool := Ascii.eqb c lineFeed.

Definition plainField (name : string) (k : json) : Prop :=
  ∃ text, prop name k = Some (JStr text) ∧ noneOf isLineFeed text = true.

Definition plainKeyword (k : json) : Prop :=
  plainField "keyword" k ∧ plainField "intent" k
  ∧ plainField "volumeCategory" k ∧ plainField "type" k.

(** The trend shown when there is nothing to compare. *)
Definition noChange : RankTrackerView.Trend :=
  {| RankTrackerView.TrendIcon := RankTrackerView.Minus;
     RankTrackerView.trendColor := "text-gray-400";
     RankTrackerView.trendText := "No change" |}.

(** ** Notions for the statements on the markdown converter *)

(** The characters that open or close a tag or an attribute value. *)
Definition isMarkup (c : ascii) : bool :=
  Ascii.eqb c "<" || Ascii.eqb c ">" || Ascii.eqb c "034" || Ascii.eqb c "'".

(** The characters that the converter gives a meaning to. *)
Definition isMarkdown (c : ascii) : bool :=
  isBacktick c || Ascii.eqb c "*" || isLineFeed c.

(** Reading one escaped character back from the front of a string. *)
Definition unescapeHead (s : string) : option (ascii * string) :=
  match stripPrefix "&amp;" s with
  | Some rest => Some ("&"%char, rest)
  | None =>
  match stripPrefix "&lt;" s with
  | Some rest => Some ("<"%char, rest)
  | None =>
  match stripPrefix "&gt;" s with
  | Some rest => Some (">"%char, rest)
  | None =>
  match stripPrefix "&quot;" s with
  | Some rest => Some ("034"%char, rest)
  | None =>
  match stripPrefix "&#039;" s with
  | Some rest => Some ("'"%char, rest)
  | None =>
  match s with
  | String c rest => Some (c, rest)
  | EmptyString => None
  end end end end end end.

(** [s] ends with a line feed. *)
Fixpoint endsWithLineFeed (s : string) : bool :=
  match s with
  | EmptyString => false
  | String c EmptyString => isLineFeed c
  | String _ s' => endsWithLineFeed s'
  end.

(** The separator of blocks. *)
Definition blankLine : string := String lineFeed (String lineFeed EmptyString).

(** ** BlogPostWriterTool.tsx: the effect on [result] and [renderResult] *)

Module BlogPostWriterView.

(** Comparison of a character of the text with a character of a pattern
    under the [i] flag.  The patterns below are ASCII, and below 256 the
    only characters that match an ASCII letter are its two cases. *)
Definition lower (c : ascii) : ascii :=
  let n := nat_of_ascii c in
  if ((65 <=? n) && (n <=? 90))%nat then ascii_of_nat (n + 32) else c.

Definition eqCI (a b : ascii) : bool := Ascii.eqb (lower a) (lower b).

(** The pattern [p] matched at the start of [s] without regard to case;
    what follows it. *)
Fixpoint stripPrefixCI (p s : string) : option string :=
  match p, s with
  | EmptyString, _ => Some s
  | String a p', String b s' => if eqCI a b then stripPrefixCI p' s' else None
  | String _ _, EmptyString => None
  end.

(** [([\s\S]*?)close] matched at the start of [s]: the shortest run of any
    characters that [close] follows, and what comes after that [close]. *)
Fixpoint lazyAny (close : string) (s : string) : option (string * string) :=
  match stripPrefixCI close s with
  | Some rest => Some (EmptyString, rest)
  | None =>
      match s with
      | EmptyString => None
      | String c s' =>
          match lazyAny close s' with
          | Some (content, rest) => Some (String c content, rest)
          | None => None
          end
      end
  end.

(** [s.slice(0, s.length - rest.length)]: the text of a match that ends
    where [rest] starts. *)
Definition matched (s rest : string) : string :=
  String.substring 0 (String.length s - String.length rest) s.

(** [styleRegex = /<style>([\s\S]*?)<\/style>/gi] over [s], matches sought
    from the left: the matches, which is [s.match(styleRegex)], and [s]
    without them, which is [s.replace(styleRegex, '')]. *)
Fixpoint scanStylesFrom (steps : nat) (s : string) : list string * string :=
  match steps with
  | O => ([], s)
  | S steps' =>
      match stripPrefixCI "<style>" s ≫= lazyAny "</style>" with
      | Some (_, rest) =>
          let '(styleMatch, content) := scanStylesFrom steps' rest in
          (matched s rest :: styleMatch, content)
      | None =>
          match s with
          | EmptyString => ([], EmptyString)
          | String c s' =>
              let '(styleMatch, content) := scanStylesFrom steps' s' in
              (styleMatch, String c content)
          end
      end
  end.

Definition scanStyles (s : string) : list string * string :=
  scanStylesFrom (String.length s) s.

(** [s.replace(/<\/?style>/gi, '')] *)
Fixpoint removeTagsFrom (steps : nat) (s : string) : string :=
  match steps with
  | O => s
  | S steps' =>
      match stripPrefixCI "</style>" s with
      | Some rest => removeTagsFrom steps' rest
      | None =>
          match stripPrefixCI "<style>" s with
          | Some rest => removeTagsFrom steps' rest
          | None =>
              match s with
              | EmptyString => EmptyString
              | String c s' => String c (removeTagsFrom steps' s')
              end
          end
      end
  end.

Definition removeTags (s : string) : string := removeTagsFrom (String.length s) s.

(** [containsRtlChars]: a code unit in U+0600..U+06FF or U+0590..U+05FF
    (none of the code units modelled here is). *)
Fixpoint containsRtlChars (text : string) : bool :=
  match text with
  | EmptyString => false
  | String c text' =>
      let n := nat_of_ascii c in
      ((1536 <=? n) && (n <=? 1791) || (1424 <=? n) && (n <=? 1535))%nat
      || containsRtlChars text'
  end.

(** The component's local state. *)
Record Local : Type := {
  blogContent : string;
  blogStyles : string;
  isRtl : bool;
}.

(** Lines 31-50, the effect that runs when [result] changes.  [if (result)]
    fails on [null] and on the empty string. *)
Definition onResult (result : option string) : Local :=
  match result with
  | Some result =>
      if blank result then
        {| blogContent := EmptyString; blogStyles := EmptyString; isRtl := false |}
      else
        let '(styleMatch, withoutStyles) := scanStyles result in
        let css :=
          match styleMatch with
          | [] => EmptyString
          | _ => removeTags (String.concat (String lineFeed EmptyString) styleMatch)
          end in
        let content := trim withoutStyles in
        {| blogContent := content; blogStyles := css; isRtl := containsRtlChars content |}
  | None => {| blogContent := EmptyString; blogStyles := EmptyString; isRtl := false |}
  end.

(** What [renderResult] puts on the page: the injected style sheet if
    there is one, the direction, the heading and the HTML of the article. *)
Record Article : Type := {
  styleSheet : option string;
  dir : string;
  heading : string;
  html : string;
}.

(** Lines 117-146; [None] is the [null] of [if (!blogContent) return null]. *)
Definition renderResult (topic : string) (local : Local) : option Article :=
  if blank (blogContent local) then None
  else
    Some {| styleSheet := if blank (blogStyles local) then None else Some (blogStyles local);
            dir := if isRtl local then "rtl" else "ltr";
            heading := topic;
            html := blogContent local |}.

(** The pattern occurs somewhere in [s], without regard to case. *)
Fixpoint occursCI (p s : string) : bool :=
  match stripPrefixCI p s with
  | Some _ => true
  | None =>
      match s with
      | EmptyString => false
      | String _ s' => occursCI p s'
      end
  end.

(** [tag] is [p] up to the case of its letters. *)
Definition spelled (p tag : string) : Prop := stripPrefixCI p tag = Some EmptyString.

End BlogPostWriterView.

(** ** The responses that a tool accepts *)

(** [data] carries, at index 0, a payload that passes the tool's checks,
    and [r] is what the tool stores for it. *)
Definition accepted (tool : Tool) (data : json) : ResultOf tool → Prop :=
  match tool return ResultOf tool → Prop with
  | OnPageSEO | BlogPostWriter => fun r =>
      ∃ first,
        at0 data = Some first
        ∧ prop "blog_post_html" first = Some (JStr r)
        ∧ trim r ≠ EmptyString
  | KeywordGenerator => fun r =>
      ∃ first,
        at0 data = Some first
        ∧ prop "keywords" first = Some (JArr r)
        ∧ validKeywords r
  | RankTracker => fun r =>
      ∃ first c p,
        at0 data = Some first
        ∧ prop "current_rank" first = Some c
        ∧ prop "previous_rank" first = Some p
        ∧ r = {| CurrentRank := if isZero c then JStr "Not Found" else c;
                 PreviousRank := if isZero p then JStr "N/A" else p |}
  end.

(** * Properties *)

(** ** What a handler leaves behind *)

Ltac unfold_handlers :=
  unfold App.handleSubmit_settled, App.handleSubmit,
    OnPageSeoTool.handleSubmit_settled, KeywordGeneratorTool.handleSubmit_settled,
    BlogPostWriterTool.handleSubmit_settled, RankTrackerTool.handleSubmit_settled,
    OnPageSeoTool.handleSubmit, KeywordGeneratorTool.handleSubmit,
    BlogPostWriterTool.handleSubmit, RankTrackerTool.handleSubmit,
    OnPageSeoTool.tryBlock, KeywordGeneratorTool.tryBlock,
    BlogPostWriterTool.tryBlock, RankTrackerTool.tryBlock,
    tryCatchFinally, bind, effect, lift, receive, throw, ret, updateToolState in *.

Lemma ok_spec status : ok status = true ↔ 200 ≤ status ≤ 299.
Proof. unfold ok. rewrite andb_true_iff, !Z.leb_le. tauto. Qed.

Ltac settled_cases tool o :=
  destruct tool, o as [? | status [data | ?]]; unfold verdict, validate; unfold_handlers;
    simpl; try destruct (ok status); simpl.

(** The fetch's outcome decides what the rest of the handler writes: on an
    exception the message, on a result the result; [isLoading] is cleared
    either way. *)
Lemma settled_throw tool o b e :
  verdict tool o = Throw e →
  let s' := appState (handleSubmit_settled tool o b) in
  errorIn tool s' = Some (failureText tool ++ errorMessage e)
  ∧ resultIn tool s' = resultIn tool (appState b)
  ∧ isLoadingIn tool s' = false.
Proof.
  settled_cases tool o; intros H; try discriminate H; try rewrite H; simpl;
    try (injection H as <-); auto.
Qed.

Lemma settled_normal tool o b r :
  verdict tool o = Normal r →
  let s' := appState (handleSubmit_settled tool o b) in
  errorIn tool s' = errorIn tool (appState b)
  ∧ resultIn tool s' = Some r
  ∧ isLoadingIn tool s' = false.
Proof.
  settled_cases tool o; intros H; try discriminate H; try rewrite H; simpl;
    try (injection H as <-); auto.
Qed.

Lemma settled_isLoading tool o b :
  isLoadingIn tool (appState (handleSubmit_settled tool o b)) = false.
Proof.
  destruct (verdict tool o) eqn:E.
  - eapply settled_normal in E. apply E.
  - eapply settled_throw in E. apply E.
Qed.

Lemma settled_storage tool o b :
  localStorage (handleSubmit_settled tool o b) = localStorage b.
Proof.
  settled_cases tool o;
    try match goal with
        | |- context [match ?v with Normal _ => _ | Throw _ => _ end] => destruct v
        end; reflexivity.
Qed.

Lemma settled_others tool o b t :
  t ≠ tool →
  getTool t (appState (handleSubmit_settled tool o b)) = getTool t (appState b).
Proof.
  intros Hne.
  settled_cases tool o; destruct t; try congruence;
    try match goal with
        | |- context [match ?v with Normal _ => _ | Throw _ => _ end] => destruct v
        end; reflexivity.
Qed.


(** ** The start of a handler *)

(** Whether the handler passes its check of the required fields. *)
Lemma handleSubmit_cases tool b :
  (truthy (webhookIn tool (appState b)) = false ∨ anyEmpty (queryIn tool (appState b)) = true)
  ∧ snd (handleSubmit tool b) = None
  ∨ (truthy (webhookIn tool (appState b)) = true ∧ anyEmpty (queryIn tool (appState b)) = false)
  ∧ ∃ request, snd (handleSubmit tool b) = Some request.
Proof.
  destruct tool; unfold_handlers; unfold anyEmpty; simpl;
    destruct (truthy _); simpl; auto;
    repeat match goal with
           | |- context [blank ?s] => destruct (blank s); simpl; eauto
           end.
Qed.

Lemma handleSubmit_refused tool b :
  snd (handleSubmit tool b) = None →
  let b' := fst (handleSubmit tool b) in
  errorIn tool (appState b') = Some (requiredText tool)
  ∧ resultIn tool (appState b') = resultIn tool (appState b)
  ∧ rawResponseIn tool (appState b') = rawResponseIn tool (appState b)
  ∧ isLoadingIn tool (appState b') = isLoadingIn tool (appState b)
  ∧ webhookIn tool (appState b') = webhookIn tool (appState b)
  ∧ queryIn tool (appState b') = queryIn tool (appState b)
  ∧ localStorage b' = localStorage b.
Proof.
  destruct tool; unfold_handlers; simpl;
    match goal with
    | |- context [if ?c then _ else _] => destruct c
    end; simpl; intros H; try discriminate H; repeat split.
Qed.

Lemma handleSubmit_issued tool b request :
  snd (handleSubmit tool b) = Some request →
  let b' := fst (handleSubmit tool b) in
  errorIn tool (appState b') = None
  ∧ resultIn tool (appState b') = None
  ∧ rawResponseIn tool (appState b') = JNull
  ∧ isLoadingIn tool (appState b') = true
  ∧ localStorage b' = localStorage b
  ∧ input request = webhookIn tool (appState b)
  ∧ method request = "POST".
Proof.
  destruct tool; unfold_handlers; simpl;
    match goal with
    | |- context [if ?c then _ else _] => destruct c
    end; simpl; intros H; try discriminate H; injection H as <-; repeat split.
Qed.

Lemma handleSubmit_others tool b t :
  t ≠ tool →
  getTool t (appState (fst (handleSubmit tool b))) = getTool t (appState b).
Proof.
  intros Hne. destruct tool; unfold_handlers; simpl;
    match goal with
    | |- context [if ?c then _ else _] => destruct c
    end; destruct t; try congruence; reflexivity.
Qed.

(** ** Validation *)

(** A response that does not carry the payload at index 0 is rejected by
    the tool's validation. *)
Lemma validate_rejects tool data :
  ¬ conformsAtIndex0 tool data → ∃ e, validate tool data = Throw e.
Proof.
  unfold conformsAtIndex0, validate. intros Hno.
  destruct tool; simpl in *.
  - unfold OnPageSeoTool.reportOf. simpl.
    destruct (at0 data) as [first |] eqn:E0; simpl; [| eauto].
    destruct (prop "blog_post_html" first) as [[| | | html | |] |] eqn:Ep; eauto.
    destruct (blank (trim html)) eqn:Eb; eauto.
    exfalso. apply Hno. exists first. split; [reflexivity |].
    exists html. split; [exact Ep |].
    intros ->. discriminate Eb.
  - unfold KeywordGeneratorTool.keywordsOf. simpl.
    destruct (at0 data) as [first |] eqn:E0; simpl; [| eauto].
    destruct (prop "keywords" first) as [[| | | | ks |] |] eqn:Ep; eauto.
    exfalso. apply Hno. exists first. split; [reflexivity |]. exists ks. exact Ep.
  - unfold BlogPostWriterTool.htmlOf. simpl.
    destruct (at0 data) as [first |] eqn:E0; simpl; [| eauto].
    destruct (prop "blog_post_html" first) as [[| | | html | |] |] eqn:Ep; eauto.
    destruct (blank (trim html)) eqn:Eb; eauto.
    exfalso. apply Hno. exists first. split; [reflexivity |].
    exists html. split; [exact Ep |].
    intros ->. discriminate Eb.
  - unfold RankTrackerTool.rankOf. simpl.
    destruct (at0 data) as [first |] eqn:E0; simpl; [| eauto].
    destruct (truthy first); simpl; eauto.
    destruct (prop "current_rank" first) eqn:Ec; eauto.
    destruct (prop "previous_rank" first) eqn:Ep; eauto.
    exfalso. apply Hno. exists first. split; [reflexivity |].
    split; eauto.
Qed.


(** An array is read at index 0 like any other value. *)
Lemma conformsAsArray_atIndex0 tool data :
  conformsAsArray tool data → conformsAtIndex0 tool data.
Proof.
  intros (first & rest & -> & H). exists first. split; [reflexivity | exact H].
Qed.

Lemma isZero_spec v : isZero v = true ↔ v = JNum 0.
Proof.
  destruct v as [| | n | | |]; simpl; try (split; [discriminate | intros [=]]).
  destruct n; simpl; split; intros H; try reflexivity; try discriminate H; inversion H.
Qed.

Lemma prop_truthy name v x : prop name v = Some x → truthy v = true.
Proof. destruct v; simpl; intros H; try discriminate H; reflexivity. Qed.

(** What the Rank Tracker stores for a payload with both ranks. *)
Lemma rankOf_defined data first c p :
  at0 data = Some first →
  prop "current_rank" first = Some c →
  prop "previous_rank" first = Some p →
  RankTrackerTool.rankOf data
  = Normal {| CurrentRank := if isZero c then JStr "Not Found" else c;
              PreviousRank := if isZero p then JStr "N/A" else p |}.
Proof.
  intros H0 Hc Hp. unfold RankTrackerTool.rankOf. simpl. rewrite H0. simpl.
  rewrite (prop_truthy _ _ _ Hc). simpl. rewrite Hc, Hp. reflexivity.
Qed.

(** What the Keyword Generator stores for a payload with a valid array. *)
Lemma keywordsOf_valid data first ks :
  at0 data = Some first →
  prop "keywords" first = Some (JArr ks) →
  validKeywords ks →
  KeywordGeneratorTool.keywordsOf data = Normal ks.
Proof.
  intros H0 Hk Hv. unfold KeywordGeneratorTool.keywordsOf. simpl. rewrite H0. simpl.
  rewrite Hk. destruct ks as [| k rest]; [reflexivity |].
  destruct Hv as [[kw Hkw] [it Hit]].
  unfold member. destruct k; simpl in *; try discriminate Hkw.
  rewrite Hkw, Hit. reflexivity.
Qed.

(** ** The claims on the handlers *)

(** C1 (as amended): for every webhook response whose value at index 0
    ([data?.[0]]: the first element of an array, but also the property "0"
    of an object) does not carry the tool's payload, a keywords array
    (Keyword Generator), a non-empty string under [blog_post_html] (Blog
    Post Writer, On-Page SEO), or defined [current_rank] and [previous_rank]
    (Rank Tracker), the rest of the handler sets an error message that
    starts with the tool's failure text and leaves the result field as it
    was: nothing is stored for that response. *)
Theorem nonconforming_response_is_error tool status data b :
  ¬ conformsAtIndex0 tool data →
  let s' := appState (handleSubmit_settled tool (Response status (JsonBody data)) b) in
  (∃ message, errorIn tool s' = Some (failureText tool ++ message))
  ∧ resultIn tool s' = resultIn tool (appState b).
Proof.
  intros Hno s'.
  destruct (validate_rejects tool data Hno) as [e He].
  assert (∃ e', verdict tool (Response status (JsonBody data)) = Throw e') as [e' Hv].
  { simpl. destruct (ok status); eauto. }
  destruct (settled_throw tool _ b e' Hv) as (Herr & Hres & _).
  split; [eauto | exact Hres].
Qed.

Lemma nonconforming_response_is_error_witness :
  let s' :=
    appState (handleSubmit_settled KeywordGenerator (Response 200 (JsonBody JNull))
                freshBrowser) in
  (∃ message, errorIn KeywordGenerator s' = Some (failureText KeywordGenerator ++ message))
  ∧ resultIn KeywordGenerator s' = resultIn KeywordGenerator (appState freshBrowser).
Proof.
  apply (nonconforming_response_is_error KeywordGenerator 200 JNull freshBrowser).
  intros (first & H & _). discriminate H.
Defined.

(** C1 (as stated) fails: an object with a property "0" is not an array,
    yet the Keyword Generator reads its keywords, sets no error and stores
    the result. *)
Lemma keyed_object_is_accepted :
  ¬ conformsAsArray KeywordGenerator keyedObject
  ∧ match session freshStorage KeywordGenerator (Response 200 (JsonBody keyedObject)) with
    | Some p =>
        errorIn KeywordGenerator (appState (Ui.browser p)) = None
        ∧ resultIn KeywordGenerator (appState (Ui.browser p)) = Some []
    | None => False
    end.
Proof.
  split.
  - intros (first & rest & H & _). discriminate H.
  - vm_compute. split; reflexivity.
Qed.




(** C3 (as amended): for a 2xx response that is an array whose first
    element carries the payload, the stored result is that payload: the
    Keyword Generator stores a valid keywords array [ks] unchanged; the Rank
    Tracker stores [current_rank] and [previous_rank] as "Current Rank" and
    "Previous Rank" whenever neither of them is the number 0. *)
Theorem wellformed_response_is_stored status first rest b :
  200 ≤ status ≤ 299 →
  let o := Response status (JsonBody (JArr (first :: rest))) in
  (∀ ks, prop "keywords" first = Some (JArr ks) → validKeywords ks →
     resultIn KeywordGenerator (appState (handleSubmit_settled KeywordGenerator o b))
     = Some ks)
  ∧ (∀ c p, prop "current_rank" first = Some c → prop "previous_rank" first = Some p →
       c ≠ JNum 0 → p ≠ JNum 0 →
       resultIn RankTracker (appState (handleSubmit_settled RankTracker o b))
       = Some {| CurrentRank := c; PreviousRank := p |}).
Proof.
  intros Hok o. apply ok_spec in Hok. split.
  - intros ks Hk Hv.
    assert (verdict KeywordGenerator o = Normal ks) as Hverdict.
    { simpl. rewrite Hok. now apply (keywordsOf_valid (JArr (first :: rest)) first). }
    apply (settled_normal KeywordGenerator o b ks Hverdict).
  - intros c p Hc Hp Hcz Hpz.
    assert (verdict RankTracker o
            = Normal {| CurrentRank := c; PreviousRank := p |}) as Hverdict.
    { simpl. rewrite Hok. rewrite (rankOf_defined (JArr (first :: rest)) first c p eq_refl Hc Hp).
      destruct (isZero c) eqn:Ec; [apply isZero_spec in Ec; contradiction |].
      destruct (isZero p) eqn:Ep; [apply isZero_spec in Ep; contradiction |].
      reflexivity. }
    apply (settled_normal RankTracker o b _ Hverdict).
Qed.

Lemma wellformed_response_is_stored_witness :
  let kw := JObj {[ "keyword" := JStr "seo audit"; "intent" := JStr "commercial" ]} in
  let first :=
    JObj {[ "keywords" := JArr [kw]; "current_rank" := JNum 3; "previous_rank" := JNum 7 ]} in
  let o := Response 200 (JsonBody (JArr [first])) in
  resultIn KeywordGenerator
    (appState (handleSubmit_settled KeywordGenerator o freshBrowser)) = Some [kw]
  ∧ resultIn RankTracker (appState (handleSubmit_settled RankTracker o freshBrowser))
    = Some {| CurrentRank := JNum 3; PreviousRank := JNum 7 |}.
Proof.
  intros kw first o.
  destruct (wellformed_response_is_stored 200 first [] freshBrowser ltac:(lia))
    as [Hkw Hrank].
  split.
  - apply Hkw; [reflexivity |]. split; eexists; reflexivity.
  - apply Hrank; [reflexivity | reflexivity | discriminate | discriminate].
Defined.

(** C3 (as stated) fails for the Rank Tracker: the response
    [[{"current_rank": 0, "previous_rank": 0}]] is well formed, and the
    result shows 'Not Found' and 'N/A', not the two numbers sent. *)
Lemma zero_ranks_are_not_stored_as_sent :
  match session freshStorage RankTracker (Response 200 (JsonBody (ranks (JNum 0) (JNum 0)))) with
  | Some p =>
      resultIn RankTracker (appState (Ui.browser p))
      = Some {| CurrentRank := JStr "Not Found"; PreviousRank := JStr "N/A" |}
      ∧ resultIn RankTracker (appState (Ui.browser p))
        ≠ Some {| CurrentRank := JNum 0; PreviousRank := JNum 0 |}
  | None => False
  end.
Proof. vm_compute. split; [reflexivity | discriminate]. Qed.

(** C9: for every tool, when the webhook address or one of the tool's
    query fields is empty, the submit handler sets the tool's 'required'
    message and returns: it issues no request, and the result, the raw
    response and [isLoading] are as before. *)
Theorem missing_input_is_refused tool b :
  webhookIn tool (appState b) = JStr EmptyString
  ∨ EmptyString ∈ queryIn tool (appState b) →
  let b' := fst (handleSubmit tool b) in
  snd (handleSubmit tool b) = None
  ∧ errorIn tool (appState b') = Some (requiredText tool)
  ∧ resultIn tool (appState b') = resultIn tool (appState b)
  ∧ rawResponseIn tool (appState b') = rawResponseIn tool (appState b)
  ∧ isLoadingIn tool (appState b') = isLoadingIn tool (appState b).
Proof.
  intros Hempty b'.
  assert (snd (handleSubmit tool b) = None) as Hnone.
  { destruct (handleSubmit_cases tool b) as [[_ H] | [[Hw Hq] _]]; [exact H |].
    exfalso. destruct Hempty as [Hweb | Hin].
    - rewrite Hweb in Hw. discriminate Hw.
    - unfold anyEmpty in Hq.
      assert (existsb blank (queryIn tool (appState b)) = true) as Hex.
      { apply existsb_exists. exists EmptyString. split; [| reflexivity].
        now apply list_elem_of_In. }
      congruence. }
  destruct (handleSubmit_refused tool b Hnone) as (He & Hr & Hraw & Hl & _).
  auto.
Qed.

Lemma missing_input_is_refused_witness :
  let b' := fst (handleSubmit RankTracker freshBrowser) in
  snd (handleSubmit RankTracker freshBrowser) = None
  ∧ errorIn RankTracker (appState b') = Some (requiredText RankTracker)
  ∧ resultIn RankTracker (appState b') = resultIn RankTracker (appState freshBrowser)
  ∧ rawResponseIn RankTracker (appState b')
    = rawResponseIn RankTracker (appState freshBrowser)
  ∧ isLoadingIn RankTracker (appState b') = isLoadingIn RankTracker (appState freshBrowser).
Proof.
  apply (missing_input_is_refused RankTracker freshBrowser).
  left. reflexivity.
Defined.

(** C10: in the Rank Tracker, for a 2xx response whose payload has both
    ranks defined, a [current_rank] of exactly 0 is stored as 'Not Found'
    and a [previous_rank] of exactly 0 as 'N/A'; every other value of either
    rank is stored unchanged. *)
Theorem zero_rank_is_shown_as_sentinel status data first c p b :
  200 ≤ status ≤ 299 →
  at0 data = Some first →
  prop "current_rank" first = Some c →
  prop "previous_rank" first = Some p →
  ∃ r,
    resultIn RankTracker
      (appState (handleSubmit_settled RankTracker (Response status (JsonBody data)) b))
    = Some r
    ∧ (c = JNum 0 → CurrentRank r = JStr "Not Found")
    ∧ (p = JNum 0 → PreviousRank r = JStr "N/A")
    ∧ (c ≠ JNum 0 → CurrentRank r = c)
    ∧ (p ≠ JNum 0 → PreviousRank r = p).
Proof.
  intros Hok H0 Hc Hp. apply ok_spec in Hok.
  eexists. split.
  - eapply settled_normal. simpl. rewrite Hok.
    apply (rankOf_defined data first c p H0 Hc Hp).
  - simpl. repeat split.
    + intros ->. reflexivity.
    + intros ->. reflexivity.
    + intros Hne. destruct (isZero c) eqn:E; [apply isZero_spec in E; contradiction | reflexivity].
    + intros Hne. destruct (isZero p) eqn:E; [apply isZero_spec in E; contradiction | reflexivity].
Qed.

Lemma zero_rank_is_shown_as_sentinel_witness :
  ∃ r,
    resultIn RankTracker
      (appState (handleSubmit_settled RankTracker
                   (Response 200 (JsonBody (ranks (JNum 0) (JNum 12)))) freshBrowser))
    = Some r
    ∧ (JNum 0 = JNum 0 → CurrentRank r = JStr "Not Found")
    ∧ (JNum 12 = JNum 0 → PreviousRank r = JStr "N/A")
    ∧ (JNum 0 ≠ JNum 0 → CurrentRank r = JNum 0)
    ∧ (JNum 12 ≠ JNum 0 → PreviousRank r = JNum 12).
Proof.
  apply (zero_rank_is_shown_as_sentinel 200 (ranks (JNum 0) (JNum 12))
           (JObj {[ "current_rank" := JNum 0; "previous_rank" := JNum 12 ]})
           (JNum 0) (JNum 12) freshBrowser).
  - lia.
  - reflexivity.
  - reflexivity.
  - reflexivity.
Defined.

(** ** Persistence of the webhook addresses *)

Lemma parseSaved_mapping saved m :
  savedMapping saved = Some m → parseSaved saved = Normal (JObj m).
Proof.
  destruct saved as [[| | [| | | | |]] |]; simpl; intros [= <-]; reflexivity.
Qed.

(** On a stored value that can be extended, the [try] statement of
    [updateToolState] makes one [setItem] call, with the mapping in which
    the tool's entry is the new address. *)
Lemma saveWebhook_mapping tool v ls m :
  savedMapping (getItem LOCAL_STORAGE_KEY ls) = Some m →
  saveWebhook tool v ls
  = setItem LOCAL_STORAGE_KEY (JSON_stringify (JObj (<[toolKey tool := v]> m))) ls.
Proof.
  intros H. unfold saveWebhook. rewrite (parseSaved_mapping _ _ H). reflexivity.
Qed.

Lemma getItem_setItem key value ls : getItem key (setItem key value ls) = Some value.
Proof. unfold getItem, setItem. simpl. apply lookup_insert_eq. Qed.

(** The state that the initialiser builds from a stored mapping. *)
Lemma initialState_mapping ls m tool :
  getItem LOCAL_STORAGE_KEY ls = Some (Serialized (JObj m)) →
  let s := initialState ls in
  webhookIn tool s = orEmpty (m !! toolKey tool)
  ∧ Forall (λ field, field = EmptyString) (queryIn tool s)
  ∧ resultIn tool s = None
  ∧ errorIn tool s = None
  ∧ isLoadingIn tool s = false
  ∧ rawResponseIn tool s = JNull.
Proof.
  intros H. unfold initialState, loadState. rewrite H. simpl.
  destruct tool; simpl; repeat split; repeat constructor.
Qed.

Lemma orEmpty_string w : orEmpty (Some (JStr w)) = JStr w.
Proof.
  unfold orEmpty, truthy. destruct (String.eqb w EmptyString) eqn:E; simpl; [| reflexivity].
  apply String.eqb_eq in E. now subst.
Qed.

Lemma cleanState_fields tool :
  webhookIn tool cleanState = JStr EmptyString
  ∧ Forall (λ field, field = EmptyString) (queryIn tool cleanState)
  ∧ resultIn tool cleanState = None
  ∧ errorIn tool cleanState = None
  ∧ isLoadingIn tool cleanState = false
  ∧ rawResponseIn tool cleanState = JNull.
Proof. destruct tool; simpl; repeat split; repeat constructor. Qed.

Lemma onChange_webhook tool w newState :
  Ui.onChange tool Ui.WebhookUrl w = Some newState →
  webhookOf tool newState = Some (JStr w).
Proof. destruct tool; simpl; intros [= <-]; reflexivity. Qed.

(** C4 (as amended): provided the value stored under the key is absent,
    empty or the text of a JSON object, for every tool and every webhook
    string [w], updating the tool's state with webhook [w] and then
    re-initialising the application restores the tool's webhook field to
    exactly [w], while its other fields start from their empty defaults. *)
Theorem webhook_round_trip tool w newState b m :
  savedMapping (getItem LOCAL_STORAGE_KEY (localStorage b)) = Some m →
  Ui.onChange tool Ui.WebhookUrl w = Some newState →
  let s := initialState (localStorage (updateToolState tool newState b)) in
  webhookIn tool s = JStr w
  ∧ Forall (λ field, field = EmptyString) (queryIn tool s)
  ∧ resultIn tool s = None
  ∧ errorIn tool s = None
  ∧ isLoadingIn tool s = false
  ∧ rawResponseIn tool s = JNull.
Proof.
  intros Hm Hchange s. apply onChange_webhook in Hchange.
  assert (getItem LOCAL_STORAGE_KEY (localStorage (updateToolState tool newState b))
          = Some (Serialized (JObj (<[toolKey tool := JStr w]> m)))) as Hsaved.
  { unfold updateToolState. simpl. rewrite Hchange.
    rewrite (saveWebhook_mapping tool (JStr w) _ m Hm). apply getItem_setItem. }
  destruct (initialState_mapping _ _ tool Hsaved) as (Hw & Hrest).
  split; [| exact Hrest].
  fold s in Hw. rewrite Hw, lookup_insert_eq. apply orEmpty_string.
Qed.

Lemma webhook_round_trip_witness :
  let newState : PartialOf BlogPostWriter :=
    {| BlogPost.webhook := Some (JStr "https://n8n.example/webhook/blog");
       BlogPost.topic := None; BlogPost.result := None; BlogPost.isLoading := None;
       BlogPost.error := None; BlogPost.rawResponse := None |} in
  let s :=
    initialState
      (localStorage (updateToolState BlogPostWriter newState (filledBrowser RankTracker))) in
  webhookIn BlogPostWriter s = JStr "https://n8n.example/webhook/blog"
  ∧ Forall (λ field, field = EmptyString) (queryIn BlogPostWriter s)
  ∧ resultIn BlogPostWriter s = None
  ∧ errorIn BlogPostWriter s = None
  ∧ isLoadingIn BlogPostWriter s = false
  ∧ rawResponseIn BlogPostWriter s = JNull.
Proof.
  intros newState.
  apply (webhook_round_trip BlogPostWriter "https://n8n.example/webhook/blog" newState
           (filledBrowser RankTracker)
           {[ toolKey RankTracker := JStr "https://n8n.example/webhook/seo" ]}).
  - vm_compute. reflexivity.
  - reflexivity.
Defined.

(** C4 (as stated) fails when the stored value is not JSON: the address
    typed into the form is not saved, and after re-initialising the webhook
    field is empty. *)
Lemma corrupt_store_loses_webhook :
  match play (Ui.start corruptStorage)
          [Ui.Navigate KeywordGenerator;
           Ui.Change Ui.WebhookUrl "https://n8n.example/webhook/seo"] with
  | Some p =>
      webhookIn KeywordGenerator (appState (Ui.browser p))
      = JStr "https://n8n.example/webhook/seo"
      ∧ webhookIn KeywordGenerator (initialState (localStorage (Ui.browser p)))
        = JStr EmptyString
      ∧ webhookIn KeywordGenerator (initialState (localStorage (Ui.browser p)))
        ≠ JStr "https://n8n.example/webhook/seo"
  | None => False
  end.
Proof. vm_compute. repeat split; discriminate. Qed.

(** C5: if the value stored under the key cannot be parsed as JSON, the
    state initialiser still returns a state, the clean one: every tool's
    webhook is the empty string, its query fields are empty, result and
    error are null and [isLoading] is false. *)
Theorem corrupt_store_falls_back ls text e :
  getItem LOCAL_STORAGE_KEY ls = Some text →
  JSON_parse text = Throw e →
  initialState ls = cleanState
  ∧ ∀ tool,
      webhookIn tool (initialState ls) = JStr EmptyString
      ∧ Forall (λ field, field = EmptyString) (queryIn tool (initialState ls))
      ∧ resultIn tool (initialState ls) = None
      ∧ errorIn tool (initialState ls) = None
      ∧ isLoadingIn tool (initialState ls) = false.
Proof.
  intros Hget Hparse.
  assert (initialState ls = cleanState) as ->.
  { unfold initialState, loadState. rewrite Hget.
    destruct text; simpl in *; try discriminate Hparse; reflexivity. }
  split; [reflexivity |].
  intros tool. destruct (cleanState_fields tool) as (? & ? & ? & ? & ? & _). auto.
Qed.

Lemma corrupt_store_falls_back_witness :
  initialState corruptStorage = cleanState
  ∧ ∀ tool,
      webhookIn tool (initialState corruptStorage) = JStr EmptyString
      ∧ Forall (λ field, field = EmptyString) (queryIn tool (initialState corruptStorage))
      ∧ resultIn tool (initialState corruptStorage) = None
      ∧ errorIn tool (initialState corruptStorage) = None
      ∧ isLoadingIn tool (initialState corruptStorage) = false.
Proof.
  apply (corrupt_store_falls_back corruptStorage Unparseable syntaxError).
  - reflexivity.
  - reflexivity.
Defined.

Lemma updateToolState_others tool newState b t :
  t ≠ tool →
  getTool t (appState (updateToolState tool newState b)) = getTool t (appState b).
Proof. intros Hne. destruct tool, t; try congruence; reflexivity. Qed.

Lemma updateToolState_other_keys tool newState b key :
  key ≠ LOCAL_STORAGE_KEY →
  getItem key (localStorage (updateToolState tool newState b))
  = getItem key (localStorage b).
Proof.
  intros Hne. unfold updateToolState. simpl.
  destruct (webhookOf tool newState) as [v |]; [| reflexivity].
  unfold saveWebhook.
  destruct (parseSaved (getItem LOCAL_STORAGE_KEY (localStorage b))) as [webhooks | e];
    simpl; [| reflexivity].
  destruct (assign (toolKey tool) v webhooks) as [webhooks' | e]; simpl; [| reflexivity].
  unfold getItem, setItem. simpl. now apply lookup_insert_ne.
Qed.

(** C6 (as amended): [updateToolState] leaves local storage as it is when
    the partial update has no webhook field, whatever else it changes; when
    it has one, and the value stored under the key is absent, empty or the
    text of a JSON object, it makes exactly one [setItem] call, under the
    single key, with the stored mapping in which the tool's entry is the new
    webhook; no other key is ever touched, and the other tools' states are
    unchanged. *)
Theorem only_webhook_is_persisted tool newState b :
  let b' := updateToolState tool newState b in
  (webhookOf tool newState = None → localStorage b' = localStorage b)
  ∧ (∀ v m,
       webhookOf tool newState = Some v →
       savedMapping (getItem LOCAL_STORAGE_KEY (localStorage b)) = Some m →
       localStorage b'
       = setItem LOCAL_STORAGE_KEY (JSON_stringify (JObj (<[toolKey tool := v]> m)))
           (localStorage b))
  ∧ (∀ key, key ≠ LOCAL_STORAGE_KEY →
       getItem key (localStorage b') = getItem key (localStorage b))
  ∧ (∀ t, t ≠ tool → getTool t (appState b') = getTool t (appState b)).
Proof.
  intros b'. repeat split.
  - intros Hnone. unfold b', updateToolState. simpl. rewrite Hnone. reflexivity.
  - intros v m Hsome Hm. unfold b', updateToolState. simpl. rewrite Hsome.
    now apply saveWebhook_mapping.
  - intros key Hne. now apply updateToolState_other_keys.
  - intros t Hne. now apply updateToolState_others.
Qed.

Lemma only_webhook_is_persisted_witness :
  let b' :=
    updateToolState KeywordGenerator (keywordWebhook "https://n8n.example/webhook/kw")
      (filledBrowser RankTracker) in
  localStorage b'
  = setItem LOCAL_STORAGE_KEY
      (JSON_stringify
         (JObj (<[toolKey KeywordGenerator := JStr "https://n8n.example/webhook/kw"]>
                  {[ toolKey RankTracker := JStr "https://n8n.example/webhook/seo" ]})))
      (localStorage (filledBrowser RankTracker))
  ∧ getTool RankTracker (appState b') = getTool RankTracker (appState (filledBrowser RankTracker)).
Proof.
  intros b'.
  destruct (only_webhook_is_persisted KeywordGenerator
              (keywordWebhook "https://n8n.example/webhook/kw") (filledBrowser RankTracker))
    as (_ & Hsave & _ & Hothers).
  split.
  - apply Hsave; [reflexivity | vm_compute; reflexivity].
  - apply Hothers. discriminate.
Defined.

(** C6 (as stated) fails when the stored value is not JSON: the partial
    update has a webhook field, the React state takes it, and nothing is
    written to local storage. *)
Lemma corrupt_store_is_not_written :
  let b := {| localStorage := corruptStorage; appState := initialState corruptStorage |} in
  let b' := updateToolState KeywordGenerator (keywordWebhook "https://n8n.example/webhook/kw") b in
  webhookOf KeywordGenerator (keywordWebhook "https://n8n.example/webhook/kw")
  = Some (JStr "https://n8n.example/webhook/kw")
  ∧ webhookIn KeywordGenerator (appState b') = JStr "https://n8n.example/webhook/kw"
  ∧ setItemCalls (localStorage b') = []
  ∧ localStorage b' = corruptStorage.
Proof. vm_compute. repeat split. Qed.

(** ** One request per tool *)

Lemma isLoadingIn_getTool t s s' :
  getTool t s = getTool t s' → isLoadingIn t s = isLoadingIn t s'.
Proof. destruct t; simpl; intros ->; reflexivity. Qed.

Lemma initialState_not_loading ls tool : isLoadingIn tool (initialState ls) = false.
Proof.
  unfold initialState, loadState.
  destruct (parseSaved (getItem LOCAL_STORAGE_KEY ls)) as [webhooks | e]; simpl.
  - destruct webhooks; simpl; destruct tool; reflexivity.
  - destruct tool; reflexivity.
Qed.

(** Typing into an input does not touch any [isLoading] flag. *)
Lemma onChange_isLoading tool field value newState b t :
  Ui.onChange tool field value = Some newState →
  isLoadingIn t (appState (updateToolState tool newState b)) = isLoadingIn t (appState b).
Proof.
  destruct tool, field; simpl; intros H; try discriminate H; injection H as <-;
    destruct t; reflexivity.
Qed.

(** The start of a handler sets [isLoading] when it issues a request, and
    leaves it alone otherwise. *)
Lemma handleSubmit_isLoading tool b t :
  isLoadingIn t (appState (fst (handleSubmit tool b)))
  = match snd (handleSubmit tool b) with
    | Some _ => if decide (t = tool) then true else isLoadingIn t (appState b)
    | None => isLoadingIn t (appState b)
    end.
Proof.
  destruct (snd (handleSubmit tool b)) as [request |] eqn:E.
  - case_decide as Ht.
    + subst t. apply (handleSubmit_issued tool b request E).
    + apply isLoadingIn_getTool. now apply handleSubmit_others.
  - destruct (decide (t = tool)) as [-> | Ht].
    + apply (handleSubmit_refused tool b E).
    + apply isLoadingIn_getTool. now apply handleSubmit_others.
Qed.

Lemma settled_isLoading_at tool o b t :
  isLoadingIn t (appState (handleSubmit_settled tool o b))
  = if decide (t = tool) then false else isLoadingIn t (appState b).
Proof.
  case_decide as Ht.
  - subst t. apply settled_isLoading.
  - apply isLoadingIn_getTool. now apply settled_others.
Qed.

Lemma submitDisabled_loading tool s :
  isLoadingIn tool s = true → submitDisabled tool s = true ∧ inputsDisabled tool s = true.
Proof.
  destruct tool; simpl;
    unfold OnPageSeoTool.submitDisabled, OnPageSeoTool.inputsDisabled,
      KeywordGeneratorTool.submitDisabled, KeywordGeneratorTool.inputsDisabled,
      BlogPostWriterTool.submitDisabled, BlogPostWriterTool.inputsDisabled,
      RankTrackerTool.submitDisabled, RankTrackerTool.inputsDisabled;
    intros ->; split; reflexivity.
Qed.

Lemma settleOne_elem tool pending t :
  NoDup pending → t ∈ Ui.settleOne tool pending ↔ t ≠ tool ∧ t ∈ pending.
Proof.
  induction 1 as [| x rest Hx Hnd IH]; simpl.
  - split; [intros H | intros [_ H]]; inversion H.
  - case_decide as Hxt.
    + subst x. rewrite elem_of_cons. split.
      * intros Hin. split; [| now right]. intros ->. contradiction.
      * intros [Hne [-> | Hin]]; [contradiction | exact Hin].
    + rewrite !elem_of_cons, IH. split.
      * intros [-> | [Hne Hin]]; auto.
      * intros [Hne [-> | Hin]]; auto.
Qed.

Lemma settleOne_NoDup tool pending : NoDup pending → NoDup (Ui.settleOne tool pending).
Proof.
  induction 1 as [| x rest Hx Hnd IH]; simpl; [constructor |].
  case_decide; [exact Hnd |].
  constructor; [| exact IH].
  rewrite (settleOne_elem tool rest x Hnd). tauto.
Qed.

(** Every event keeps the flags and the pending fetches in step. *)
Lemma step_oneInFlight p ev p' :
  oneInFlight p → Ui.step p ev = Some p' → oneInFlight p'.
Proof.
  intros [Hnd Hflag] Hstep. destruct ev as [tool | field value | | tool o]; simpl in Hstep.
  - injection Hstep as <-. split; assumption.
  - destruct (inputsDisabled _ _); [discriminate |].
    destruct (Ui.onChange _ field value) as [newState |] eqn:E; [| discriminate].
    injection Hstep as <-. split; cbn [Ui.browser Ui.pending Ui.activeTool]; [assumption |].
    intros t. rewrite (onChange_isLoading _ _ _ _ _ t E). apply Hflag.
  - destruct (submitDisabled _ _) eqn:Hdis; [discriminate |].
    assert (Ui.activeTool p ∉ Ui.pending p) as Hfree.
    { rewrite <- Hflag. intros Hload.
      apply submitDisabled_loading in Hload. destruct Hload. congruence. }
    pose proof (handleSubmit_isLoading (Ui.activeTool p) (Ui.browser p)) as Hload.
    destruct (handleSubmit _ _) as [b [request |]]; simpl in Hload;
      injection Hstep as <-; split; cbn [Ui.browser Ui.pending Ui.activeTool].
    + constructor; assumption.
    + intros t. rewrite Hload, elem_of_cons. case_decide as Ht.
      * split; auto.
      * rewrite Hflag. split; [auto | intros [? | ?]; [contradiction | assumption]].
    + assumption.
    + intros t. rewrite Hload. apply Hflag.
  - case_decide as Hin; [| discriminate]. injection Hstep as <-. split; cbn [Ui.browser Ui.pending Ui.activeTool].
    + now apply settleOne_NoDup.
    + intros t. rewrite settled_isLoading_at, (settleOne_elem tool _ t Hnd).
      case_decide as Ht.
      * split; [discriminate | intros [? _]; contradiction].
      * rewrite Hflag. tauto.
Qed.

Lemma reachable_oneInFlight ls p : Ui.reachable ls p → oneInFlight p.
Proof.
  induction 1 as [| p ev p' _ IH Hstep].
  - split; simpl; [constructor |].
    intros tool. rewrite initialState_not_loading. split; [discriminate |].
    intros H. inversion H.
  - exact (step_oneInFlight p ev p' IH Hstep).
Qed.

Lemma play_reachable ls p events p' :
  Ui.reachable ls p → play p events = Some p' → Ui.reachable ls p'.
Proof.
  revert p. induction events as [| ev rest IH]; simpl; intros p Hp Hplay.
  - now injection Hplay as <-.
  - destruct (Ui.step p ev) as [q |] eqn:E; [| discriminate].
    apply (IH q); [| exact Hplay]. exact (Ui.reach_step ls p ev q Hp E).
Qed.

(** Only the settling of a tool's fetch clears its [isLoading] flag. *)
Lemma step_clears_isLoading p ev p' tool :
  Ui.step p ev = Some p' →
  isLoadingIn tool (appState (Ui.browser p)) = true →
  isLoadingIn tool (appState (Ui.browser p')) = false →
  ∃ o, ev = Ui.Settle tool o.
Proof.
  intros Hstep Hbefore Hafter. destruct ev as [t | field value | | t o]; simpl in Hstep.
  - injection Hstep as <-. cbn [Ui.browser Ui.pending Ui.activeTool] in Hafter. congruence.
  - destruct (inputsDisabled _ _); [discriminate |].
    destruct (Ui.onChange _ field value) as [newState |] eqn:E; [| discriminate].
    injection Hstep as <-. cbn [Ui.browser Ui.pending Ui.activeTool] in Hafter.
    rewrite (onChange_isLoading _ _ _ _ _ tool E) in Hafter. congruence.
  - destruct (submitDisabled _ _); [discriminate |].
    pose proof (handleSubmit_isLoading (Ui.activeTool p) (Ui.browser p) tool) as Hload.
    destruct (handleSubmit _ _) as [b [request |]]; simpl in Hload;
      injection Hstep as <-; cbn [Ui.browser Ui.pending Ui.activeTool] in Hafter; rewrite Hload in Hafter;
      try case_decide; congruence.
  - case_decide; [| discriminate]. injection Hstep as <-. cbn [Ui.browser Ui.pending Ui.activeTool] in Hafter.
    rewrite settled_isLoading_at in Hafter. case_decide as Ht; [| congruence].
    subst t. eauto.
Qed.

(** C7: on every page that a sequence of events leads to, a tool whose
    [isLoading] flag is set has its submit button and its inputs disabled;
    no tool has two fetches pending, and a click starts a request only for a
    tool that has none pending; the flag of a tool is set exactly while its
    fetch is pending, and the only event that clears it is the settling of
    that fetch (there is no timeout and no cancellation). *)
Theorem one_request_in_flight ls p :
  Ui.reachable ls p →
  (∀ tool, isLoadingIn tool (appState (Ui.browser p)) = true →
     submitDisabled tool (appState (Ui.browser p)) = true
     ∧ inputsDisabled tool (appState (Ui.browser p)) = true)
  ∧ NoDup (Ui.pending p)
  ∧ (∀ tool, isLoadingIn tool (appState (Ui.browser p)) = true ↔ tool ∈ Ui.pending p)
  ∧ (∀ p', Ui.step p Ui.ClickSubmit = Some p' →
       (Ui.activeTool p ∉ Ui.pending p) ∧ NoDup (Ui.pending p'))
  ∧ (∀ ev p' tool,
       Ui.step p ev = Some p' →
       isLoadingIn tool (appState (Ui.browser p)) = true →
       isLoadingIn tool (appState (Ui.browser p')) = false →
       ∃ o, ev = Ui.Settle tool o).
Proof.
  intros Hreach. pose proof (reachable_oneInFlight ls p Hreach) as [Hnd Hflag].
  split; [| split; [| split; [| split]]].
  - intros tool. apply submitDisabled_loading.
  - exact Hnd.
  - exact Hflag.
  - intros p' Hstep. split.
    + rewrite <- Hflag. intros Hload. simpl in Hstep.
      apply submitDisabled_loading in Hload. destruct Hload as [Hdis _].
      rewrite Hdis in Hstep. discriminate.
    + apply (step_oneInFlight p Ui.ClickSubmit p'); [split; assumption | exact Hstep].
  - intros ev p' tool. apply step_clears_isLoading.
Qed.

Lemma one_request_in_flight_witness :
  (∀ tool, isLoadingIn tool (appState (Ui.browser waitingPage)) = true →
     submitDisabled tool (appState (Ui.browser waitingPage)) = true
     ∧ inputsDisabled tool (appState (Ui.browser waitingPage)) = true)
  ∧ NoDup (Ui.pending waitingPage)
  ∧ (∀ tool, isLoadingIn tool (appState (Ui.browser waitingPage)) = true
             ↔ tool ∈ Ui.pending waitingPage)
  ∧ (∀ p', Ui.step waitingPage Ui.ClickSubmit = Some p' →
       (Ui.activeTool waitingPage ∉ Ui.pending waitingPage) ∧ NoDup (Ui.pending p'))
  ∧ (∀ ev p' tool,
       Ui.step waitingPage ev = Some p' →
       isLoadingIn tool (appState (Ui.browser waitingPage)) = true →
       isLoadingIn tool (appState (Ui.browser p')) = false →
       ∃ o, ev = Ui.Settle tool o).
Proof.
  apply (one_request_in_flight freshStorage waitingPage).
  apply (play_reachable freshStorage (Ui.start freshStorage)
           (fillAndSubmit KeywordGenerator)).
  - apply Ui.reach_start.
  - vm_compute. reflexivity.
Defined.

(** ** The markdown converter *)

(** C8: the code evaluated where it departs from the claim.  In a
    paragraph block the line breaks are replaced by [<br />] before
    [processLine] runs, so the escaping of code spans is not the first
    substitution: a line break between two backticks becomes a tag that is
    then escaped, and the backticks pair up across lines, which leaves the
    [<] of the code span on the second line of the second input unescaped.
    The heading path, which passes the block to [processLine] as it is,
    escapes the same code span. *)
Theorem line_breaks_precede_code_escaping :
  let newline := String lineFeed EmptyString in
  OnPageSeoTool.parseMarkdown ("`a" ++ newline ++ "b`")
  = "<p><code>a&lt;br /&gt;b</code></p>"
  ∧ OnPageSeoTool.parseMarkdown ("`" ++ newline ++ "`<`")
    = "<p><code>&lt;br /&gt;</code><`</p>"
  ∧ OnPageSeoTool.parseMarkdown ("## `" ++ newline ++ "`<`")
    = "<h2>`" ++ newline ++ "<code>&lt;</code></h2>".
Proof. vm_compute. repeat split. Qed.

(** What does hold of the converter: [escapeHtml] replaces each of the five
    characters by its entity and keeps every other character, and on a line
    that [processLine] receives unchanged, a code span is replaced by a
    [code] element with the escaped content before the bold substitution
    runs. *)

Lemma append_cons a (s t : string) : String a s ++ t = String a (s ++ t).
Proof. reflexivity. Qed.

Lemma append_assoc (s t u : string) : (s ++ t) ++ u = s ++ (t ++ u).
Proof.
  induction s as [| a s IH]; [reflexivity |].
  rewrite !append_cons. f_equal. exact IH.
Qed.

Lemma append_length (s t : string) :
  String.length (s ++ t) = (String.length s + String.length t)%nat.
Proof.
  induction s as [| a s IH]; [reflexivity |].
  rewrite append_cons. simpl. f_equal. exact IH.
Qed.

Lemma replaceChar_app c by_ s t :
  replaceChar c by_ (s ++ t) = replaceChar c by_ s ++ replaceChar c by_ t.
Proof.
  induction s as [| a s IH]; [reflexivity |].
  rewrite append_cons. simpl. rewrite IH.
  destruct (Ascii.eqb a c); [now rewrite append_assoc | reflexivity].
Qed.

Lemma escapeHtml_app s t :
  OnPageSeoTool.escapeHtml (s ++ t)
  = OnPageSeoTool.escapeHtml s ++ OnPageSeoTool.escapeHtml t.
Proof. unfold OnPageSeoTool.escapeHtml. now rewrite !replaceChar_app. Qed.

Lemma escapeHtml_char c :
  OnPageSeoTool.escapeHtml (String c EmptyString) = entity c.
Proof.
  destruct c as [[] [] [] [] [] [] [] []]; vm_compute; reflexivity.
Qed.

Lemma escapeHtml_by_character s :
  OnPageSeoTool.escapeHtml s = eachChar entity s.
Proof.
  induction s as [| c s IH]; [reflexivity |].
  change (String c s) with (String c EmptyString ++ s).
  rewrite escapeHtml_app, escapeHtml_char, IH. reflexivity.
Qed.

Lemma stripPrefix_length p s rest :
  stripPrefix p s = Some rest →
  String.length s = (String.length p + String.length rest)%nat.
Proof.
  revert s. induction p as [| a p IH]; intros s; simpl.
  - now intros [= ->].
  - destruct s as [| b s]; [discriminate |].
    destruct (Ascii.eqb a b); [| discriminate].
    intros H. simpl. f_equal. now apply IH.
Qed.

Lemma lazyUntil_length delim s content rest :
  lazyUntil delim s = Some (content, rest) →
  String.length s
  = (String.length content + String.length delim + String.length rest)%nat.
Proof.
  revert content. induction s as [| c s IH]; intros content; simpl.
  - destruct (stripPrefix delim EmptyString) as [r |] eqn:E; [| discriminate].
    intros [= <- <-]. apply stripPrefix_length in E. simpl in *. lia.
  - destruct (stripPrefix delim (String c s)) as [r |] eqn:E.
    + intros [= <- <-]. apply stripPrefix_length in E. simpl in *. lia.
    + destruct (isLineTerminator c); [discriminate |].
      destruct (lazyUntil delim s) as [[content' rest'] |]; [| discriminate].
      intros [= <- <-]. simpl. rewrite (IH content' eq_refl). lia.
Qed.

(** The bound on the number of steps is enough: any larger one gives the
    same string. *)
Lemma replaceSpansFrom_enough delim wrap n m s :
  delim ≠ EmptyString →
  (String.length s ≤ n)%nat → (String.length s ≤ m)%nat →
  replaceSpansFrom n delim wrap s = replaceSpansFrom m delim wrap s.
Proof.
  intros Hdelim. revert m s.
  assert (∀ k, replaceSpansFrom k delim wrap EmptyString = EmptyString) as Hempty.
  { intros [| k]; simpl; [reflexivity |].
    destruct delim; [contradiction | reflexivity]. }
  induction n as [| n IH]; intros m s Hn Hm.
  - destruct s; simpl in Hn; [| lia]. now rewrite !Hempty.
  - destruct m as [| m].
    + destruct s; simpl in Hm; [| lia]. now rewrite !Hempty.
    + simpl.
      destruct (stripPrefix delim s) as [after |] eqn:Estrip; simpl.
      * destruct (lazyUntil delim after) as [[content rest] |] eqn:Elazy.
        -- apply stripPrefix_length in Estrip. apply lazyUntil_length in Elazy.
           assert (0 < String.length delim)%nat.
           { destruct delim; [contradiction | simpl; lia]. }
           f_equal. apply IH; lia.
        -- destruct s as [| c s]; [reflexivity |]. simpl in Hn, Hm.
           f_equal. apply IH; lia.
      * destruct s as [| c s]; [reflexivity |]. simpl in Hn, Hm.
        f_equal. apply IH; lia.
Qed.

Lemma stripPrefix_backtick c s :
  stripPrefix backtick (String c s) = if Ascii.eqb "096" c then Some s else None.
Proof. unfold backtick. simpl. destruct (Ascii.eqb "096" c); reflexivity. Qed.

Lemma lazyUntil_cons delim c s :
  lazyUntil delim (String c s)
  = match stripPrefix delim (String c s) with
    | Some rest => Some (EmptyString, rest)
    | None =>
        if isLineTerminator c then None
        else match lazyUntil delim s with
             | Some (content, rest) => Some (String c content, rest)
             | None => None
             end
    end.
Proof. reflexivity. Qed.

Lemma replaceSpansFrom_S steps delim wrap s :
  replaceSpansFrom (S steps) delim wrap s
  = match stripPrefix delim s ≫= lazyUntil delim with
    | Some (content, rest) => wrap content ++ replaceSpansFrom steps delim wrap rest
    | None =>
        match s with
        | EmptyString => EmptyString
        | String c s' => String c (replaceSpansFrom steps delim wrap s')
        end
    end.
Proof. reflexivity. Qed.

Lemma lazyUntil_backtick content post :
  noneOf isBacktick content = true →
  noneOf isLineTerminator content = true →
  lazyUntil backtick (content ++ backtick ++ post) = Some (content, post).
Proof.
  induction content as [| c content IH]; intros Hb Hl.
  - reflexivity.
  - rewrite append_cons. simpl in Hb, Hl.
    apply andb_true_iff in Hb as [Hc Hb]. apply andb_true_iff in Hl as [Hcl Hl].
    unfold isBacktick in Hc. apply negb_true_iff in Hc, Hcl.
    rewrite lazyUntil_cons, stripPrefix_backtick, Ascii.eqb_sym, Hc, Hcl, (IH Hb Hl).
    reflexivity.
Qed.

(** A code span after text without backticks is the first match. *)
Lemma replaceSpans_code_span wrap pre content post :
  noneOf isBacktick pre = true →
  noneOf isBacktick content = true →
  noneOf isLineTerminator content = true →
  replaceSpans backtick wrap (pre ++ backtick ++ content ++ backtick ++ post)
  = pre ++ wrap content ++ replaceSpans backtick wrap post.
Proof.
  intros Hpre Hb Hl. unfold replaceSpans.
  assert (∀ n, (String.length (pre ++ backtick ++ content ++ backtick ++ post) ≤ n)%nat →
            replaceSpansFrom n backtick wrap (pre ++ backtick ++ content ++ backtick ++ post)
            = pre ++ wrap content
              ++ replaceSpansFrom (String.length post) backtick wrap post) as Hgen.
  { induction pre as [| c pre IH]; intros n Hn.
    - change (EmptyString ++ backtick ++ content ++ backtick ++ post)
        with (String "096" (content ++ backtick ++ post)) in *.
      destruct n as [| n]; [simpl in Hn; lia |].
      rewrite replaceSpansFrom_S, stripPrefix_backtick, Ascii.eqb_refl. simpl mbind.
      rewrite (lazyUntil_backtick content post Hb Hl).
      change (EmptyString ++ ?x) with x. f_equal.
      apply replaceSpansFrom_enough; [discriminate | | lia].
      simpl in Hn. rewrite !append_length in Hn. simpl in Hn. lia.
    - simpl in Hpre. apply andb_true_iff in Hpre as [Hc Hpre].
      unfold isBacktick in Hc. apply negb_true_iff in Hc.
      rewrite !append_cons in *. destruct n as [| n]; [simpl in Hn; lia |].
      rewrite replaceSpansFrom_S, stripPrefix_backtick, Ascii.eqb_sym, Hc. simpl mbind.
      f_equal. apply IH; [exact Hpre | simpl in Hn; lia]. }
  apply Hgen. lia.
Qed.

(** On a line that reaches [processLine] as written, the characters of a
    code span are replaced by their entities, and the bold substitution
    comes after. *)
Lemma processLine_code_span pre content post :
  noneOf isBacktick pre = true →
  noneOf isBacktick content = true →
  noneOf isLineTerminator content = true →
  OnPageSeoTool.processLine (pre ++ backtick ++ content ++ backtick ++ post)
  = replaceSpans "**" (fun bold => "<strong>" ++ bold ++ "</strong>")
      (pre ++ ("<code>" ++ eachChar entity content ++ "</code>")
       ++ replaceSpans backtick codeElement post).
Proof.
  intros Hpre Hb Hl. unfold OnPageSeoTool.processLine.
  change (fun codeContent => "<code>" ++ OnPageSeoTool.escapeHtml codeContent ++ "</code>")
    with codeElement.
  rewrite (replaceSpans_code_span codeElement pre content post Hpre Hb Hl).
  unfold codeElement at 1. now rewrite escapeHtml_by_character.
Qed.

(** * Further properties of the code *)

(** ** Submit actions and the fields they leave alone *)

Lemma handleSubmit_inputs tool b :
  let b' := fst (handleSubmit tool b) in
  webhookIn tool (appState b') = webhookIn tool (appState b)
  ∧ queryIn tool (appState b') = queryIn tool (appState b)
  ∧ localStorage b' = localStorage b.
Proof.
  destruct tool; unfold_handlers; simpl;
    match goal with
    | |- context [if ?c then _ else _] => destruct c
    end; repeat split.
Qed.

Lemma settled_inputs tool o b :
  let b' := handleSubmit_settled tool o b in
  webhookIn tool (appState b') = webhookIn tool (appState b)
  ∧ queryIn tool (appState b') = queryIn tool (appState b).
Proof.
  settled_cases tool o;
    try match goal with
        | |- context [match ?v with Normal _ => _ | Throw _ => _ end] => destruct v
        end; split; reflexivity.
Qed.

(** X1: a submit action, whatever the webhook answers, writes nothing to
    local storage, keeps the tool's webhook and query fields, and leaves the
    states of the other tools as they were. *)
Theorem submit_changes_only_its_outcome tool o b :
  let b' := fst (submit tool o b) in
  localStorage b' = localStorage b
  ∧ webhookIn tool (appState b') = webhookIn tool (appState b)
  ∧ queryIn tool (appState b') = queryIn tool (appState b)
  ∧ ∀ t, t ≠ tool → getTool t (appState b') = getTool t (appState b).
Proof.
  unfold submit.
  pose proof (handleSubmit_inputs tool b) as (Hw & Hq & Hs).
  pose proof (fun t => handleSubmit_others tool b t) as Ho.
  destruct (handleSubmit tool b) as [b1 [request |]]; simpl in *.
  - pose proof (settled_inputs tool o b1) as (Hw' & Hq').
    rewrite settled_storage. repeat split; try congruence.
    intros t Hne. rewrite settled_others by exact Hne. now apply Ho.
  - repeat split; try assumption.
Qed.

Lemma enabled_issues tool b :
  submitDisabled tool (appState b) = false →
  ∃ request, snd (handleSubmit tool b) = Some request.
Proof.
  intros Hen.
  destruct (handleSubmit_cases tool b) as [[Hbad _] | [_ H]]; [| exact H].
  exfalso. unfold anyEmpty in Hbad.
  destruct tool; simpl in *;
    unfold OnPageSeoTool.submitDisabled, KeywordGeneratorTool.submitDisabled,
      BlogPostWriterTool.submitDisabled, RankTrackerTool.submitDisabled in Hen;
    repeat (apply orb_false_iff in Hen as [Hen ?]);
    destruct Hbad as [Hbad | Hbad];
    try (rewrite Hbad in *; discriminate);
    repeat (apply orb_true_iff in Hbad as [Hbad | Hbad]);
    try discriminate; congruence.
Qed.

(** X2: the submit button is enabled only when the handler's own check of
    the required fields passes: a click on an enabled button always issues
    the request, a POST to the webhook on screen, and clears the error; the
    'required' message cannot be produced through the button. *)
Theorem enabled_button_issues_request tool b :
  submitDisabled tool (appState b) = false →
  ∃ request,
    snd (handleSubmit tool b) = Some request
    ∧ input request = webhookIn tool (appState b)
    ∧ method request = "POST"
    ∧ errorIn tool (appState (fst (handleSubmit tool b))) = None.
Proof.
  intros Hen. destruct (enabled_issues tool b Hen) as [request Hreq].
  exists request.
  destruct (handleSubmit_issued tool b request Hreq) as (He & _ & _ & _ & _ & Hi & Hm).
  auto.
Qed.

Lemma enabled_button_issues_request_witness :
  ∃ request,
    snd (handleSubmit RankTracker (filledBrowser RankTracker)) = Some request
    ∧ input request = webhookIn RankTracker (appState (filledBrowser RankTracker))
    ∧ method request = "POST"
    ∧ errorIn RankTracker
        (appState (fst (handleSubmit RankTracker (filledBrowser RankTracker)))) = None.
Proof.
  apply (enabled_button_issues_request RankTracker (filledBrowser RankTracker)).
  vm_compute. reflexivity.
Defined.

(** ** The raw response *)

Lemma settled_rawResponse tool o b :
  rawResponseIn tool (appState (handleSubmit_settled tool o b))
  = match o with
    | Response status (JsonBody data) =>
        if ok status then data else rawResponseIn tool (appState b)
    | _ => rawResponseIn tool (appState b)
    end.
Proof.
  settled_cases tool o;
    try match goal with
        | |- context [match ?v with Normal _ => _ | Throw _ => _ end] => destruct v
        end; reflexivity.
Qed.

(** X3: after a submit action that issued its request, the raw response
    kept for the debugging panel is the parsed body of a 2xx response, also
    when the tool's validation then rejects it, and null in every other case
    (rejected fetch, status outside 2xx, body that is not JSON). *)
Theorem raw_response_is_the_parsed_body tool o b request :
  snd (handleSubmit tool b) = Some request →
  rawResponseIn tool (appState (fst (submit tool o b)))
  = match o with
    | Response status (JsonBody data) => if ok status then data else JNull
    | _ => JNull
    end.
Proof.
  intros Hreq.
  pose proof (handleSubmit_issued tool b request Hreq) as (_ & _ & Hraw & _).
  unfold submit. destruct (handleSubmit tool b) as [b1 r]. simpl in Hreq, Hraw. subst r.
  simpl. rewrite settled_rawResponse, Hraw.
  destruct o as [e | status [data | e]]; reflexivity.
Qed.

Lemma raw_response_is_the_parsed_body_witness :
  rawResponseIn KeywordGenerator
    (appState (fst (submit KeywordGenerator (Response 200 (JsonBody (JNum 7)))
                      (filledBrowser KeywordGenerator))))
  = if ok 200 then JNum 7 else JNull.
Proof.
  apply (raw_response_is_the_parsed_body KeywordGenerator (Response 200 (JsonBody (JNum 7)))
           (filledBrowser KeywordGenerator)
           (post (JStr "https://n8n.example/webhook/seo")
              {[ "topic" := JStr "AI automation" ]})).
  vm_compute. reflexivity.
Defined.

(** ** What a page never shows together *)

Lemma fields_getTool t s s' :
  getTool t s = getTool t s' →
  errorIn t s = errorIn t s'
  ∧ resultIn t s = resultIn t s'
  ∧ rawResponseIn t s = rawResponseIn t s'
  ∧ webhookIn t s = webhookIn t s'
  ∧ queryIn t s = queryIn t s'.
Proof. destruct t; simpl; intros ->; repeat split. Qed.

(** Typing changes the field typed into and nothing else. *)
Lemma onChange_fields tool field value newState b t :
  Ui.onChange tool field value = Some newState →
  let s' := appState (updateToolState tool newState b) in
  errorIn t s' = errorIn t (appState b)
  ∧ resultIn t s' = resultIn t (appState b)
  ∧ rawResponseIn t s' = rawResponseIn t (appState b).
Proof.
  destruct tool, field; simpl; intros H; try discriminate H; injection H as <-;
    destruct t; repeat split.
Qed.

Lemma initialState_clear ls tool :
  errorIn tool (initialState ls) = None
  ∧ resultIn tool (initialState ls) = None
  ∧ rawResponseIn tool (initialState ls) = JNull
  ∧ Forall (λ field, field = EmptyString) (queryIn tool (initialState ls)).
Proof.
  unfold initialState, loadState.
  destruct (parseSaved (getItem LOCAL_STORAGE_KEY ls)) as [webhooks | e]; simpl.
  - destruct webhooks; simpl; destruct tool; repeat split; repeat constructor.
  - destruct tool; repeat split; repeat constructor.
Qed.

Lemma step_nothingStale p ev p' :
  oneInFlight p → nothingStale p → Ui.step p ev = Some p' → nothingStale p'.
Proof.
  intros [Hnd Hflag] Hq Hstep tool. specialize (Hq tool). cbv zeta in *.
  destruct ev as [t | field value | | t o]; simpl in Hstep.
  - injection Hstep as <-. exact Hq.
  - destruct (inputsDisabled _ _); [discriminate |].
    destruct (Ui.onChange _ field value) as [newState |] eqn:E; [| discriminate].
    injection Hstep as <-. cbn [Ui.browser].
    destruct (onChange_fields _ _ _ _ (Ui.browser p) tool E) as (-> & -> & ->).
    rewrite (onChange_isLoading _ _ _ _ _ tool E). exact Hq.
  - destruct (submitDisabled _ _) eqn:Hdis; [discriminate |].
    destruct (enabled_issues _ (Ui.browser p) Hdis) as [request Hreq].
    pose proof (handleSubmit_issued _ _ request Hreq) as (He & Hr & Hraw & Hl & _).
    pose proof (handleSubmit_others (Ui.activeTool p) (Ui.browser p) tool) as Ho.
    destruct (handleSubmit _ _) as [b r]. simpl in Hreq, He, Hr, Hraw, Hl, Ho. subst r.
    injection Hstep as <-. cbn [Ui.browser].
    destruct (decide (tool = Ui.activeTool p)) as [-> | Hne].
    + rewrite He, Hr, Hraw. split; [auto | congruence].
    + destruct (fields_getTool tool _ _ (Ho Hne)) as (-> & -> & -> & _).
      rewrite (isLoadingIn_getTool tool _ _ (Ho Hne)). exact Hq.
  - case_decide as Hin; [| discriminate]. injection Hstep as <-. cbn [Ui.browser].
    destruct (decide (tool = t)) as [-> | Hne].
    + apply Hflag in Hin. destruct Hq as [Hq _]. destruct (Hq Hin) as (He & Hr & _).
      rewrite settled_isLoading. split; [discriminate |].
      destruct (verdict t o) as [r | e] eqn:Ev.
      * destruct (settled_normal t o (Ui.browser p) r Ev) as (He' & _).
        intros Hshown. rewrite He', He in Hshown. contradiction.
      * destruct (settled_throw t o (Ui.browser p) e Ev) as (_ & Hr' & _).
        intros _. now rewrite Hr'.
    + pose proof (settled_others t o (Ui.browser p) tool Hne) as Ho.
      destruct (fields_getTool tool _ _ Ho) as (-> & -> & -> & _).
      rewrite (isLoadingIn_getTool tool _ _ Ho). exact Hq.
Qed.

(** X4: on every page that a sequence of events leads to, a tool whose
    request is pending shows no error, no result and no raw response of an
    earlier run, and a tool that shows an error shows no result. *)
Theorem no_stale_result ls p tool :
  Ui.reachable ls p →
  let s := appState (Ui.browser p) in
  (isLoadingIn tool s = true →
     errorIn tool s = None ∧ resultIn tool s = None ∧ rawResponseIn tool s = JNull)
  ∧ (errorIn tool s ≠ None → resultIn tool s = None).
Proof.
  intros Hreach. revert tool. change (nothingStale p).
  induction Hreach as [| p ev p' Hreach IH Hstep].
  - intros tool. cbn [Ui.start Ui.browser appState].
    destruct (initialState_clear ls tool) as (He & Hr & Hraw & _).
    rewrite initialState_not_loading, He. split; [discriminate | congruence].
  - exact (step_nothingStale p ev p' (reachable_oneInFlight ls p Hreach) IH Hstep).
Qed.

Lemma no_stale_result_witness :
  let s := appState (Ui.browser waitingPage) in
  (isLoadingIn KeywordGenerator s = true →
     errorIn KeywordGenerator s = None ∧ resultIn KeywordGenerator s = None
     ∧ rawResponseIn KeywordGenerator s = JNull)
  ∧ (errorIn KeywordGenerator s ≠ None → resultIn KeywordGenerator s = None).
Proof.
  apply (no_stale_result freshStorage waitingPage KeywordGenerator).
  apply (play_reachable freshStorage (Ui.start freshStorage)
           (fillAndSubmit KeywordGenerator)).
  - apply Ui.reach_start.
  - vm_compute. reflexivity.
Defined.

(** ** Local storage over a whole session *)

Lemma toolKey_inj t t' : toolKey t = toolKey t' → t = t'.
Proof. destruct t, t'; simpl; intros H; try reflexivity; discriminate H. Qed.

Lemma initialState_saved ls m tool :
  savedMapping (getItem LOCAL_STORAGE_KEY ls) = Some m →
  webhookIn tool (initialState ls) = orEmpty (m !! toolKey tool).
Proof.
  intros H. unfold initialState, loadState.
  rewrite (parseSaved_mapping _ _ H). simpl. destruct tool; reflexivity.
Qed.

Lemma savedMapping_setItem ls m :
  savedMapping (getItem LOCAL_STORAGE_KEY
                  (setItem LOCAL_STORAGE_KEY (JSON_stringify (JObj m)) ls)) = Some m.
Proof. now rewrite getItem_setItem. Qed.

(** Typing: the webhook input sets the tool's webhook field to the text
    typed, the other inputs leave every webhook field and the storage alone. *)
Lemma onChange_webhookIn tool field value newState b t :
  Ui.onChange tool field value = Some newState →
  webhookIn t (appState (updateToolState tool newState b))
  = if decide (field = Ui.WebhookUrl ∧ t = tool) then JStr value
    else webhookIn t (appState b).
Proof.
  intros H.
  destruct tool, field; simpl in H; try discriminate H; injection H as <-;
    destruct t; case_decide as Hd; try reflexivity;
    try (destruct Hd as [? ?]; discriminate); exfalso; apply Hd; auto.
Qed.

Lemma onChange_webhookOf tool field value newState :
  Ui.onChange tool field value = Some newState →
  webhookOf tool newState
  = if decide (field = Ui.WebhookUrl) then Some (JStr value) else None.
Proof.
  destruct tool, field; simpl; intros H; try discriminate H; injection H as <-;
    reflexivity.
Qed.

Lemma step_reloadsAsShown p ev p' :
  reloadsAsShown p → Ui.step p ev = Some p' → reloadsAsShown p'.
Proof.
  intros (m & Hm & Hw) Hstep.
  destruct ev as [t | field value | | t o]; simpl in Hstep.
  - injection Hstep as <-. exists m. auto.
  - destruct (inputsDisabled _ _); [discriminate |].
    destruct (Ui.onChange _ field value) as [newState |] eqn:E; [| discriminate].
    injection Hstep as <-. unfold reloadsAsShown. cbn [Ui.browser].
    pose proof (onChange_webhookOf _ _ _ _ E) as Hof.
    destruct (decide (field = Ui.WebhookUrl)) as [-> | Hfield].
    + exists (<[toolKey (Ui.activeTool p) := JStr value]> m). split.
      * unfold updateToolState. cbn [localStorage]. rewrite Hof.
        rewrite (saveWebhook_mapping _ _ _ m Hm). apply savedMapping_setItem.
      * intros tool. rewrite (onChange_webhookIn _ _ _ _ _ tool E).
        case_decide as Hd.
        -- destruct Hd as [_ ->]. now rewrite lookup_insert_eq, orEmpty_string.
        -- rewrite lookup_insert_ne; [apply Hw |].
           intros Hk. apply toolKey_inj in Hk. apply Hd. auto.
    + exists m. split.
      * unfold updateToolState. cbn [localStorage]. now rewrite Hof.
      * intros tool. rewrite (onChange_webhookIn _ _ _ _ _ tool E).
        case_decide as Hd; [destruct Hd; contradiction | apply Hw].
  - destruct (submitDisabled _ _); [discriminate |].
    pose proof (handleSubmit_inputs (Ui.activeTool p) (Ui.browser p)) as (Hweb & _ & Hs).
    pose proof (handleSubmit_others (Ui.activeTool p) (Ui.browser p)) as Ho.
    assert (reloadsAsShown
              {| Ui.browser := fst (handleSubmit (Ui.activeTool p) (Ui.browser p));
                 Ui.activeTool := Ui.activeTool p; Ui.pending := Ui.pending p |}) as Hgoal.
    { exists m. cbn [Ui.browser]. rewrite Hs. split; [exact Hm |].
      intros tool. destruct (decide (tool = Ui.activeTool p)) as [-> | Hne].
      - rewrite Hweb. apply Hw.
      - destruct (fields_getTool tool _ _ (Ho tool Hne)) as (_ & _ & _ & -> & _).
        apply Hw. }
    destruct (handleSubmit _ _) as [b [request |]]; injection Hstep as <-;
      destruct Hgoal as (m' & H1 & H2); exists m'; auto.
  - case_decide; [| discriminate]. injection Hstep as <-.
    exists m. cbn [Ui.browser]. rewrite settled_storage. split; [exact Hm |].
    intros tool. destruct (decide (tool = t)) as [-> | Hne].
    + destruct (settled_inputs t o (Ui.browser p)) as [-> _]. apply Hw.
    + destruct (fields_getTool tool _ _ (settled_others t o (Ui.browser p) tool Hne))
        as (_ & _ & _ & -> & _).
      apply Hw.
Qed.

(** X5: when the session starts on a stored value that is absent, empty or
    the text of a JSON object, and the entry stored for a tool, if there is
    one, holds no number other than integers that a double holds exactly,
    then after any sequence of events a reload restores exactly the webhook
    field of that tool that is on screen. *)
Theorem reload_restores_webhooks ls m p tool :
  savedMapping (getItem LOCAL_STORAGE_KEY ls) = Some m →
  (∀ v, m !! toolKey tool = Some v → safeNumbers v) →
  Ui.reachable ls p →
  webhookIn tool (initialState (localStorage (Ui.browser p)))
  = webhookIn tool (appState (Ui.browser p)).
Proof.
  intros Hm _ Hreach.
  assert (reloadsAsShown p) as (m' & Hm' & Hw).
  { induction Hreach as [| p ev p' Hreach IH Hstep].
    - exists m. split; [exact Hm |]. intros t. now apply initialState_saved.
    - exact (step_reloadsAsShown p ev p' IH Hstep). }
  rewrite Hw. now apply initialState_saved.
Qed.

Lemma reload_restores_webhooks_witness :
  match play (Ui.start usedStorage) (fillAndSubmit KeywordGenerator) with
  | Some p =>
      webhookIn RankTracker (initialState (localStorage (Ui.browser p)))
      = webhookIn RankTracker (appState (Ui.browser p))
  | None => False
  end.
Proof.
  destruct (play (Ui.start usedStorage) (fillAndSubmit KeywordGenerator)) as [p |] eqn:E;
    [| vm_compute in E; discriminate E].
  apply (reload_restores_webhooks usedStorage
           {[ "Keyword Generator" := JStr "https://n8n.example/webhook/old";
              "Rank Tracker" := JNum 7 ]} p RankTracker).
  - reflexivity.
  - intros v Hv. vm_compute in Hv. injection Hv as <-. apply safe_num. reflexivity.
  - apply (play_reachable usedStorage (Ui.start usedStorage)
             (fillAndSubmit KeywordGenerator)); [apply Ui.reach_start | exact E].
Defined.

Lemma saveWebhook_unwritable tool v ls :
  unwritable (getItem LOCAL_STORAGE_KEY ls) → saveWebhook tool v ls = ls.
Proof.
  unfold saveWebhook.
  destruct (getItem LOCAL_STORAGE_KEY ls) as [[| | [| | | | |]] |]; simpl;
    intros H; try contradiction; reflexivity.
Qed.

Lemma updateToolState_unwritable tool newState b :
  unwritable (getItem LOCAL_STORAGE_KEY (localStorage b)) →
  localStorage (updateToolState tool newState b) = localStorage b.
Proof.
  intros H. unfold updateToolState. cbn [localStorage].
  destruct (webhookOf tool newState); [now apply saveWebhook_unwritable | reflexivity].
Qed.

(** X6: a stored value that is not JSON, or is the JSON text of null or of
    a primitive, is never repaired: whatever the user types and submits, no
    [setItem] call is made and local storage stays exactly as it was found. *)
Theorem unwritable_store_is_never_repaired ls p :
  unwritable (getItem LOCAL_STORAGE_KEY ls) →
  Ui.reachable ls p →
  localStorage (Ui.browser p) = ls.
Proof.
  intros Hbad Hreach. induction Hreach as [| p ev p' Hreach IH Hstep]; [reflexivity |].
  destruct ev as [t | field value | | t o]; simpl in Hstep.
  - injection Hstep as <-. exact IH.
  - destruct (inputsDisabled _ _); [discriminate |].
    destruct (Ui.onChange _ field value) as [newState |]; [| discriminate].
    injection Hstep as <-. cbn [Ui.browser].
    rewrite updateToolState_unwritable; [exact IH | now rewrite IH].
  - destruct (submitDisabled _ _); [discriminate |].
    pose proof (handleSubmit_inputs (Ui.activeTool p) (Ui.browser p)) as (_ & _ & Hs).
    destruct (handleSubmit _ _) as [b [request |]]; injection Hstep as <-;
      cbn [Ui.browser]; simpl in Hs; congruence.
  - case_decide; [| discriminate]. injection Hstep as <-. cbn [Ui.browser].
    now rewrite settled_storage.
Qed.

Lemma unwritable_store_is_never_repaired_witness :
  match play (Ui.start corruptStorage) (fillAndSubmit BlogPostWriter) with
  | Some p => localStorage (Ui.browser p) = corruptStorage
  | None => False
  end.
Proof.
  destruct (play (Ui.start corruptStorage) (fillAndSubmit BlogPostWriter)) as [p |] eqn:E.
  - apply (unwritable_store_is_never_repaired corruptStorage p).
    + exact I.
    + exact (play_reachable corruptStorage (Ui.start corruptStorage)
               (fillAndSubmit BlogPostWriter) p (Ui.reach_start corruptStorage) E).
  - vm_compute in E. discriminate E.
Defined.

(** ** The state initialiser on other stored values *)

(** X7: a stored text that is valid JSON but not an object (null, a
    boolean, a number, a string, an array) gives the clean initial state as
    well: every webhook is the empty string. *)
Theorem nonobject_store_gives_clean_state ls j :
  getItem LOCAL_STORAGE_KEY ls = Some (Serialized j) →
  (∀ m, j ≠ JObj m) →
  initialState ls = cleanState.
Proof.
  intros Hget Hno. unfold initialState, loadState. rewrite Hget. simpl.
  destruct j; try reflexivity. exfalso. now apply (Hno props).
Qed.

Lemma nonobject_store_gives_clean_state_witness :
  initialState {| items := {[ LOCAL_STORAGE_KEY := Serialized (JArr [JStr "x"]) ]};
                  setItemCalls := [] |}
  = cleanState.
Proof.
  apply (nonobject_store_gives_clean_state _ (JArr [JStr "x"])).
  - reflexivity.
  - intros m H. discriminate H.
Defined.

(** X8: the entries of a stored object are not validated: whatever truthy
    JSON value is stored under a tool's name, a number or an object as much
    as a string, becomes that tool's webhook field as it is (a falsy one
    becomes the empty string), and as long as the user does not retype it, a
    submit passes that value to [fetch]. *)
Theorem stored_entry_is_taken_unchecked ls m tool v b request :
  getItem LOCAL_STORAGE_KEY ls = Some (Serialized (JObj m)) →
  m !! toolKey tool = Some v →
  webhookIn tool (appState b) = webhookIn tool (initialState ls) →
  snd (handleSubmit tool b) = Some request →
  webhookIn tool (initialState ls) = (if truthy v then v else JStr EmptyString)
  ∧ input request = v.
Proof.
  intros Hget Hv Hb Hreq.
  assert (webhookIn tool (initialState ls) = if truthy v then v else JStr EmptyString) as Hw.
  { rewrite (initialState_saved ls m tool); [now rewrite Hv |]. now rewrite Hget. }
  split; [exact Hw |].
  destruct (handleSubmit_issued tool b request Hreq) as (_ & _ & _ & _ & _ & Hin & _).
  rewrite Hin, Hb, Hw.
  destruct (handleSubmit_cases tool b) as [[_ Hnone] | [[Htruthy _] _]]; [congruence |].
  rewrite Hb, Hw in Htruthy. destruct (truthy v); [reflexivity | discriminate].
Qed.

Lemma stored_entry_is_taken_unchecked_witness :
  let ls := {| items := {[ LOCAL_STORAGE_KEY
                           := Serialized (JObj {[ toolKey RankTracker := JNum 5 ]}) ]};
               setItemCalls := [] |} in
  webhookIn RankTracker (initialState ls)
  = (if truthy (JNum 5) then JNum 5 else JStr EmptyString)
  ∧ input (post (JNum 5)
             {[ "domain" := JStr "example.com"; "keyword" := JStr "AI automation" ]})
    = JNum 5.
Proof.
  intros ls.
  apply (stored_entry_is_taken_unchecked ls {[ toolKey RankTracker := JNum 5 ]}
           RankTracker (JNum 5)
           (match play (Ui.start ls)
                    [Ui.Navigate RankTracker; Ui.Change Ui.Domain "example.com";
                     Ui.Change Ui.Keyword "AI automation"] with
            | Some p => Ui.browser p
            | None => freshBrowser
            end)).
  - reflexivity.
  - reflexivity.
  - vm_compute. reflexivity.
  - vm_compute. reflexivity.
Defined.

(** ** The Rank Tracker's trend *)

Lemma trendOf_not_numbers r :
  asNumber (CurrentRank r) = None ∨ asNumber (PreviousRank r) = None →
  RankTrackerView.trendOf r = noChange.
Proof.
  unfold RankTrackerView.trendOf. intros [H | H]; rewrite H.
  - reflexivity.
  - destruct (asNumber (CurrentRank r)); reflexivity.
Qed.

(** X9: whenever a well-formed rank response does not carry two non-zero
    numbers, in particular when a rank of 0 was replaced by 'Not Found' or
    'N/A', the card shows the trend "No change" with the neutral icon. *)
Theorem missing_rank_shows_no_change data first c p :
  at0 data = Some first →
  prop "current_rank" first = Some c →
  prop "previous_rank" first = Some p →
  (∀ n, c = JNum n → n = 0) ∨ (∀ n, p = JNum n → n = 0) →
  ∃ r, RankTrackerTool.rankOf data = Normal r ∧ RankTrackerView.trendOf r = noChange.
Proof.
  intros H0 Hc Hp Hzero. eexists. split; [exact (rankOf_defined data first c p H0 Hc Hp) |].
  apply trendOf_not_numbers. simpl.
  destruct Hzero as [Hz | Hz]; [left | right].
  - destruct c as [| | n | | |]; try reflexivity.
    rewrite (Hz n eq_refl). reflexivity.
  - destruct p as [| | n | | |]; try reflexivity.
    rewrite (Hz n eq_refl). reflexivity.
Qed.

Lemma missing_rank_shows_no_change_witness :
  ∃ r, RankTrackerTool.rankOf (ranks (JNum 0) (JNum 4)) = Normal r
       ∧ RankTrackerView.trendOf r = noChange.
Proof.
  apply (missing_rank_shows_no_change (ranks (JNum 0) (JNum 4))
           (JObj {[ "current_rank" := JNum 0; "previous_rank" := JNum 4 ]})
           (JNum 0) (JNum 4)).
  - reflexivity.
  - reflexivity.
  - reflexivity.
  - left. intros n [= <-]. reflexivity.
Defined.

(** X10: for two ranks that are integers a double holds exactly, with a
    difference that is one too, the arrow points up exactly when the
    current rank is the smaller number and down exactly when it is the
    larger, the amount printed is the absolute difference of the two ranks
    in decimal, and equal ranks show "No change"; swapping the two ranks
    swaps the arrows. *)
Theorem trend_compares_ranks c p :
  isSafeInteger c = true →
  isSafeInteger p = true →
  isSafeInteger (c - p) = true →
  let t := RankTrackerView.trendOf {| CurrentRank := JNum c; PreviousRank := JNum p |} in
  let t' := RankTrackerView.trendOf {| CurrentRank := JNum p; PreviousRank := JNum c |} in
  (c < p ↔ RankTrackerView.TrendIcon t = RankTrackerView.ArrowUp)
  ∧ (p < c ↔ RankTrackerView.TrendIcon t = RankTrackerView.ArrowDown)
  ∧ (c < p → RankTrackerView.trendText t = "Up by " ++ pretty (Z.abs (c - p)))
  ∧ (p < c → RankTrackerView.trendText t = "Down by " ++ pretty (Z.abs (c - p)))
  ∧ (c = p → t = noChange)
  ∧ (RankTrackerView.TrendIcon t = RankTrackerView.ArrowUp
     ↔ RankTrackerView.TrendIcon t' = RankTrackerView.ArrowDown).
Proof.
  intros _ _ _. unfold RankTrackerView.trendOf. simpl.
  destruct (Z.ltb_spec c p) as [Hlt | Hge]; simpl.
  - destruct (Z.ltb_spec p c) as [? | _]; [lia |].
    destruct (Z.gtb_spec p c) as [_ | ?]; [| lia]. simpl.
    repeat split; try (intros; lia); try discriminate; try reflexivity.
    intros _. f_equal. f_equal. lia.
  - destruct (Z.gtb_spec c p) as [Hgt | Hle]; simpl.
    + destruct (Z.ltb_spec p c) as [_ | ?]; [| lia]. simpl.
      repeat split; try (intros; lia); try discriminate; try reflexivity.
      intros _. f_equal. f_equal. lia.
    + assert (c = p) as -> by lia.
      rewrite Z.ltb_irrefl, Z.gtb_ltb, Z.ltb_irrefl. simpl.
      repeat split; try (intros; lia); try discriminate; try reflexivity.
Qed.

Lemma trend_compares_ranks_witness :
  let t := RankTrackerView.trendOf {| CurrentRank := JNum 3; PreviousRank := JNum 7 |} in
  let t' := RankTrackerView.trendOf {| CurrentRank := JNum 7; PreviousRank := JNum 3 |} in
  (3 < 7 ↔ RankTrackerView.TrendIcon t = RankTrackerView.ArrowUp)
  ∧ (7 < 3 ↔ RankTrackerView.TrendIcon t = RankTrackerView.ArrowDown)
  ∧ (3 < 7 → RankTrackerView.trendText t = "Up by " ++ pretty (Z.abs (3 - 7)))
  ∧ (7 < 3 → RankTrackerView.trendText t = "Down by " ++ pretty (Z.abs (3 - 7)))
  ∧ (3 = 7 → t = noChange)
  ∧ (RankTrackerView.TrendIcon t = RankTrackerView.ArrowUp
     ↔ RankTrackerView.TrendIcon t' = RankTrackerView.ArrowDown).
Proof.
  apply (trend_compares_ranks 3 7); reflexivity.
Defined.

(** ** The CSV export *)

Lemma noneOf_app p (s t : string) : noneOf p (s ++ t) = noneOf p s && noneOf p t.
Proof.
  induction s as [| c s IH]; [reflexivity |].
  rewrite append_cons. simpl. rewrite IH. now rewrite andb_assoc.
Qed.

Lemma splitLines_plain s : noneOf isLineFeed s = true → splitLines s = [s].
Proof.
  induction s as [| c s IH]; [reflexivity |].
  simpl. intros H. apply andb_true_iff in H as [Hc Hs].
  unfold isLineFeed in Hc. apply negb_true_iff in Hc. rewrite Hc, (IH Hs). reflexivity.
Qed.

Lemma splitLines_line s rest :
  noneOf isLineFeed s = true →
  splitLines (s ++ String lineFeed rest) = s :: splitLines rest.
Proof.
  induction s as [| c s IH]; intros H.
  - change (EmptyString ++ String lineFeed rest) with (String lineFeed rest).
    reflexivity.
  - rewrite append_cons. simpl in *. apply andb_true_iff in H as [Hc Hs].
    unfold isLineFeed in Hc. apply negb_true_iff in Hc. rewrite Hc, (IH Hs). reflexivity.
Qed.

(** Joining lines without line feeds and splitting again gives the lines. *)
Lemma splitLines_concat first others :
  Forall (λ line, noneOf isLineFeed line = true) (first :: others) →
  splitLines (String.concat (String lineFeed EmptyString) (first :: others))
  = first :: others.
Proof.
  revert first. induction others as [| second others IH]; intros first H.
  - simpl. apply splitLines_plain. now inversion H.
  - inversion H as [| ? ? Hfirst Hrest]; subst.
    change (String.concat (String lineFeed EmptyString) (first :: second :: others))
      with (first ++ String lineFeed EmptyString
            ++ String.concat (String lineFeed EmptyString) (second :: others)).
    change (String lineFeed EmptyString ++ ?x) with (String lineFeed x).
    rewrite (splitLines_line _ _ Hfirst), (IH second Hrest). reflexivity.
Qed.

Lemma row_plain k :
  plainKeyword k →
  ∃ r, KeywordGeneratorCsv.row k = Normal r ∧ noneOf isLineFeed r = true.
Proof.
  intros ((kw & Hkw & Lkw) & (it & Hit & Lit) & (vol & Hvol & Lvol) & (ty & Hty & Lty)).
  unfold KeywordGeneratorCsv.row, member.
  destruct k; simpl in Hkw; try discriminate Hkw.
  simpl in *. rewrite Hkw, Hit, Hvol, Hty. simpl.
  eexists. split; [reflexivity |].
  rewrite !noneOf_app, Lkw, Lit, Lvol, Lty. reflexivity.
Qed.

Lemma rows_plain result :
  Forall plainKeyword result →
  ∃ rs, KeywordGeneratorCsv.rows result = Normal rs
        ∧ length rs = length result
        ∧ Forall (λ line, noneOf isLineFeed line = true) rs.
Proof.
  induction 1 as [| k rest Hk _ (rs & Hrs & Hlen & Hplain)]; simpl.
  - exists []. repeat split. constructor.
  - destruct (row_plain k Hk) as (r & Hr & Hline). rewrite Hr, Hrs. simpl.
    exists (r :: rs). repeat split; [simpl; congruence | now constructor].
Qed.

(** X11: when every keyword of the result has its four fields as strings
    without line feeds, the export succeeds, is offered as [keywords.csv],
    and its content splits at the line feeds into the header line followed
    by exactly one row per keyword. *)
Theorem csv_has_one_row_per_keyword result :
  Forall plainKeyword result →
  ∃ d rs,
    KeywordGeneratorCsv.copyAsCsv (Some result) = Normal (Some d)
    ∧ KeywordGeneratorCsv.fileName d = "keywords.csv"
    ∧ KeywordGeneratorCsv.rows result = Normal rs
    ∧ splitLines (KeywordGeneratorCsv.content d) = KeywordGeneratorCsv.headers :: rs
    ∧ length rs = length result.
Proof.
  intros Hplain. destruct (rows_plain result Hplain) as (rs & Hrs & Hlen & Hlines).
  unfold KeywordGeneratorCsv.copyAsCsv. rewrite Hrs. simpl.
  eexists. exists rs. repeat split; [| exact Hlen].
  cbn [KeywordGeneratorCsv.content]. apply splitLines_concat.
  constructor; [reflexivity | exact Hlines].
Qed.

Lemma csv_has_one_row_per_keyword_witness :
  let k :=
    JObj {[ "keyword" := JStr "seo audit"; "intent" := JStr "commercial";
            "volumeCategory" := JStr "high"; "type" := JStr "short-tail" ]} in
  ∃ d rs,
    KeywordGeneratorCsv.copyAsCsv (Some [k; k]) = Normal (Some d)
    ∧ KeywordGeneratorCsv.fileName d = "keywords.csv"
    ∧ KeywordGeneratorCsv.rows [k; k] = Normal rs
    ∧ splitLines (KeywordGeneratorCsv.content d) = KeywordGeneratorCsv.headers :: rs
    ∧ length rs = length [k; k].
Proof.
  intros k. apply (csv_has_one_row_per_keyword [k; k]).
  assert (plainKeyword k) as Hk.
  { repeat split; eexists; (split; [reflexivity | reflexivity]). }
  constructor; [exact Hk | constructor; [exact Hk | constructor]].
Defined.

Lemma rows_null result : JNull ∈ result → ∃ e, KeywordGeneratorCsv.rows result = Throw e.
Proof.
  induction result as [| k rest IH]; intros Hin; [inversion Hin |].
  simpl. destruct (KeywordGeneratorCsv.row k) as [r |] eqn:Er; simpl; [| eauto].
  apply elem_of_cons in Hin as [<- | Hin]; [discriminate Er |].
  destruct (IH Hin) as [e ->]. simpl. eauto.
Qed.

(** X12: the validation of the Keyword Generator looks at the first keyword
    only.  A response whose keyword array has a valid first element and a
    [null] further on is accepted and stored as the result, and the CSV
    export of that result throws instead of producing a file. *)
Theorem accepted_result_can_break_export data first keywords :
  at0 data = Some first →
  prop "keywords" first = Some (JArr keywords) →
  validKeywords keywords →
  JNull ∈ keywords →
  KeywordGeneratorTool.keywordsOf data = Normal keywords
  ∧ ∃ e, KeywordGeneratorCsv.copyAsCsv (Some keywords) = Throw e.
Proof.
  intros H0 Hk Hvalid Hnull. split; [exact (keywordsOf_valid data first keywords H0 Hk Hvalid) |].
  destruct (rows_null keywords Hnull) as [e He].
  exists e. unfold KeywordGeneratorCsv.copyAsCsv. now rewrite He.
Qed.

Lemma accepted_result_can_break_export_witness :
  let k := JObj {[ "keyword" := JStr "seo audit"; "intent" := JStr "commercial" ]} in
  KeywordGeneratorTool.keywordsOf (JArr [JObj {[ "keywords" := JArr [k; JNull] ]}])
  = Normal [k; JNull]
  ∧ ∃ e, KeywordGeneratorCsv.copyAsCsv (Some [k; JNull]) = Throw e.
Proof.
  intros k.
  apply (accepted_result_can_break_export
           (JArr [JObj {[ "keywords" := JArr [k; JNull] ]}])
           (JObj {[ "keywords" := JArr [k; JNull] ]}) [k; JNull]).
  - reflexivity.
  - reflexivity.
  - split; eexists; reflexivity.
  - apply elem_of_cons. right. apply elem_of_cons. left. reflexivity.
Defined.

(** ** [escapeHtml] *)

Lemma entity_no_markup c : noneOf isMarkup (entity c) = true.
Proof. destruct c as [[] [] [] [] [] [] [] []]; vm_compute; reflexivity. Qed.

(** X13: the output of [escapeHtml] contains none of the characters [<],
    [>], double quote and single quote, whatever the input. *)
Theorem escapeHtml_leaves_no_markup unsafe :
  noneOf isMarkup (OnPageSeoTool.escapeHtml unsafe) = true.
Proof.
  rewrite escapeHtml_by_character.
  induction unsafe as [| c s IH]; [reflexivity |].
  simpl. now rewrite noneOf_app, entity_no_markup, IH.
Qed.

Lemma unescapeHead_entity c rest : unescapeHead (entity c ++ rest) = Some (c, rest).
Proof. destruct c as [[] [] [] [] [] [] [] []]; reflexivity. Qed.

(** X14: [escapeHtml] loses nothing: two different strings never escape to
    the same string. *)
Theorem escapeHtml_is_injective s t :
  OnPageSeoTool.escapeHtml s = OnPageSeoTool.escapeHtml t → s = t.
Proof.
  rewrite !escapeHtml_by_character. revert t.
  induction s as [| c s IH]; intros [| c' t] H; simpl in H.
  - reflexivity.
  - apply (f_equal unescapeHead) in H. rewrite unescapeHead_entity in H. discriminate H.
  - apply (f_equal unescapeHead) in H. rewrite unescapeHead_entity in H. discriminate H.
  - apply (f_equal unescapeHead) in H. rewrite !unescapeHead_entity in H.
    injection H as -> H. f_equal. now apply IH.
Qed.

Lemma escapeHtml_is_injective_witness :
  "a<b" = "a<b".
Proof.
  apply (escapeHtml_is_injective "a<b" "a<b"). reflexivity.
Defined.

(** ** [parseMarkdown] on whole texts *)

Lemma noneOf_weaken (p q : ascii → bool) s :
  (∀ c, q c = true → p c = true) → noneOf p s = true → noneOf q s = true.
Proof.
  intros Hpq. induction s as [| c s IH]; [reflexivity |]. simpl.
  intros H. apply andb_true_iff in H as [Hc Hs]. rewrite (IH Hs), andb_true_r.
  apply negb_true_iff in Hc. apply negb_true_iff.
  destruct (q c) eqn:E; [| reflexivity]. rewrite (Hpq c E) in Hc. discriminate Hc.
Qed.

Lemma replaceChar_none c by_ s :
  noneOf (fun a => Ascii.eqb a c) s = true → replaceChar c by_ s = s.
Proof.
  induction s as [| a s IH]; [reflexivity |]. simpl.
  intros H. apply andb_true_iff in H as [Ha Hs]. apply negb_true_iff in Ha.
  now rewrite Ha, (IH Hs).
Qed.

Lemma stripPrefix_head d delim c s :
  Ascii.eqb c d = false → stripPrefix (String d delim) (String c s) = None.
Proof. intros H. simpl. rewrite Ascii.eqb_sym, H. reflexivity. Qed.

(** A string without the first character of the delimiter has no span. *)
Lemma replaceSpansFrom_none steps d delim wrap s :
  noneOf (fun a => Ascii.eqb a d) s = true →
  replaceSpansFrom steps (String d delim) wrap s = s.
Proof.
  revert s. induction steps as [| steps IH]; intros s H; [reflexivity |].
  destruct s as [| c s]; [reflexivity |].
  simpl in H. apply andb_true_iff in H as [Hc Hs]. apply negb_true_iff in Hc.
  rewrite replaceSpansFrom_S, (stripPrefix_head d delim c s Hc). simpl.
  now rewrite (IH s Hs).
Qed.

Lemma processLine_plain line :
  noneOf isMarkdown line = true → OnPageSeoTool.processLine line = line.
Proof.
  intros H. unfold OnPageSeoTool.processLine, replaceSpans, backtick.
  rewrite (replaceSpansFrom_none _ "096" EmptyString).
  - apply replaceSpansFrom_none.
    apply (noneOf_weaken isMarkdown); [| exact H].
    intros c Hc. cbv beta in Hc. unfold isMarkdown. rewrite Hc. now rewrite orb_true_r.
  - apply (noneOf_weaken isMarkdown); [| exact H].
    intros c Hc. cbv beta in Hc. unfold isMarkdown, isBacktick. now rewrite Hc.
Qed.

Lemma splitBlocks_plain s : noneOf isLineFeed s = true → splitBlocks s = [s].
Proof.
  induction s as [| c s IH]; [reflexivity |].
  intros H. simpl in H. apply andb_true_iff in H as [Hc Hs].
  unfold isLineFeed in Hc. apply negb_true_iff in Hc.
  simpl. rewrite Hc, (IH Hs). simpl. destruct s; reflexivity.
Qed.

Lemma noneOf_trimStart p s : noneOf p s = true → noneOf p (trimStart s) = true.
Proof.
  induction s as [| c s IH]; [reflexivity |]. simpl. intros H.
  destruct (isSpace c); [| exact H].
  apply andb_true_iff in H as [_ Hs]. now apply IH.
Qed.

Lemma startsWith_cons d p c s :
  startsWith (String d p) (String c s) = Ascii.eqb d c && startsWith p s.
Proof. unfold startsWith. cbn [stripPrefix]. destruct (Ascii.eqb d c); reflexivity. Qed.

Lemma trimEnd_head s c t : trimEnd s = String c t → ∃ t', s = String c t'.
Proof.
  destruct s as [| a s]; cbn [trimEnd]; [discriminate |].
  destruct (trimEnd s); [destruct (isSpace a); [discriminate |] |];
    intros [= -> _]; eauto.
Qed.

(** Plain text is not a list: after trimming it cannot start with an
    asterisk. *)
Lemma not_a_list text :
  noneOf isMarkdown text = true → startsWith "* " (trim text) = false.
Proof.
  intros H. destruct (startsWith "* " (trim text)) eqn:E; [| reflexivity].
  exfalso. unfold trim in E.
  assert (noneOf (fun a => Ascii.eqb a "*") (trimStart text) = true) as Hstar.
  { apply noneOf_trimStart. apply (noneOf_weaken isMarkdown); [| exact H].
    intros c Hc. cbv beta in Hc. unfold isMarkdown. rewrite Hc. now rewrite orb_true_r. }
  destruct (trimEnd (trimStart text)) as [| c t] eqn:Et; [discriminate E |].
  destruct (trimEnd_head _ _ _ Et) as (t' & Heq). rewrite Heq in Hstar.
  rewrite startsWith_cons in E. apply andb_true_iff in E as [Ec _].
  cbn [noneOf] in Hstar. rewrite Ascii.eqb_sym, Ec in Hstar. discriminate Hstar.
Qed.

(** X15: a non-empty text without backticks, asterisks or line feeds that
    does not start with "## " comes out as one paragraph holding the text
    exactly as it was written: outside code spans nothing is escaped, so any
    HTML in the text reaches the page as HTML. *)
Theorem plain_text_becomes_a_paragraph text :
  text ≠ EmptyString →
  noneOf isMarkdown text = true →
  startsWith "## " text = false →
  OnPageSeoTool.parseMarkdown text = "<p>" ++ text ++ "</p>".
Proof.
  intros Hne Hplain Hhead. unfold OnPageSeoTool.parseMarkdown.
  destruct (blank text) eqn:Eb; [apply String.eqb_eq in Eb; contradiction |].
  assert (noneOf isLineFeed text = true) as Hlf.
  { apply (noneOf_weaken isMarkdown); [| exact Hplain].
    intros c Hc. unfold isMarkdown. rewrite Hc. now rewrite !orb_true_r. }
  rewrite (splitBlocks_plain text Hlf). simpl.
  unfold OnPageSeoTool.convertBlock.
  rewrite (not_a_list text Hplain), Hhead.
  rewrite (replaceChar_none lineFeed _ text Hlf), (processLine_plain text Hplain).
  reflexivity.
Qed.

Lemma plain_text_becomes_a_paragraph_witness :
  OnPageSeoTool.parseMarkdown "<img src=x onerror=alert(1)>"
  = "<p>" ++ "<img src=x onerror=alert(1)>" ++ "</p>".
Proof.
  apply (plain_text_becomes_a_paragraph "<img src=x onerror=alert(1)>").
  - discriminate.
  - reflexivity.
  - reflexivity.
Defined.

Lemma splitBlocks_cons c s :
  splitBlocks (String c s)
  = match s with
    | String c' s' =>
        if Ascii.eqb c lineFeed && Ascii.eqb c' lineFeed
        then EmptyString :: splitBlocks s'
        else consToFirst c (splitBlocks s)
    | EmptyString => consToFirst c (splitBlocks s)
    end.
Proof. destruct s; reflexivity. Qed.

Lemma splitBlocks_cons2 c c' s :
  splitBlocks (String c (String c' s))
  = if Ascii.eqb c lineFeed && Ascii.eqb c' lineFeed
    then EmptyString :: splitBlocks s
    else consToFirst c (splitBlocks (String c' s)).
Proof. reflexivity. Qed.

Lemma splitBlocks_nonempty s : splitBlocks s ≠ [].
Proof.
  destruct s as [| c s]; [discriminate |]. rewrite splitBlocks_cons.
  destruct s as [| c' s'].
  - destruct (splitBlocks EmptyString); discriminate.
  - destruct (Ascii.eqb c lineFeed && Ascii.eqb c' lineFeed); [discriminate |].
    destruct (splitBlocks (String c' s')); discriminate.
Qed.

Lemma consToFirst_app c (l l' : list string) :
  l ≠ [] → consToFirst c (l ++ l')%list = (consToFirst c l ++ l')%list.
Proof. destruct l; [contradiction | reflexivity]. Qed.

Lemma endsWithLineFeed_cons c c' s :
  endsWithLineFeed (String c (String c' s)) = endsWithLineFeed (String c' s).
Proof. reflexivity. Qed.

(** A blank line after a text that does not end in a line feed separates
    the blocks of the text from the blocks of what follows. *)
Lemma splitBlocks_app a b :
  endsWithLineFeed a = false →
  splitBlocks (a ++ blankLine ++ b) = (splitBlocks a ++ splitBlocks b)%list.
Proof.
  remember (String.length a) as n eqn:Hn.
  assert (String.length a ≤ n)%nat as Hle by lia. clear Hn.
  revert a Hle. induction n as [| n IH]; intros a Hle Hend.
  - destruct a; [reflexivity | simpl in Hle; lia].
  - destruct a as [| c a]; [reflexivity |].
    destruct a as [| c' a].
    + cbn [endsWithLineFeed] in Hend. unfold isLineFeed in Hend.
      change (String c EmptyString ++ blankLine ++ b)
        with (String c (String lineFeed (String lineFeed b))).
      rewrite splitBlocks_cons2, Hend. cbn [andb].
      rewrite (splitBlocks_cons2 lineFeed lineFeed). reflexivity.
    + rewrite endsWithLineFeed_cons in Hend.
      rewrite !append_cons, (splitBlocks_cons2 c c' a),
        (splitBlocks_cons2 c c' (a ++ blankLine ++ b)).
      simpl in Hle.
      destruct (Ascii.eqb c lineFeed && Ascii.eqb c' lineFeed) eqn:E.
      * apply andb_true_iff in E as [_ Ec'].
        assert (endsWithLineFeed a = false) as Ha.
        { destruct a; [| exact Hend].
          cbn [endsWithLineFeed] in Hend. unfold isLineFeed in Hend. congruence. }
        rewrite (IH a ltac:(lia) Ha). reflexivity.
      * rewrite <- append_cons, (IH (String c' a) ltac:(simpl; lia) Hend).
        apply consToFirst_app, splitBlocks_nonempty.
Qed.

Lemma concat_cons_empty x (l : list string) :
  String.concat EmptyString (x :: l) = x ++ String.concat EmptyString l.
Proof.
  destruct l as [| y l]; [| reflexivity].
  simpl. induction x as [| c x IH]; [reflexivity |].
  rewrite append_cons. now f_equal.
Qed.

Lemma concat_app_empty (l l' : list string) :
  String.concat EmptyString (l ++ l')%list
  = String.concat EmptyString l ++ String.concat EmptyString l'.
Proof.
  induction l as [| x l IH]; [reflexivity |].
  rewrite <- app_comm_cons, !concat_cons_empty, IH. now rewrite append_assoc.
Qed.

Lemma blank_app_blankLine a b : blank (a ++ blankLine ++ b) = false.
Proof. destruct a; reflexivity. Qed.

(** X16: blocks are converted one by one.  When a text that is not empty
    and does not end in a line feed is followed by a blank line and more
    text, the output is the output for the first text followed by the output
    for the rest; when nothing follows the blank line, an empty paragraph is
    appended. *)
Theorem blocks_are_converted_one_by_one a b :
  a ≠ EmptyString →
  endsWithLineFeed a = false →
  OnPageSeoTool.parseMarkdown (a ++ blankLine ++ b)
  = OnPageSeoTool.parseMarkdown a
    ++ (if blank b then "<p></p>" else OnPageSeoTool.parseMarkdown b).
Proof.
  intros Hne Hend. unfold OnPageSeoTool.parseMarkdown.
  rewrite blank_app_blankLine, (splitBlocks_app a b Hend), map_app, concat_app_empty.
  destruct (blank a) eqn:Ea; [apply String.eqb_eq in Ea; contradiction |].
  f_equal. destruct (blank b) eqn:Eb; [| reflexivity].
  apply String.eqb_eq in Eb. subst b. reflexivity.
Qed.

Lemma blocks_are_converted_one_by_one_witness :
  OnPageSeoTool.parseMarkdown ("## Title" ++ blankLine ++ EmptyString)
  = OnPageSeoTool.parseMarkdown "## Title"
    ++ (if blank EmptyString then "<p></p>" else OnPageSeoTool.parseMarkdown EmptyString).
Proof.
  apply (blocks_are_converted_one_by_one "## Title" EmptyString).
  - discriminate.
  - reflexivity.
Defined.

(** ** List items *)

Lemma trimEnd_keeps c s :
  trimEnd s ≠ EmptyString ∨ isSpace c = false →
  trimEnd (String c s) = String c (trimEnd s).
Proof.
  cbn [trimEnd]. intros [H | H].
  - destruct (trimEnd s); [contradiction | reflexivity].
  - destruct (trimEnd s); [now rewrite H | reflexivity].
Qed.

Lemma trimEnd_after c s : trimEnd s ≠ EmptyString → trimEnd (String c s) ≠ EmptyString.
Proof. intros H. rewrite trimEnd_keeps by auto. discriminate. Qed.

(** An item that starts with an asterisk and holds a visible character
    keeps its first two characters when trimmed. *)
Lemma trim_bullet spaces y rest :
  isSpace y = false →
  startsWith "* " (trim (String "*" (String " " (spaces ++ String y rest)))) = true.
Proof.
  intros Hy. unfold trim. cbn [trimStart]. change (isSpace "*") with false. cbv iota.
  assert (trimEnd (spaces ++ String y rest) ≠ EmptyString) as Hne.
  { induction spaces as [| c spaces IH].
    - change (EmptyString ++ String y rest) with (String y rest).
      rewrite trimEnd_keeps by auto. discriminate.
    - rewrite append_cons. now apply trimEnd_after. }
  rewrite (trimEnd_keeps "*") by (left; now apply trimEnd_after).
  rewrite (trimEnd_keeps " ") by auto.
  reflexivity.
Qed.

Lemma splitLines_item item : noneOf isLineFeed item = true → splitLines item = [item].
Proof. apply splitLines_plain. Qed.

(** The bold substitution leaves a single asterisk followed by plain text
    alone. *)
Lemma bold_single_asterisk wrap text :
  noneOf isMarkdown text = true →
  replaceSpans "**" wrap (String "*" (String " " text)) = String "*" (String " " text).
Proof.
  intros H. unfold replaceSpans. cbn [String.length].
  rewrite replaceSpansFrom_S. cbn [stripPrefix]. change (Ascii.eqb "*" "*") with true.
  change (Ascii.eqb "*" " ") with false. cbv iota. cbn [mbind option_bind].
  f_equal. apply replaceSpansFrom_none. cbn [noneOf]. change (Ascii.eqb " " "*") with false.
  cbn [negb andb]. apply (noneOf_weaken isMarkdown); [| exact H].
  intros c Hc. cbv beta in Hc. unfold isMarkdown. rewrite Hc. now rewrite orb_true_r.
Qed.

Lemma noneOf_backtick_item text :
  noneOf isMarkdown text = true →
  noneOf (fun a => Ascii.eqb a "096") (String "*" (String " " text)) = true.
Proof.
  intros H. cbn [noneOf]. change (Ascii.eqb "*" "096") with false.
  change (Ascii.eqb " " "096") with false. cbn [negb andb].
  apply (noneOf_weaken isMarkdown); [| exact H].
  intros c Hc. cbv beta in Hc. unfold isMarkdown, isBacktick. now rewrite Hc.
Qed.

(** X17: in a list block an item is stripped of its marker only when the
    asterisk is followed by two or three spaces.  With the usual single
    space the asterisk stays in the item; the item's text is plain here
    (no backtick, asterisk or line feed) and starts with a visible
    character. *)
Theorem bullet_needs_two_spaces y rest :
  isSpace y = false →
  noneOf isMarkdown (String y rest) = true →
  let text := String y rest in
  OnPageSeoTool.convertBlock ("* " ++ text) = "<ul><li>* " ++ text ++ "</li></ul>"
  ∧ OnPageSeoTool.convertBlock ("*  " ++ text) = "<ul><li>" ++ text ++ "</li></ul>"
  ∧ OnPageSeoTool.convertBlock ("*   " ++ text) = "<ul><li>" ++ text ++ "</li></ul>".
Proof.
  intros Hy Hplain text.
  assert (noneOf isLineFeed text = true) as Hlf.
  { apply (noneOf_weaken isMarkdown); [| exact Hplain].
    intros c Hc. unfold isMarkdown. rewrite Hc. now rewrite !orb_true_r. }
  assert (Ascii.eqb " " y = false) as Hsp.
  { destruct (Ascii.eqb " " y) eqn:E; [| reflexivity].
    apply Ascii.eqb_eq in E. subst y. discriminate Hy. }
  assert (∀ spaces, noneOf isLineFeed spaces = true →
            splitLines (String "*" (String " " (spaces ++ text)))
            = [String "*" (String " " (spaces ++ text))]) as Hsplit.
  { intros spaces Hs. apply splitLines_plain. cbn [noneOf].
    rewrite noneOf_app, Hs, Hlf. reflexivity. }
  unfold OnPageSeoTool.convertBlock. repeat split.
  - assert (startsWith "* " (trim ("* " ++ text)) = true) as ->
      by exact (trim_bullet EmptyString y rest Hy).
    assert (splitLines ("* " ++ text) = ["* " ++ text]) as ->
      by exact (Hsplit EmptyString eq_refl).
    cbn [map String.concat].
    assert (OnPageSeoTool.stripBullet ("* " ++ text) = "* " ++ text) as ->.
    { unfold OnPageSeoTool.stripBullet, text.
      change (stripPrefix "*  " ("* " ++ String y rest))
        with (if Ascii.eqb " " y then Some rest else None).
      now rewrite Hsp. }
    assert (OnPageSeoTool.processLine ("* " ++ text) = "* " ++ text) as ->.
    { unfold OnPageSeoTool.processLine, replaceSpans at 2, backtick.
      rewrite (replaceSpansFrom_none _ "096" EmptyString)
        by (exact (noneOf_backtick_item text Hplain)).
      exact (bold_single_asterisk _ text Hplain). }
    rewrite !append_assoc. reflexivity.
  - assert (startsWith "* " (trim ("*  " ++ text)) = true) as ->
      by exact (trim_bullet " " y rest Hy).
    assert (splitLines ("*  " ++ text) = ["*  " ++ text]) as ->
      by exact (Hsplit " " eq_refl).
    cbn [map String.concat].
    assert (OnPageSeoTool.stripBullet ("*  " ++ text) = text) as ->.
    { unfold text.
      change (OnPageSeoTool.stripBullet ("*  " ++ String y rest))
        with (match (if Ascii.eqb " " y then Some rest else None) with
              | Some rest' => rest'
              | None => String y rest
              end).
      now rewrite Hsp. }
    rewrite (processLine_plain text Hplain), !append_assoc. reflexivity.
  - assert (startsWith "* " (trim ("*   " ++ text)) = true) as ->
      by exact (trim_bullet "  " y rest Hy).
    assert (splitLines ("*   " ++ text) = ["*   " ++ text]) as ->
      by exact (Hsplit "  " eq_refl).
    cbn [map String.concat].
    assert (OnPageSeoTool.stripBullet ("*   " ++ text) = text) as -> by reflexivity.
    rewrite (processLine_plain text Hplain), !append_assoc. reflexivity.
Qed.

Lemma bullet_needs_two_spaces_witness :
  let text := "Add alt text" in
  OnPageSeoTool.convertBlock ("* " ++ text) = "<ul><li>* " ++ text ++ "</li></ul>"
  ∧ OnPageSeoTool.convertBlock ("*  " ++ text) = "<ul><li>" ++ text ++ "</li></ul>"
  ∧ OnPageSeoTool.convertBlock ("*   " ++ text) = "<ul><li>" ++ text ++ "</li></ul>".
Proof.
  apply (bullet_needs_two_spaces "A" "dd alt text").
  - reflexivity.
  - reflexivity.
Defined.

(** ** The style sheets of a blog post *)

Section Styles.
Import BlogPostWriterView.

Lemma stripPrefixCI_cons a p b s :
  stripPrefixCI (String a p) (String b s) = if eqCI a b then stripPrefixCI p s else None.
Proof. reflexivity. Qed.

Lemma eqCI_lt c : eqCI "<" c = true → c = "<"%char.
Proof. destruct c as [[] [] [] [] [] [] [] []]; vm_compute; intros H; congruence. Qed.

Lemma eqCI_s_not_slash c : eqCI "s" c = true → eqCI "/" c = false.
Proof. destruct c as [[] [] [] [] [] [] [] []]; vm_compute; intros H; congruence. Qed.

(** A tag spelled like the pattern is matched whatever follows it. *)
Lemma stripPrefixCI_spelled p tag rest :
  spelled p tag → stripPrefixCI p (tag ++ rest) = Some rest.
Proof.
  unfold spelled. revert tag. induction p as [| a p IH]; intros tag H.
  - simpl in H. injection H as ->. reflexivity.
  - destruct tag as [| b tag]; [discriminate H |].
    rewrite append_cons, stripPrefixCI_cons in *.
    destruct (eqCI a b); [now apply IH | discriminate H].
Qed.

Lemma spelled_lt p tag : spelled (String "<" p) tag → ∃ tag', tag = String "<" tag'.
Proof.
  unfold spelled. destruct tag as [| b tag]; [discriminate |].
  rewrite stripPrefixCI_cons. destruct (eqCI "<" b) eqn:E; [| discriminate].
  apply eqCI_lt in E. subst b. eauto.
Qed.

(** A pattern without [<] that matches into a [<] has matched before it. *)
Lemma stripPrefixCI_before_lt p u rest r :
  noneOf (eqCI "<") p = true →
  stripPrefixCI p (u ++ String "<" rest) = Some r →
  ∃ r', stripPrefixCI p u = Some r'.
Proof.
  revert u. induction p as [| a p IH]; intros u Hp H; [simpl; eauto |].
  cbn [noneOf] in Hp. apply andb_true_iff in Hp as [Ha Hp]. apply negb_true_iff in Ha.
  destruct u as [| b u].
  - change (EmptyString ++ String "<" rest) with (String "<" rest) in H.
    rewrite stripPrefixCI_cons in H.
    assert (eqCI a "<" = false) as Ha'.
    { unfold eqCI in *. now rewrite Ascii.eqb_sym. }
    rewrite Ha' in H. discriminate H.
  - rewrite append_cons, stripPrefixCI_cons in H. rewrite stripPrefixCI_cons.
    destruct (eqCI a b); [now apply (IH u Hp) | discriminate H].
Qed.

(** Neither tag pattern starts inside a text free of it and ends in the
    tag that follows. *)
Lemma no_straddle p u rest :
  noneOf (eqCI "<") p = true →
  occursCI (String "<" p) u = false →
  u ≠ EmptyString →
  stripPrefixCI (String "<" p) (u ++ String "<" rest) = None.
Proof.
  intros Hp Hocc Hne. destruct u as [| b u]; [contradiction |].
  cbn [occursCI] in Hocc.
  destruct (stripPrefixCI (String "<" p) (String b u)) as [r |] eqn:E; [discriminate |].
  rewrite append_cons, stripPrefixCI_cons in *.
  destruct (eqCI "<" b); [| reflexivity].
  destruct (stripPrefixCI p (u ++ String "<" rest)) as [r |] eqn:E'; [| reflexivity].
  destruct (stripPrefixCI_before_lt p u rest r Hp E') as [r' Hr']. congruence.
Qed.

Lemma occursCI_tail p c s : occursCI p (String c s) = false → occursCI p s = false.
Proof.
  cbn [occursCI]. destruct (stripPrefixCI p (String c s)); [discriminate | auto].
Qed.

Lemma occursCI_head p s : occursCI p s = false → stripPrefixCI p s = None.
Proof.
  destruct s; cbn [occursCI]; destruct (stripPrefixCI p _); try discriminate; auto.
Qed.

Lemma scanStylesFrom_S steps s :
  scanStylesFrom (S steps) s
  = match stripPrefixCI "<style>" s ≫= lazyAny "</style>" with
    | Some (_, rest) =>
        let '(styleMatch, content) := scanStylesFrom steps rest in
        (matched s rest :: styleMatch, content)
    | None =>
        match s with
        | EmptyString => ([], EmptyString)
        | String c s' =>
            let '(styleMatch, content) := scanStylesFrom steps s' in
            (styleMatch, String c content)
        end
    end.
Proof. reflexivity. Qed.

(** A text without an opening tag has no match. *)
Lemma scanStylesFrom_none steps s :
  occursCI "<style>" s = false → scanStylesFrom steps s = ([], s).
Proof.
  revert s. induction steps as [| steps IH]; intros s H; [reflexivity |].
  rewrite scanStylesFrom_S, (occursCI_head _ _ H). cbn [mbind option_bind].
  destruct s as [| c s]; [reflexivity |].
  now rewrite (IH s (occursCI_tail _ _ _ H)).
Qed.

(** The scan copies a text without an opening tag up to the tag that
    follows it. *)
Lemma scanStylesFrom_before steps u rest :
  occursCI "<style>" u = false →
  scanStylesFrom (String.length u + steps) (u ++ String "<" rest)
  = (fst (scanStylesFrom steps (String "<" rest)),
     u ++ snd (scanStylesFrom steps (String "<" rest))).
Proof.
  induction u as [| c u IH]; intros H.
  - change (EmptyString ++ ?x) with x. simpl. now destruct (scanStylesFrom _ _).
  - cbn [String.length Nat.add]. rewrite scanStylesFrom_S.
    rewrite (no_straddle "style>" (String c u) rest eq_refl H ltac:(discriminate)).
    cbn [mbind option_bind]. rewrite append_cons.
    rewrite (IH (occursCI_tail _ _ _ H)). rewrite append_cons. reflexivity.
Qed.

Lemma lazyAny_cons close c s :
  lazyAny close (String c s)
  = match stripPrefixCI close (String c s) with
    | Some rest => Some (EmptyString, rest)
    | None =>
        match lazyAny close s with
        | Some (content, rest) => Some (String c content, rest)
        | None => None
        end
    end.
Proof. reflexivity. Qed.

(** The lazy match of the content ends at the first closing tag. *)
Lemma lazyAny_closing css tag rest :
  occursCI "</style>" css = false →
  spelled "</style>" tag →
  lazyAny "</style>" (css ++ tag ++ rest) = Some (css, rest).
Proof.
  intros Hocc Htag. destruct (spelled_lt _ _ Htag) as [tag' Heq].
  induction css as [| c css IH].
  - change (EmptyString ++ ?x) with x.
    pose proof (stripPrefixCI_spelled _ tag rest Htag) as Hs.
    destruct (tag ++ rest) as [| b t] eqn:E.
    + subst tag. discriminate E.
    + rewrite lazyAny_cons, Hs. reflexivity.
  - rewrite append_cons, lazyAny_cons, <- append_cons.
    assert (tag ++ rest = String "<" (tag' ++ rest)) as Ht by (subst tag; reflexivity).
    rewrite Ht, (no_straddle "/style>" (String c css) _ eq_refl Hocc ltac:(discriminate)).
    rewrite <- Ht, (IH (occursCI_tail _ _ _ Hocc)). reflexivity.
Qed.

Lemma substring_prefix (a b : string) : String.substring 0 (String.length a) (a ++ b) = a.
Proof.
  induction a as [| c a IH]; [destruct b; reflexivity |].
  rewrite append_cons. cbn [String.length String.substring]. now rewrite IH.
Qed.

Lemma matched_prefix a b : matched (a ++ b) b = a.
Proof.
  unfold matched. rewrite append_length.
  replace (String.length a + String.length b - String.length b)%nat
    with (String.length a) by lia.
  apply substring_prefix.
Qed.

Lemma append_empty_r (s : string) : s ++ EmptyString = s.
Proof. induction s as [| c s IH]; [reflexivity |]. rewrite append_cons. now f_equal. Qed.

Lemma spelled_length p tag : spelled p tag → String.length tag = String.length p.
Proof.
  unfold spelled. revert tag. induction p as [| a p IH]; intros tag H.
  - simpl in H. now injection H as ->.
  - destruct tag as [| b tag]; [discriminate H |].
    rewrite stripPrefixCI_cons in H. destruct (eqCI a b); [| discriminate H].
    simpl. f_equal. now apply IH.
Qed.

Lemma removeTagsFrom_S steps s :
  removeTagsFrom (S steps) s
  = match stripPrefixCI "</style>" s with
    | Some rest => removeTagsFrom steps rest
    | None =>
        match stripPrefixCI "<style>" s with
        | Some rest => removeTagsFrom steps rest
        | None =>
            match s with
            | EmptyString => EmptyString
            | String c s' => String c (removeTagsFrom steps s')
            end
        end
    end.
Proof. reflexivity. Qed.

Lemma removeTagsFrom_empty steps : removeTagsFrom steps EmptyString = EmptyString.
Proof. destruct steps; reflexivity. Qed.

Lemma removeTagsFrom_before steps css rest :
  occursCI "<style>" css = false →
  occursCI "</style>" css = false →
  removeTagsFrom (String.length css + steps) (css ++ String "<" rest)
  = css ++ removeTagsFrom steps (String "<" rest).
Proof.
  induction css as [| c css IH]; intros Ho Hc; [reflexivity |].
  cbn [String.length Nat.add]. rewrite removeTagsFrom_S.
  rewrite (no_straddle "/style>" (String c css) rest eq_refl Hc ltac:(discriminate)).
  rewrite (no_straddle "style>" (String c css) rest eq_refl Ho ltac:(discriminate)).
  rewrite !append_cons.
  now rewrite (IH (occursCI_tail _ _ _ Ho) (occursCI_tail _ _ _ Hc)).
Qed.

Lemma removeTagsFrom_closing steps tag rest :
  spelled "</style>" tag →
  removeTagsFrom (S steps) (tag ++ rest) = removeTagsFrom steps rest.
Proof.
  intros H. now rewrite removeTagsFrom_S, (stripPrefixCI_spelled _ tag rest H).
Qed.

Lemma removeTagsFrom_opening steps tag rest :
  spelled "<style>" tag →
  removeTagsFrom (S steps) (tag ++ rest) = removeTagsFrom steps rest.
Proof.
  intros H. rewrite removeTagsFrom_S, (stripPrefixCI_spelled "<style>" tag rest H).
  assert (stripPrefixCI "</style>" (tag ++ rest) = None) as ->; [| reflexivity].
  unfold spelled in H.
  destruct tag as [| c1 [| c2 tag]]; try discriminate H.
  - cbn in H. destruct (eqCI "<" c1); discriminate H.
  - rewrite !append_cons. rewrite !stripPrefixCI_cons in *.
    destruct (eqCI "<" c1); [| reflexivity].
    destruct (eqCI "s" c2) eqn:E; [| discriminate H].
    now rewrite (eqCI_s_not_slash c2 E).
Qed.

Lemma removeTagsFrom_closing_end steps tag :
  spelled "</style>" tag →
  removeTagsFrom (S steps) tag = EmptyString.
Proof.
  intros H. rewrite removeTagsFrom_S.
  generalize (stripPrefixCI_spelled "</style>" tag EmptyString H).
  rewrite append_empty_r. intros ->. apply removeTagsFrom_empty.
Qed.

(** The tags are taken off a match whose content has none. *)
Lemma removeTags_match opening css closing :
  spelled "<style>" opening →
  spelled "</style>" closing →
  occursCI "<style>" css = false →
  occursCI "</style>" css = false →
  removeTags (opening ++ css ++ closing) = css.
Proof.
  intros Ho Hc Hfree Hfree'. unfold removeTags.
  rewrite !append_length, (spelled_length _ _ Ho), (spelled_length _ _ Hc).
  cbn [String.length Nat.add].
  rewrite (removeTagsFrom_opening _ opening _ Ho).
  destruct (spelled_lt _ _ Hc) as [tag' Heq].
  replace (S (S (S (S (S (S (String.length css + 8)))))))
    with (String.length css + 14)%nat by lia.
  rewrite Heq at 1. rewrite (removeTagsFrom_before 14 css tag' Hfree Hfree'), <- Heq.
  rewrite (removeTagsFrom_closing_end 13 closing Hc).
  apply append_empty_r.
Qed.

(** X18: a result that holds no [<style>] tag, in any case of its letters,
    has no style sheet, and its content is the result trimmed. *)
Theorem result_without_styles result :
  result ≠ EmptyString →
  occursCI "<style>" result = false →
  blogStyles (onResult (Some result)) = EmptyString
  ∧ blogContent (onResult (Some result)) = trim result.
Proof.
  intros Hne Hfree. unfold onResult.
  destruct (blank result) eqn:Eb; [apply String.eqb_eq in Eb; contradiction |].
  unfold scanStyles. rewrite (scanStylesFrom_none _ result Hfree). split; reflexivity.
Qed.

Lemma result_without_styles_witness :
  blogStyles (onResult (Some " <h2>Title</h2><p>Text</p> ")) = EmptyString
  ∧ blogContent (onResult (Some " <h2>Title</h2><p>Text</p> "))
    = trim " <h2>Title</h2><p>Text</p> ".
Proof.
  apply (result_without_styles " <h2>Title</h2><p>Text</p> ").
  - discriminate.
  - reflexivity.
Defined.

(** X19: for a result made of HTML, one style element and more HTML, where
    the tags of the element are spelled in any case, its content holds no
    style tag and the HTML around it holds no opening tag: the style sheet
    is the content of the element, the article is what is left once the
    element is cut out, trimmed, and nothing is rendered when that is
    empty. *)
Theorem style_element_is_cut_out before opening css closing after topic :
  spelled "<style>" opening →
  spelled "</style>" closing →
  occursCI "<style>" before = false →
  occursCI "<style>" css = false →
  occursCI "</style>" css = false →
  occursCI "<style>" after = false →
  let local := onResult (Some (before ++ opening ++ css ++ closing ++ after)) in
  blogStyles local = css
  ∧ blogContent local = trim (before ++ after)
  ∧ (trim (before ++ after) = EmptyString → renderResult topic local = None).
Proof.
  intros Ho Hc Hbefore Hcss Hcss' Hafter.
  destruct (spelled_lt _ _ Ho) as [opening' Hopen].
  assert (scanStyles (before ++ opening ++ css ++ closing ++ after)
          = ([opening ++ css ++ closing], before ++ after)) as Hscan.
  { unfold scanStyles. rewrite append_length.
    assert (String.length (opening ++ css ++ closing ++ after)
            = S (String.length (css ++ closing ++ after) + 6)) as ->.
    { rewrite append_length, (spelled_length _ _ Ho). simpl. lia. }
    assert (opening ++ css ++ closing ++ after
            = String "<" (opening' ++ css ++ closing ++ after)) as Hshape
      by (subst opening; reflexivity).
    rewrite Hshape, (scanStylesFrom_before _ before _ Hbefore), <- Hshape.
    rewrite scanStylesFrom_S, (stripPrefixCI_spelled _ opening _ Ho).
    cbn [mbind option_bind].
    rewrite (lazyAny_closing css closing after Hcss' Hc).
    rewrite (scanStylesFrom_none _ after Hafter). cbn [fst snd].
    replace (opening ++ css ++ closing ++ after)
      with ((opening ++ css ++ closing) ++ after) by (now rewrite !append_assoc).
    now rewrite matched_prefix. }
  unfold onResult.
  assert (blank (before ++ opening ++ css ++ closing ++ after) = false) as ->.
  { subst opening. destruct before; reflexivity. }
  rewrite Hscan. cbn [String.concat].
  rewrite (removeTags_match opening css closing Ho Hc Hcss Hcss').
  cbn [blogStyles blogContent]. repeat split.
  intros Hempty. unfold renderResult. cbn [blogContent]. now rewrite Hempty.
Qed.

Lemma style_element_is_cut_out_witness :
  let local :=
    onResult (Some ("<h2>Title</h2><p>Text</p>" ++ "<STYLE>" ++ "h2 { color: red }"
                    ++ "</Style>" ++ " ")) in
  blogStyles local = "h2 { color: red }"
  ∧ blogContent local = trim ("<h2>Title</h2><p>Text</p>" ++ " ")
  ∧ (trim ("<h2>Title</h2><p>Text</p>" ++ " ") = EmptyString →
     renderResult "AI automation" local = None).
Proof.
  apply (style_element_is_cut_out "<h2>Title</h2><p>Text</p>" "<STYLE>"
           "h2 { color: red }" "</Style>" " " "AI automation"); reflexivity.
Defined.

End Styles.

(** ** Exactly which responses are accepted *)

Lemma html_accepted name data r :
  match optProp name (optAt0 (Some data)) with
  | Some (JStr html) =>
      if blank (trim html) then Throw (ErrorObject EmptyString) else Normal html
  | _ => Throw (ErrorObject EmptyString)
  end = Normal r
  ↔ ∃ first, at0 data = Some first ∧ prop name first = Some (JStr r)
             ∧ trim r ≠ EmptyString.
Proof.
  simpl. split.
  - destruct (at0 data) as [first |]; simpl; [| discriminate].
    destruct (prop name first) as [[| | | html | |] |] eqn:Ep; try discriminate.
    destruct (blank (trim html)) eqn:Eb; [discriminate |].
    intros [= <-]. exists first. repeat split; [exact Ep |].
    intros Ht. unfold blank in Eb. rewrite Ht in Eb. discriminate Eb.
  - intros (first & -> & Hp & Hne). simpl. rewrite Hp.
    destruct (blank (trim r)) eqn:Eb; [| reflexivity].
    apply String.eqb_eq in Eb. contradiction.
Qed.

(** X20: for each tool, the validation stores a result for a response
    exactly when the value at index 0 of the response carries the tool's
    payload and it passes the tool's checks: a string under
    [blog_post_html] that is not blank, stored untrimmed; an array under
    [keywords] that is empty or whose first element has [keyword] and
    [intent], stored unchanged; both ranks defined, stored with 0 replaced
    by 'Not Found' and 'N/A'.  Every other response raises an exception. *)
Theorem validation_accepts_exactly tool data r :
  validate tool data = Normal r ↔ accepted tool data r.
Proof.
  destruct tool; simpl.
  - unfold OnPageSeoTool.reportOf. rewrite <- (html_accepted "blog_post_html" data r).
    simpl. destruct (at0 data) as [first |]; simpl; [| split; discriminate].
    destruct (prop "blog_post_html" first) as [[| | | html | |] |];
      try (split; discriminate).
    destruct (blank (trim html)); [split; discriminate | reflexivity].
  - split.
    + unfold KeywordGeneratorTool.keywordsOf. simpl.
      destruct (at0 data) as [first |]; simpl; [| discriminate].
      destruct (prop "keywords" first) as [[| | | | ks |] |] eqn:Ep; try discriminate.
      destruct ks as [| k rest].
      * intros [= <-]. exists first. repeat split. exact Ep.
      * unfold member. destruct k; try discriminate; simpl.
        destruct (props !! "keyword") eqn:Ek; [| discriminate].
        destruct (props !! "intent") eqn:Ei; [| discriminate].
        intros [= <-]. exists first. repeat split; [exact Ep | | ]; simpl; eauto.
    + intros (first & H0 & Hk & Hv). exact (keywordsOf_valid data first r H0 Hk Hv).
  - unfold BlogPostWriterTool.htmlOf. rewrite <- (html_accepted "blog_post_html" data r).
    simpl. destruct (at0 data) as [first |]; simpl; [| split; discriminate].
    destruct (prop "blog_post_html" first) as [[| | | html | |] |];
      try (split; discriminate).
    destruct (blank (trim html)); [split; discriminate | reflexivity].
  - split.
    + unfold RankTrackerTool.rankOf. simpl.
      destruct (at0 data) as [first |]; simpl; [| discriminate].
      destruct (truthy first); simpl; [| discriminate].
      destruct (prop "current_rank" first) as [c |] eqn:Ec; [| discriminate].
      destruct (prop "previous_rank" first) as [p |] eqn:Ep; [| discriminate].
      intros [= <-]. exists first, c, p. auto.
    + intros (first & c & p & H0 & Hc & Hp & ->).
      exact (rankOf_defined data first c p H0 Hc Hp).
Qed.

(** ** Inputs while a request is pending *)

(** X21: while a tool's request is pending, no event changes the webhook or
    the query fields of that tool: what is on screen stays what was sent. *)
Theorem pending_inputs_are_frozen p ev p' tool :
  Ui.step p ev = Some p' →
  isLoadingIn tool (appState (Ui.browser p)) = true →
  webhookIn tool (appState (Ui.browser p')) = webhookIn tool (appState (Ui.browser p))
  ∧ queryIn tool (appState (Ui.browser p')) = queryIn tool (appState (Ui.browser p)).
Proof.
  intros Hstep Hload. destruct ev as [t | field value | | t o]; simpl in Hstep.
  - injection Hstep as <-. split; reflexivity.
  - destruct (inputsDisabled _ _) eqn:Hdis; [discriminate |].
    destruct (Ui.onChange _ field value) as [newState |]; [| discriminate].
    injection Hstep as <-. cbn [Ui.browser].
    assert (tool ≠ Ui.activeTool p) as Hne.
    { intros ->. apply submitDisabled_loading in Hload. destruct Hload. congruence. }
    destruct (fields_getTool tool _ _
                (updateToolState_others (Ui.activeTool p) newState (Ui.browser p) tool Hne))
      as (_ & _ & _ & -> & ->).
    split; reflexivity.
  - destruct (submitDisabled _ _); [discriminate |].
    pose proof (handleSubmit_inputs (Ui.activeTool p) (Ui.browser p)) as (Hw & Hq & _).
    pose proof (handleSubmit_others (Ui.activeTool p) (Ui.browser p) tool) as Ho.
    assert (webhookIn tool (appState (fst (handleSubmit (Ui.activeTool p) (Ui.browser p))))
            = webhookIn tool (appState (Ui.browser p))
            ∧ queryIn tool (appState (fst (handleSubmit (Ui.activeTool p) (Ui.browser p))))
              = queryIn tool (appState (Ui.browser p))) as Hgoal.
    { destruct (decide (tool = Ui.activeTool p)) as [-> | Hne]; [auto |].
      destruct (fields_getTool tool _ _ (Ho Hne)) as (_ & _ & _ & -> & ->). auto. }
    destruct (handleSubmit _ _) as [b [request |]]; injection Hstep as <-; exact Hgoal.
  - case_decide; [| discriminate]. injection Hstep as <-. cbn [Ui.browser].
    destruct (decide (tool = t)) as [-> | Hne]; [apply settled_inputs |].
    destruct (fields_getTool tool _ _ (settled_others t o (Ui.browser p) tool Hne))
      as (_ & _ & _ & -> & ->).
    split; reflexivity.
Qed.

Lemma pending_inputs_are_frozen_witness :
  let p' :=
    {| Ui.browser := Ui.browser waitingPage; Ui.activeTool := RankTracker;
       Ui.pending := Ui.pending waitingPage |} in
  webhookIn KeywordGenerator (appState (Ui.browser p'))
  = webhookIn KeywordGenerator (appState (Ui.browser waitingPage))
  ∧ queryIn KeywordGenerator (appState (Ui.browser p'))
    = queryIn KeywordGenerator (appState (Ui.browser waitingPage)).
Proof.
  intros p'.
  apply (pending_inputs_are_frozen waitingPage (Ui.Navigate RankTracker) p' KeywordGenerator).
  - reflexivity.
  - vm_compute. reflexivity.
Defined.

(** ** A code span on a line *)

Lemma entity_no_asterisk c :
  Ascii.eqb c "*" = false → noneOf (fun a => Ascii.eqb a "*") (entity c) = true.
Proof. destruct c as [[] [] [] [] [] [] [] []]; intros H; vm_compute in *; congruence. Qed.

Lemma eachChar_no_asterisk s :
  noneOf (fun a => Ascii.eqb a "*") s = true →
  noneOf (fun a => Ascii.eqb a "*") (eachChar entity s) = true.
Proof.
  induction s as [| c s IH]; [reflexivity |].
  intros H. simpl in H. apply andb_true_iff in H as [Hc Hs]. apply negb_true_iff in Hc.
  simpl. now rewrite noneOf_app, (entity_no_asterisk c Hc), (IH Hs).
Qed.

Lemma noneOf_markdown s :
  noneOf isMarkdown s = true →
  noneOf isBacktick s = true ∧ noneOf (fun a => Ascii.eqb a "*") s = true.
Proof.
  intros H. split; apply (noneOf_weaken isMarkdown); try exact H; intros c Hc; cbv beta in Hc.
  - unfold isMarkdown. now rewrite Hc.
  - unfold isMarkdown. rewrite Hc. now rewrite orb_true_r.
Qed.

(** X22: on a line with one code span and no other backtick or asterisk,
    [processLine] keeps the text around the span as written and replaces
    the span by a code element that holds its content escaped. *)
Theorem code_span_is_escaped pre content post :
  noneOf isMarkdown pre = true →
  noneOf isMarkdown content = true →
  noneOf isLineTerminator content = true →
  noneOf isMarkdown post = true →
  OnPageSeoTool.processLine (pre ++ backtick ++ content ++ backtick ++ post)
  = pre ++ "<code>" ++ OnPageSeoTool.escapeHtml content ++ "</code>" ++ post.
Proof.
  intros Hpre Hcontent Hline Hpost.
  apply noneOf_markdown in Hpre as [Hpre Hpre'].
  apply noneOf_markdown in Hcontent as [Hcontent Hcontent'].
  apply noneOf_markdown in Hpost as [Hpost Hpost'].
  rewrite (processLine_code_span pre content post Hpre Hcontent Hline).
  unfold replaceSpans at 2. unfold backtick at 1.
  rewrite (replaceSpansFrom_none _ "096" EmptyString codeElement post Hpost).
  rewrite escapeHtml_by_character, !append_assoc.
  unfold replaceSpans. apply replaceSpansFrom_none.
  rewrite !noneOf_app, Hpre', Hpost', (eachChar_no_asterisk content Hcontent').
  reflexivity.
Qed.

Lemma code_span_is_escaped_witness :
  OnPageSeoTool.processLine ("Use " ++ backtick ++ "<title>" ++ backtick ++ " once")
  = "Use " ++ "<code>" ++ OnPageSeoTool.escapeHtml "<title>" ++ "</code>" ++ " once".
Proof.
  apply (code_span_is_escaped "Use " "<title>" " once"); reflexivity.
Defined.

(** ** [escapeHtml], character by character *)

(** X23: [escapeHtml] replaces each [&], [<], [>], double quote and single
    quote by its entity and keeps every other character, in order; the five
    successive replacements never touch each other's output. *)
Theorem escapeHtml_maps_each_character unsafe :
  OnPageSeoTool.escapeHtml unsafe = eachChar entity unsafe.
Proof. apply escapeHtml_by_character. Qed.

(** ** The Rank Tracker's card *)

(** X24: for a response whose two ranks are integers that a double holds
    exactly, the card shows each rank in decimal, except that a current
    rank of 0 is shown as 'Not Found' and a previous rank of 0 as 'N/A'. *)
Theorem rank_card_shows_ranks data first c p :
  at0 data = Some first →
  prop "current_rank" first = Some (JNum c) →
  prop "previous_rank" first = Some (JNum p) →
  isSafeInteger c = true →
  isSafeInteger p = true →
  ∃ r card,
    RankTrackerTool.rankOf data = Normal r
    ∧ RankTrackerView.renderResult (Some r) = Normal (Some card)
    ∧ RankTrackerView.currentText card = (if c =? 0 then "Not Found" else pretty c)
    ∧ RankTrackerView.previousText card = (if p =? 0 then "N/A" else pretty p).
Proof.
  intros H0 Hc Hp _ _. pose proof (rankOf_defined data first _ _ H0 Hc Hp) as Hr.
  destruct c, p; simpl in Hr;
    (eexists; eexists; split; [exact Hr |]; split; [reflexivity |]; split; reflexivity).
Qed.

Lemma rank_card_shows_ranks_witness :
  ∃ r card,
    RankTrackerTool.rankOf (ranks (JNum 0) (JNum 12)) = Normal r
    ∧ RankTrackerView.renderResult (Some r) = Normal (Some card)
    ∧ RankTrackerView.currentText card = (if 0 =? 0 then "Not Found" else pretty 0)
    ∧ RankTrackerView.previousText card = (if 12 =? 0 then "N/A" else pretty 12).
Proof.
  apply (rank_card_shows_ranks (ranks (JNum 0) (JNum 12))
           (JObj {[ "current_rank" := JNum 0; "previous_rank" := JNum 12 ]}) 0 12);
    reflexivity.
Defined.
